(** * Course Token Marketplace API: ledger and order matching

    A shallow embedding of [src/main.py] and [src/schemas.py]: the FastAPI
    handlers [create_course], [purchase_course], [place_order] and
    [match_trade] over a MongoDB store, and the properties of the token
    ledger they maintain.

    Python [int] is [Z]; Python [float] is IEEE 754 binary64, taken from
    [SpecFloat] with [prec = 53] and [emax = 1024]; a MongoDB collection is
    the list of its documents in natural (insertion) order; a handler is a
    function from the store to the store and an outcome, where a raised
    exception keeps every write made before it (the handlers open no
    transaction).  Documents keep Python's integers as they are; that
    MongoDB holds 64-bit integers, and that the [_id]s of a collection are
    distinct, is stated where a property needs it ([int64], [NoDup]). *)

From Stdlib Require Import ZArith NArith List String Ascii Bool Lia.
From Stdlib Require Import Strings.Byte Floats.SpecFloat.
Import ListNotations.

Local Open Scope string_scope.
Local Open Scope list_scope.
Local Open Scope Z_scope.

(* ================================================================== *)
(** * Python floats *)

Module PyFloat.

Definition float := spec_float.

Definition prec : Z := 53.
Definition emax : Z := 1024.

Definition mul : float -> float -> float := SFmul prec emax.
Definition add : float -> float -> float := SFadd prec emax.
Definition div : float -> float -> float := SFdiv prec emax.
Definition leb : float -> float -> bool := SFleb.
Definition ltb : float -> float -> bool := SFltb.

(** The nearest double to an integer, ties to even. *)
Definition round_int (z : Z) : float := binary_normalize prec emax z 0 false.

(** [float(z)], also the implicit conversion of the [int] operand of
    [int * float]: [OverflowError] ([None]) when the nearest double is
    not finite. *)
Definition of_int (z : Z) : option float :=
  match round_int z with
  | S754_infinity _ | S754_nan => None
  | f => Some f
  end.

(** [int(x)]: truncation toward zero; [OverflowError] on an infinity and
    [ValueError] on a NaN ([None]). *)
Definition to_int (x : float) : option Z :=
  match x with
  | S754_zero _ => Some 0
  | S754_finite s m e =>
      let v := match e with
               | Zneg p => Z.shiftr (Zpos m) (Zpos p)
               | _ => Z.shiftl (Zpos m) e
               end in
      Some (if s then - v else v)
  | S754_infinity _ | S754_nan => None
  end.

(** [math.floor(x)], the rounding the specification names. *)
Definition floor (x : float) : option Z :=
  match x with
  | S754_zero _ => Some 0
  | S754_finite s m e =>
      let v := if s then Zneg m else Zpos m in
      Some (match e with
            | Zneg p => Z.shiftr v (Zpos p)
            | _ => Z.shiftl v e
            end)
  | S754_infinity _ | S754_nan => None
  end.

(** The literals of [main.py]. *)
Definition zero : float := S754_zero false.                       (* 0.0 *)
Definition c_0_01 : float := S754_finite false 5764607523034235 (-59).  (* 0.01 *)
Definition c_0_005 : float := S754_finite false 5764607523034235 (-60). (* 0.005 *)

End PyFloat.

Definition float : Type := PyFloat.float.

(* ================================================================== *)
(** * bson.ObjectId *)

Module ObjectId.

(** An ObjectId is its bytes (twelve of them when the driver makes it). *)
Definition t := list byte.

Fixpoint eqb (a b : t) : bool :=
  match a, b with
  | [], [] => true
  | x :: a', y :: b' => Byte.eqb x y && eqb a' b'
  | _, _ => false
  end.

Definition hex_value (c : ascii) : option N :=
  let n := N_of_ascii c in
  if (48 <=? n)%N && (n <=? 57)%N then Some (n - 48)%N
  else if (97 <=? n)%N && (n <=? 102)%N then Some (n - 87)%N
  else if (65 <=? n)%N && (n <=? 70)%N then Some (n - 55)%N
  else None.

(** ASCII whitespace: space, [\t], [\n], [\v], [\f], [\r]. *)
Definition is_space (c : ascii) : bool :=
  let n := N_of_ascii c in
  (n =? 32)%N || ((9 <=? n)%N && (n <=? 13)%N).

Definition byte_of_N (n : N) : byte :=
  match Byte.of_N n with Some b => b | None => x00 end.

(** [bytes.fromhex]: two hexadecimal digits per byte, whitespace between
    bytes skipped, anything else a [ValueError] ([None]). *)
Fixpoint fromhex (s : string) : option (list byte) :=
  match s with
  | EmptyString => Some []
  | String c r =>
      if is_space c then fromhex r
      else
        match hex_value c, r with
        | Some hi, String d r' =>
            match hex_value d with
            | Some lo =>
                match fromhex r' with
                | Some bs => Some (byte_of_N (16 * hi + lo) :: bs)
                | None => None
                end
            | None => None
            end
        | _, _ => None
        end
  end.

(** [ObjectId(id_str)] for a [str] argument: [InvalidId] ([None]) unless
    the string has 24 characters that [bytes.fromhex] accepts. *)
Definition of_str (id_str : string) : option t :=
  if Nat.eqb (String.length id_str) 24 then fromhex id_str else None.

Definition hex_digit (n : N) : ascii :=
  if (n <? 10)%N then ascii_of_N (48 + n) else ascii_of_N (87 + n).

(** [str(oid)]: lowercase hexadecimal. *)
Fixpoint to_str (o : t) : string :=
  match o with
  | [] => EmptyString
  | b :: r =>
      let n := Byte.to_N b in
      String (hex_digit (n / 16)) (String (hex_digit (n mod 16)) (to_str r))
  end.

Fixpoint be_bytes (len : nat) (n : N) : list byte :=
  match len with
  | O => []
  | S k => be_bytes k (n / 256) ++ [byte_of_N (n mod 256)]
  end.

(** The [k]-th identifier the driver hands out: twelve bytes. *)
Definition generate (k : N) : t := be_bytes 12 k.

End ObjectId.

Definition ObjectId : Type := ObjectId.t.

(* ================================================================== *)
(** * schemas.py: the validated models *)

Inductive Side := buy | sell.

Inductive OrderStatus := open | filled | cancelled.

Inductive PurchaseStatus := paid | refunded.

Record Course := {
  creator_id : string;
  title : string;
  description : string;
  price_usd : float;                     (* Field(..., ge=0) *)
  category : option string;
  cover_image_url : option string;
  token_symbol : string;                 (* min_length=2, max_length=8 *)
  token_supply : Z;                      (* Field(..., gt=0) *)
  treasury_eth_address : string
}.

Record Purchase := {
  pu_user_id : string;
  pu_course_id : string;
  pu_price_usd : float;
  pu_status : PurchaseStatus             (* = "paid" *)
}.

Record CourseToken := {
  ct_course_id : string;
  ct_token_symbol : string;
  ct_total_supply : Z;
  ct_circulating_supply : Z;             (* = 0 *)
  ct_treasury_eth_address : string;
  ct_treasury_token_balance : Z;
  ct_treasury_revenue_usd : float        (* = 0.0 *)
}.

Record Balance := {
  ba_user_id : string;
  ba_course_id : string;
  ba_amount : Z                          (* = 0 *)
}.

Record Order := {
  or_course_id : string;
  or_user_id : string;
  or_side : Side;
  or_price_usd : float;                  (* Field(..., gt=0) *)
  or_amount : Z;                         (* Field(..., gt=0) *)
  or_status : OrderStatus                (* = "open" *)
}.

(** The request bodies declared in [main.py]. *)
Record PurchaseRequest := { pr_user_id : string }.

Record TradeRequest := {
  buy_order_id : string;
  sell_order_id : string;
  tr_amount : Z
}.

(** What pydantic checks before a handler runs. *)
Definition Course_valid (c : Course) : bool :=
  PyFloat.leb PyFloat.zero (price_usd c)
  && Nat.leb 2 (String.length (token_symbol c))
  && Nat.leb (String.length (token_symbol c)) 8
  && Z.ltb 0 (token_supply c).

Definition Order_valid (o : Order) : bool :=
  PyFloat.ltb PyFloat.zero (or_price_usd o) && Z.ltb 0 (or_amount o).

(* ================================================================== *)
(** * The documents of the five collections

    A field a handler reads with [doc.get(key, default)], or that some
    writer leaves out, is an [option]; a field read with [doc[key]] is
    there. *)

Record CourseDoc := {
  c_id : ObjectId;
  c_price_usd : option float;
  c_model : Course
}.

Record TokenDoc := {
  t_id : ObjectId;
  t_course_id : string;
  t_token_symbol : string;
  t_total_supply : option Z;
  t_circulating_supply : option Z;
  t_treasury_eth_address : string;
  t_treasury_token_balance : option Z;
  t_treasury_revenue_usd : option float
}.

Record BalanceDoc := {
  b_id : ObjectId;
  b_user_id : string;
  b_course_id : string;
  b_amount : option Z;
  b_reserved : option Z
}.

Record OrderDoc := {
  o_id : ObjectId;
  o_course_id : string;
  o_user_id : string;
  o_side : Side;
  o_price_usd : float;
  o_amount : Z;
  o_status : OrderStatus
}.

Record PurchaseDoc := {
  p_id : ObjectId;
  p_model : Purchase
}.

(** [doc.get(key, default)]. *)
Definition get {A : Type} (field : option A) (default : A) : A :=
  match field with Some v => v | None => default end.

(** [{"$inc": {key: delta}}]: adds to the field, and sets an absent field
    to [delta]. *)
Definition inc (delta : Z) (field : option Z) : option Z :=
  match field with Some v => Some (v + delta) | None => Some delta end.

Definition inc_float (delta : float) (field : option float) : option float :=
  match field with Some v => Some (PyFloat.add v delta) | None => Some delta end.

(* ================================================================== *)
(** * The store *)

Record DB := {
  course : list CourseDoc;
  coursetoken : list TokenDoc;
  balance : list BalanceDoc;
  order : list OrderDoc;
  purchase : list PurchaseDoc;
  next_oid : N                            (* identifiers handed out so far *)
}.

Definition empty_db : DB :=
  {| course := []; coursetoken := []; balance := []; order := [];
     purchase := []; next_oid := 0 |}.

Definition set_course (f : list CourseDoc -> list CourseDoc) (db : DB) : DB :=
  {| course := f (course db); coursetoken := coursetoken db;
     balance := balance db; order := order db; purchase := purchase db;
     next_oid := next_oid db |}.

Definition set_coursetoken (f : list TokenDoc -> list TokenDoc) (db : DB) : DB :=
  {| course := course db; coursetoken := f (coursetoken db);
     balance := balance db; order := order db; purchase := purchase db;
     next_oid := next_oid db |}.

Definition set_balance (f : list BalanceDoc -> list BalanceDoc) (db : DB) : DB :=
  {| course := course db; coursetoken := coursetoken db;
     balance := f (balance db); order := order db; purchase := purchase db;
     next_oid := next_oid db |}.

Definition set_order (f : list OrderDoc -> list OrderDoc) (db : DB) : DB :=
  {| course := course db; coursetoken := coursetoken db;
     balance := balance db; order := f (order db); purchase := purchase db;
     next_oid := next_oid db |}.

Definition set_purchase (f : list PurchaseDoc -> list PurchaseDoc) (db : DB) : DB :=
  {| course := course db; coursetoken := coursetoken db;
     balance := balance db; order := order db; purchase := f (purchase db);
     next_oid := next_oid db |}.

Definition set_next_oid (n : N) (db : DB) : DB :=
  {| course := course db; coursetoken := coursetoken db;
     balance := balance db; order := order db; purchase := purchase db;
     next_oid := n |}.

(** [collection.find_one(query)]: the first document that matches. *)
Definition find_one {D : Type} (query : D -> bool) (c : list D) : option D :=
  find query c.

(** [collection.update_one(query, update)]: the first document that
    matches is updated; nothing happens when none does. *)
Fixpoint update_one {D : Type} (query : D -> bool) (update : D -> D)
    (c : list D) : list D :=
  match c with
  | [] => []
  | d :: r => if query d then update d :: r else d :: update_one query update r
  end.

(* ================================================================== *)
(** * Handlers as store transformers *)

Inductive outcome (A : Type) :=
| Returned (a : A)
| HTTPException (status_code : Z) (detail : string)
| Raised (exception : string).           (* uncaught: a 500 response *)

Arguments Returned {A} a.
Arguments HTTPException {A} status_code detail.
Arguments Raised {A} exception.

Definition M (A : Type) : Type := DB -> DB * outcome A.

Definition ret {A : Type} (a : A) : M A := fun db => (db, Returned a).

Definition bind {A B : Type} (m : M A) (k : A -> M B) : M B :=
  fun db =>
    match m db with
    | (db', Returned a) => k a db'
    | (db', HTTPException code detail) => (db', HTTPException code detail)
    | (db', Raised e) => (db', Raised e)
    end.

Definition raise_http {A : Type} (code : Z) (detail : string) : M A :=
  fun db => (db, HTTPException code detail).

Definition raise {A : Type} (e : string) : M A := fun db => (db, Raised e).

Definition reads {A : Type} (f : DB -> A) : M A := fun db => (db, Returned (f db)).

Definition writes (f : DB -> DB) : M unit := fun db => (f db, Returned tt).

Notation "x <- m ;; k" := (bind m (fun x => k))
  (at level 61, m at next level, right associativity).
Notation "m ;;; k" := (bind m (fun _ => k))
  (at level 61, right associativity).

(** The driver gives a document with no [_id] a new one. *)
Definition new_oid : M ObjectId :=
  fun db => (set_next_oid (N.succ (next_oid db)) db,
             Returned (ObjectId.generate (next_oid db))).

(** [ObjectIdStr.to_obj]. *)
Definition to_obj (id_str : string) : M ObjectId :=
  match ObjectId.of_str id_str with
  | Some o => ret o
  | None => raise_http 400 "Invalid id"
  end.

(* ================================================================== *)
(** * database.py *)

Inductive Model :=
| ACourse (c : Course)
| ACourseToken (t : CourseToken)
| ABalance (b : Balance)
| AnOrder (o : Order)
| APurchase (p : Purchase).

(** Modelled from the spec: [create_document] of [database.py], which the
    handlers import and which is not among the sources.  It persists the
    model as a new document at the end of the collection named after the
    model's class, every field of the model stored under its own name, and
    returns the identifier of the created document as a string. *)
Definition create_document (data : Model) : M string :=
  oid <- new_oid ;;
  writes
    match data with
    | ACourse c =>
        set_course (fun l => l ++
          [ {| c_id := oid; c_price_usd := Some (price_usd c); c_model := c |} ])
    | ACourseToken t =>
        set_coursetoken (fun l => l ++
          [ {| t_id := oid;
               t_course_id := ct_course_id t;
               t_token_symbol := ct_token_symbol t;
               t_total_supply := Some (ct_total_supply t);
               t_circulating_supply := Some (ct_circulating_supply t);
               t_treasury_eth_address := ct_treasury_eth_address t;
               t_treasury_token_balance := Some (ct_treasury_token_balance t);
               t_treasury_revenue_usd := Some (ct_treasury_revenue_usd t) |} ])
    | ABalance b =>
        set_balance (fun l => l ++
          [ {| b_id := oid;
               b_user_id := ba_user_id b;
               b_course_id := ba_course_id b;
               b_amount := Some (ba_amount b);
               b_reserved := None |} ])
    | AnOrder o =>
        set_order (fun l => l ++
          [ {| o_id := oid;
               o_course_id := or_course_id o;
               o_user_id := or_user_id o;
               o_side := or_side o;
               o_price_usd := or_price_usd o;
               o_amount := or_amount o;
               o_status := or_status o |} ])
    | APurchase p =>
        set_purchase (fun l => l ++ [ {| p_id := oid; p_model := p |} ])
    end ;;;
  ret (ObjectId.to_str oid).

(** [db.balance.insert_one({...})], as [match_trade] calls it. *)
Definition balance_insert_one (user_id course_id : string)
    (amount reserved : option Z) : M unit :=
  oid <- new_oid ;;
  writes (set_balance (fun l => l ++
    [ {| b_id := oid; b_user_id := user_id; b_course_id := course_id;
         b_amount := amount; b_reserved := reserved |} ])).

(** The queries the handlers use. *)
Definition course_by_id (oid : ObjectId) (c : CourseDoc) : bool :=
  ObjectId.eqb (c_id c) oid.

Definition token_by_course (course_id : string) (t : TokenDoc) : bool :=
  String.eqb (t_course_id t) course_id.

Definition balance_by_owner (user_id course_id : string) (b : BalanceDoc) : bool :=
  String.eqb (b_user_id b) user_id && String.eqb (b_course_id b) course_id.

Definition balance_by_id (oid : ObjectId) (b : BalanceDoc) : bool :=
  ObjectId.eqb (b_id b) oid.

Definition order_by_id (oid : ObjectId) (o : OrderDoc) : bool :=
  ObjectId.eqb (o_id o) oid.

(** The updates the handlers use. *)
Definition token_inc (circulating treasury : Z) (revenue : float) (t : TokenDoc) : TokenDoc :=
  {| t_id := t_id t;
     t_course_id := t_course_id t;
     t_token_symbol := t_token_symbol t;
     t_total_supply := t_total_supply t;
     t_circulating_supply := inc circulating (t_circulating_supply t);
     t_treasury_eth_address := t_treasury_eth_address t;
     t_treasury_token_balance := inc treasury (t_treasury_token_balance t);
     t_treasury_revenue_usd := inc_float revenue (t_treasury_revenue_usd t) |}.

Definition token_inc_revenue (revenue : float) (t : TokenDoc) : TokenDoc :=
  {| t_id := t_id t;
     t_course_id := t_course_id t;
     t_token_symbol := t_token_symbol t;
     t_total_supply := t_total_supply t;
     t_circulating_supply := t_circulating_supply t;
     t_treasury_eth_address := t_treasury_eth_address t;
     t_treasury_token_balance := t_treasury_token_balance t;
     t_treasury_revenue_usd := inc_float revenue (t_treasury_revenue_usd t) |}.

Definition balance_inc_amount (delta : Z) (b : BalanceDoc) : BalanceDoc :=
  {| b_id := b_id b; b_user_id := b_user_id b; b_course_id := b_course_id b;
     b_amount := inc delta (b_amount b); b_reserved := b_reserved b |}.

Definition balance_inc_reserved (delta : Z) (b : BalanceDoc) : BalanceDoc :=
  {| b_id := b_id b; b_user_id := b_user_id b; b_course_id := b_course_id b;
     b_amount := b_amount b; b_reserved := inc delta (b_reserved b) |}.

Definition balance_inc_both (d_amount d_reserved : Z) (b : BalanceDoc) : BalanceDoc :=
  {| b_id := b_id b; b_user_id := b_user_id b; b_course_id := b_course_id b;
     b_amount := inc d_amount (b_amount b);
     b_reserved := inc d_reserved (b_reserved b) |}.

Definition order_inc_amount (delta : Z) (o : OrderDoc) : OrderDoc :=
  {| o_id := o_id o; o_course_id := o_course_id o; o_user_id := o_user_id o;
     o_side := o_side o; o_price_usd := o_price_usd o;
     o_amount := o_amount o + delta; o_status := o_status o |}.

(** [z * x] for an [int] and a [float]. *)
Definition int_mul_float (z : Z) (x : float) : M float :=
  match PyFloat.of_int z with
  | Some f => ret (PyFloat.mul f x)
  | None => raise "OverflowError"
  end.

(** [int(x)]. *)
Definition int_of_float (x : float) : M Z :=
  match PyFloat.to_int x with
  | Some z => ret z
  | None => raise "OverflowError"
  end.

Definition Side_eqb (a b : Side) : bool :=
  match a, b with buy, buy | sell, sell => true | _, _ => false end.

(* ================================================================== *)
(** * main.py *)

(** [POST /api/courses] *)
Definition create_course (c : Course) : M string :=
  course_id <- create_document (ACourse c) ;;
  let token_record :=
    {| ct_course_id := course_id;
       ct_token_symbol := token_symbol c;
       ct_total_supply := token_supply c;
       ct_circulating_supply := 0;
       ct_treasury_eth_address := treasury_eth_address c;
       ct_treasury_token_balance := token_supply c;
       ct_treasury_revenue_usd := PyFloat.zero |} in
  create_document (ACourseToken token_record) ;;;
  ret course_id.

(** [GET /api/courses/{course_id}]: the course document the lookup returned,
    with the token record (or [None]) stored under the key ["token"] of that
    copy. *)
Record CourseView := {
  cv_course : CourseDoc;
  cv_token : option TokenDoc              (* key "token" *)
}.

Definition get_course (course_id : string) : M CourseView :=
  oid <- to_obj course_id ;;
  found <- reads (fun db => find_one (course_by_id oid) (course db)) ;;
  match found with
  | None => raise_http 404 "Course not found"
  | Some course_doc =>
      token <- reads (fun db =>
                 find_one (token_by_course course_id) (coursetoken db)) ;;
      ret {| cv_course := course_doc; cv_token := token |}
  end.

Record PurchaseResponse := {
  purchase_id : string;
  tokens_awarded : Z;
  paid_price_usd : float                  (* key "price_usd" *)
}.

(** [POST /api/courses/{course_id}/purchase] *)
Definition purchase_course (course_id : string) (req : PurchaseRequest)
    : M PurchaseResponse :=
  oid <- to_obj course_id ;;
  found <- reads (fun db => find_one (course_by_id oid) (course db)) ;;
  match found with
  | None => raise_http 404 "Course not found"
  | Some course_doc =>
  found <- reads (fun db => find_one (token_by_course course_id) (coursetoken db)) ;;
  match found with
  | None => raise_http 500 "Token record missing for course"
  | Some token =>
  let price := get (c_price_usd course_doc) PyFloat.zero in
  let purchase :=
    {| pu_user_id := pr_user_id req; pu_course_id := course_id;
       pu_price_usd := price; pu_status := paid |} in
  purchase_id <- create_document (APurchase purchase) ;;
  one_percent <- int_mul_float (get (t_total_supply token) 1000) PyFloat.c_0_01 ;;
  whole <- int_of_float one_percent ;;
  let allocate := Z.max 1 whole in
  let allocate :=
    if get (t_treasury_token_balance token) 0 <? allocate
    then get (t_treasury_token_balance token) 0
    else allocate in
  writes (set_coursetoken
            (update_one (token_by_course course_id)
                        (token_inc allocate (- allocate) price))) ;;;
  bal <- reads (fun db =>
           find_one (balance_by_owner (pr_user_id req) course_id) (balance db)) ;;
  match bal with
  | Some bal =>
      writes (set_balance
                (update_one (balance_by_id (b_id bal)) (balance_inc_amount allocate)))
  | None =>
      create_document
        (ABalance {| ba_user_id := pr_user_id req; ba_course_id := course_id;
                     ba_amount := allocate |}) ;;;
      ret tt
  end ;;;
  ret {| purchase_id := purchase_id; tokens_awarded := allocate;
         paid_price_usd := price |}
  end
  end.

(** [POST /api/orders] *)
Definition place_order (o : Order) : M string :=
  oid <- to_obj (or_course_id o) ;;
  found <- reads (fun db => find_one (course_by_id oid) (course db)) ;;
  match found with
  | None => raise_http 404 "Course not found"
  | Some _ =>
  match or_side o with
  | sell =>
      bal <- reads (fun db =>
               find_one (balance_by_owner (or_user_id o) (or_course_id o))
                        (balance db)) ;;
      match bal with
      | None => raise_http 400 "Insufficient token balance"
      | Some bal =>
          if get (b_amount bal) 0 <? or_amount o
          then raise_http 400 "Insufficient token balance"
          else
            writes (set_balance
                      (update_one (balance_by_id (b_id bal))
                         (balance_inc_both (- or_amount o) (or_amount o))))
      end
  | buy => ret tt
  end ;;;
  create_document (AnOrder o)
  end.

Record TradeResponse := {
  filled_amount : Z;
  trade_price_usd : float                 (* key "price_usd" *)
}.

(** [POST /api/trades] *)
Definition match_trade (req : TradeRequest) : M TradeResponse :=
  buy_oid <- to_obj (buy_order_id req) ;;
  buy_doc <- reads (fun db => find_one (order_by_id buy_oid) (order db)) ;;
  sell_oid <- to_obj (sell_order_id req) ;;
  sell_doc <- reads (fun db => find_one (order_by_id sell_oid) (order db)) ;;
  match buy_doc, sell_doc with
  | Some buy_doc, Some sell_doc =>
  if negb (Side_eqb (o_side buy_doc) buy) || negb (Side_eqb (o_side sell_doc) sell)
  then raise_http 400 "Invalid order sides"
  else if negb (String.eqb (o_course_id buy_doc) (o_course_id sell_doc))
  then raise_http 400 "Course mismatch"
  else
  let amount := Z.min (Z.min (tr_amount req) (o_amount buy_doc)) (o_amount sell_doc) in
  let price := o_price_usd sell_doc in
  writes (set_order (update_one (order_by_id (o_id sell_doc))
                                (order_inc_amount (- amount)))) ;;;
  writes (set_order (update_one (order_by_id (o_id buy_doc))
                                (order_inc_amount (- amount)))) ;;;
  bal_seller <- reads (fun db =>
    find_one (balance_by_owner (o_user_id sell_doc) (o_course_id sell_doc))
             (balance db)) ;;
  bal_seller <-
    match bal_seller with
    | Some b => ret (Some b)
    | None =>
        balance_insert_one (o_user_id sell_doc) (o_course_id sell_doc)
                           (Some 0) (Some 0) ;;;
        reads (fun db =>
          find_one (balance_by_owner (o_user_id sell_doc) (o_course_id sell_doc))
                   (balance db))
    end ;;
  match bal_seller with
  | None => raise "TypeError"
  | Some bal_seller =>
  writes (set_balance (update_one (balance_by_id (b_id bal_seller))
                                  (balance_inc_reserved (- amount)))) ;;;
  bal_buyer <- reads (fun db =>
    find_one (balance_by_owner (o_user_id buy_doc) (o_course_id buy_doc))
             (balance db)) ;;
  match bal_buyer with
  | Some bal_buyer =>
      writes (set_balance (update_one (balance_by_id (b_id bal_buyer))
                                      (balance_inc_amount amount)))
  | None =>
      balance_insert_one (o_user_id buy_doc) (o_course_id buy_doc)
                         (Some amount) None
  end ;;;
  gross <- int_mul_float amount price ;;
  writes (set_coursetoken
            (update_one (token_by_course (o_course_id buy_doc))
                        (token_inc_revenue (PyFloat.mul gross PyFloat.c_0_005)))) ;;;
  ret {| filled_amount := amount; trade_price_usd := price |}
  end
  | _, _ => raise_http 404 "Order not found"
  end.

(* ================================================================== *)
(** * The API as the client sees it *)

Inductive Request :=
| PostCourse (c : Course)
| PostPurchase (course_id : string) (req : PurchaseRequest)
| PostOrder (o : Order)
| PostTrade (req : TradeRequest).

Inductive Response :=
| CourseCreated (id : string)
| Purchased (r : PurchaseResponse)
| OrderPlaced (id : string)
| TradeMatched (r : TradeResponse).

(** FastAPI validates the body against its model (422 otherwise), then
    calls the handler. *)
Definition handle (r : Request) : M Response :=
  match r with
  | PostCourse c =>
      if Course_valid c
      then id <- create_course c ;; ret (CourseCreated id)
      else raise_http 422 "Unprocessable Entity"
  | PostPurchase course_id req =>
      res <- purchase_course course_id req ;; ret (Purchased res)
  | PostOrder o =>
      if Order_valid o
      then id <- place_order o ;; ret (OrderPlaced id)
      else raise_http 422 "Unprocessable Entity"
  | PostTrade req =>
      res <- match_trade req ;; ret (TradeMatched res)
  end.

(** A session: requests served one after the other. *)
Fixpoint serve (rs : list Request) (db : DB) : DB :=
  match rs with
  | [] => db
  | r :: rs' => serve rs' (fst (handle r db))
  end.

Inductive reachable : DB -> Prop :=
| reachable_empty : reachable empty_db
| reachable_step (db : DB) (r : Request) :
    reachable db -> reachable (fst (handle r db)).

(* ================================================================== *)
(** * The vocabulary of the properties, and the stores of the examples *)

(** An integer MongoDB can hold: BSON integers have at most 64 bits. *)
Definition int64 (z : Z) : Prop := - 2 ^ 63 <= z < 2 ^ 63.

(** The query [{"_id": k}] on a collection whose [_id] field is [key]. *)
Definition by_key {D : Type} (key : D -> ObjectId) (k : ObjectId) (d : D) : bool :=
  ObjectId.eqb (key d) k.

(** The tokens a purchase allocates, given the whole part of one percent
    of the supply. *)
Definition allocation (token : TokenDoc) (whole : Z) : Z :=
  if get (t_treasury_token_balance token) 0 <? Z.max 1 whole
  then get (t_treasury_token_balance token) 0
  else Z.max 1 whole.

(** [circulating_supply + treasury_token_balance == total_supply]. *)
Definition supply_invariant (t : TokenDoc) : Prop :=
  match t_circulating_supply t, t_treasury_token_balance t, t_total_supply t with
  | Some circulating, Some treasury, Some total => circulating + treasury = total
  | _, _, _ => False
  end.

(** The three supply fields of a token record. *)
Definition supply (t : TokenDoc) : option Z * option Z * option Z :=
  (t_total_supply t, t_circulating_supply t, t_treasury_token_balance t).

Definition demo_course : Course :=
  {| creator_id := "creator-1"; title := "Proofs"; description := "A course";
     price_usd := PyFloat.round_int 50; category := None;
     cover_image_url := None; token_symbol := "PRF"; token_supply := 1000;
     treasury_eth_address := "0xabc" |}.

(** The store after [POST /api/courses] with [demo_course]; the course gets
    the identifier [000000000000000000000000]. *)
Definition demo_db : DB := Eval vm_compute in serve [PostCourse demo_course] empty_db.

Definition demo_course_id : string := "000000000000000000000000".

(** The available amount of a user for a course: [amount] of the record
    [find_one] returns, zero without a record or without the field. *)
Definition available (db : DB) (user_id course_id : string) : Z :=
  match find_one (balance_by_owner user_id course_id) (balance db) with
  | Some b => get (b_amount b) 0
  | None => 0
  end.

(** The reserved amount, read the same way. *)
Definition reserved (db : DB) (user_id course_id : string) : Z :=
  match find_one (balance_by_owner user_id course_id) (balance db) with
  | Some b => get (b_reserved b) 0
  | None => 0
  end.

(** An update that keeps the owner and the [_id] of a record. *)
Definition keeps_owner (u : BalanceDoc -> BalanceDoc) : Prop :=
  forall b, b_id (u b) = b_id b /\ b_user_id (u b) = b_user_id b
            /\ b_course_id (u b) = b_course_id b.

(** The reward as the specification writes it:
    [max(1, floor(total_supply * 0.01))], in Python's arithmetic. *)
Definition requested_reward (total_supply : Z) : option Z :=
  match PyFloat.of_int total_supply with
  | Some f => option_map (Z.max 1) (PyFloat.floor (PyFloat.mul f PyFloat.c_0_01))
  | None => None
  end.

Definition demo_request : PurchaseRequest := {| pr_user_id := "U1" |}.

(** The quantity a trade fills. *)
Definition fill (req : TradeRequest) (buy_doc sell_doc : OrderDoc) : Z :=
  Z.min (Z.min (tr_amount req) (o_amount buy_doc)) (o_amount sell_doc).

(** What lines 197 to 208 of [main.py] do to the balance collection when
    the next identifier is [next]. *)
Definition settle (next : N) (buy_doc sell_doc : OrderDoc) (amount : Z)
    (c : list BalanceDoc) : list BalanceDoc :=
  let seller := balance_by_owner (o_user_id sell_doc) (o_course_id sell_doc) in
  let buyer := balance_by_owner (o_user_id buy_doc) (o_course_id buy_doc) in
  let '(c1, next1) :=
    match find_one seller c with
    | Some _ => (c, next)
    | None =>
        (c ++ [ {| b_id := ObjectId.generate next;
                   b_user_id := o_user_id sell_doc;
                   b_course_id := o_course_id sell_doc;
                   b_amount := Some 0; b_reserved := Some 0 |} ], N.succ next)
    end in
  match find_one seller c1 with
  | None => c1
  | Some bal_seller =>
      let c2 := update_one (balance_by_id (b_id bal_seller))
                  (balance_inc_reserved (- amount)) c1 in
      match find_one buyer c2 with
      | Some bal_buyer =>
          update_one (balance_by_id (b_id bal_buyer)) (balance_inc_amount amount) c2
      | None =>
          c2 ++ [ {| b_id := ObjectId.generate next1;
                     b_user_id := o_user_id buy_doc;
                     b_course_id := o_course_id buy_doc;
                     b_amount := Some amount; b_reserved := None |} ]
      end
  end.

Definition demo_sell : Order :=
  {| or_course_id := demo_course_id; or_user_id := "U1"; or_side := sell;
     or_price_usd := PyFloat.round_int 2; or_amount := 5; or_status := open |}.

Definition demo_buy : Order :=
  {| or_course_id := demo_course_id; or_user_id := "U2"; or_side := buy;
     or_price_usd := PyFloat.round_int 1; or_amount := 5; or_status := open |}.

(** A store with one course, a purchase by U1, a sell order of U1 for 5
    tokens at 2.0 and a buy order of U2 for 5 tokens at 1.0. *)
Definition market_db : DB :=
  Eval vm_compute in
    serve [PostCourse demo_course; PostPurchase demo_course_id demo_request;
           PostOrder demo_sell; PostOrder demo_buy] empty_db.

Definition demo_sell_id : string := "000000000000000000000004".
Definition demo_buy_id : string := "000000000000000000000005".

Definition demo_trade (amount : Z) : TradeRequest :=
  {| buy_order_id := demo_buy_id; sell_order_id := demo_sell_id;
     tr_amount := amount |}.

Definition no_order : OrderDoc :=
  {| o_id := []; o_course_id := ""; o_user_id := ""; o_side := buy;
     o_price_usd := PyFloat.zero; o_amount := 0; o_status := open |}.

Definition market_sell_doc : OrderDoc := nth 0 (order market_db) no_order.
Definition market_buy_doc : OrderDoc := nth 1 (order market_db) no_order.

(** The available and reserved amounts read from a collection. *)
Definition amount_in (c : list BalanceDoc) (user_id course_id : string) : Z :=
  match find_one (balance_by_owner user_id course_id) c with
  | Some b => get (b_amount b) 0
  | None => 0
  end.

Definition reserved_in (c : list BalanceDoc) (user_id course_id : string) : Z :=
  match find_one (balance_by_owner user_id course_id) c with
  | Some b => get (b_reserved b) 0
  | None => 0
  end.

(** The two values of a balance record. *)
Definition holdings (b : BalanceDoc) : Z * Z :=
  (get (b_amount b) 0, get (b_reserved b) 0).

Definition holdings_in (c : list BalanceDoc) (user_id course_id : string) : Z * Z :=
  match find_one (balance_by_owner user_id course_id) c with
  | Some b => holdings b
  | None => (0, 0)
  end.

(** The store after the two orders of [market_db] have been matched in
    full. *)
Definition settled_db : DB :=
  Eval vm_compute in fst (match_trade (demo_trade 5) market_db).

(** The document [create_document] stores for an order. *)
Definition order_doc (oid : ObjectId) (o : Order) : OrderDoc :=
  {| o_id := oid; o_course_id := or_course_id o; o_user_id := or_user_id o;
     o_side := or_side o; o_price_usd := or_price_usd o;
     o_amount := or_amount o; o_status := or_status o |}.

(** The store after [demo_course] was created and U1 bought it: U1 holds
    10 tokens. *)
Definition funded_db : DB :=
  Eval vm_compute in
    serve [PostCourse demo_course; PostPurchase demo_course_id demo_request]
      empty_db.

(** Everything an order document holds but its open amount. *)
Definition order_frame (o : OrderDoc)
    : ObjectId * string * string * Side * float * OrderStatus :=
  (o_id o, o_course_id o, o_user_id o, o_side o, o_price_usd o, o_status o).

(** An order placed with the status "filled". *)
Definition late_order : Order :=
  {| or_course_id := demo_course_id; or_user_id := "U2"; or_side := buy;
     or_price_usd := PyFloat.round_int 1; or_amount := 5; or_status := filled |}.

(** A session of well-formed requests: a course, a purchase by U1, a sell
    order of U1, a buy order of U2, and a trade of -3 tokens. *)
Definition negative_session : list Request :=
  [PostCourse demo_course; PostPurchase demo_course_id demo_request;
   PostOrder demo_sell; PostOrder demo_buy; PostTrade (demo_trade (-3))].

(* ================================================================== *)
(** * Further vocabulary: the ledger as a whole *)

(** A token record whose three supply fields are there, add up, and are
    not negative. *)
Definition token_sound (t : TokenDoc) : Prop :=
  match t_circulating_supply t, t_treasury_token_balance t, t_total_supply t with
  | Some circulating, Some treasury, Some total =>
      circulating + treasury = total /\ 0 <= circulating /\ 0 <= treasury
  | _, _, _ => False
  end.

(** What a balance record holds in all: available plus reserved. *)
Definition record_total (b : BalanceDoc) : Z :=
  get (b_amount b) 0 + get (b_reserved b) 0.

(** The tokens of a course held by users: the sum over the balance records
    of that course. *)
Fixpoint held_in (c : list BalanceDoc) (course_id : string) : Z :=
  match c with
  | [] => 0
  | b :: r =>
      (if String.eqb (b_course_id b) course_id then record_total b else 0)
      + held_in r course_id
  end.

(** The owner of a balance record and what the record holds in all. *)
Definition owner_total (b : BalanceDoc) : ObjectId * string * string * Z :=
  (b_id b, b_user_id b, b_course_id b, record_total b).

(** The document [create_document] stores for a purchase. *)
Definition purchase_doc (oid : ObjectId) (user_id course_id : string)
    (price : float) : PurchaseDoc :=
  {| p_id := oid;
     p_model := {| pu_user_id := user_id; pu_course_id := course_id;
                   pu_price_usd := price; pu_status := paid |} |}.

(** The token record [create_course] stores for a course. *)
Definition initial_token (oid : ObjectId) (course_id : string) (c : Course)
    : TokenDoc :=
  {| t_id := oid; t_course_id := course_id;
     t_token_symbol := token_symbol c;
     t_total_supply := Some (token_supply c);
     t_circulating_supply := Some 0;
     t_treasury_eth_address := treasury_eth_address c;
     t_treasury_token_balance := Some (token_supply c);
     t_treasury_revenue_usd := Some PyFloat.zero |}.

(** [i] right shifts of [P]: the quotient, and a round bit that is set
    only if the remainder is at least half of [2 ^ i]. *)
Definition shifted (P i : Z) (mrs : shr_record) : Prop :=
  shr_m mrs = P / 2 ^ i /\ (shr_r mrs = true -> 2 ^ i <= 2 * (P mod 2 ^ i)).

(** The owner of a balance record. *)
Definition owner (b : BalanceDoc) : string * string :=
  (b_user_id b, b_course_id b).

(** Every [_id] of the collection was handed out before the driver's
    counter reached [n]. *)
Definition ids_below (n : N) (c : list BalanceDoc) : Prop :=
  Forall (fun b => exists k, (k < n)%N /\ b_id b = ObjectId.generate k) c.

(** The driver's counter after the balance writes of a trade. *)
Definition settle_next (next : N) (buy_doc sell_doc : OrderDoc) (amount : Z)
    (c : list BalanceDoc) : N :=
  let seller := balance_by_owner (o_user_id sell_doc) (o_course_id sell_doc) in
  let buyer := balance_by_owner (o_user_id buy_doc) (o_course_id buy_doc) in
  let '(c1, next1) :=
    match find_one seller c with
    | Some _ => (c, next)
    | None =>
        (c ++ [ {| b_id := ObjectId.generate next;
                   b_user_id := o_user_id sell_doc;
                   b_course_id := o_course_id sell_doc;
                   b_amount := Some 0; b_reserved := Some 0 |} ], N.succ next)
    end in
  match find_one seller c1 with
  | None => next1
  | Some bal_seller =>
      match find_one buyer
              (update_one (balance_by_id (b_id bal_seller))
                 (balance_inc_reserved (- amount)) c1) with
      | Some _ => next1
      | None => N.succ next1
      end
  end.

(** A request that asks for no negative trade. *)
Definition trade_amount_ok (r : Request) : Prop :=
  match r with
  | PostTrade req => 0 <= tr_amount req
  | _ => True
  end.

(** The [_id]s of the balance records are distinct, and all handed out by
    the driver before its counter reached [n]. *)
Definition ids_ok (n : N) (c : list BalanceDoc) : Prop :=
  NoDup (map b_id c) /\ ids_below n c.

(** No available amount is negative. *)
Definition nonnegative (c : list BalanceDoc) : Prop :=
  Forall (fun b => 0 <= get (b_amount b) 0) c.

(** The balance records are in order. *)
Definition ledger_ok (n : N) (c : list BalanceDoc) : Prop :=
  ids_ok n c /\ nonnegative c.

(** What a sell order of the given owner still offers; nothing for any
    other order. *)
Definition sell_weight (user_id course_id : string) (o : OrderDoc) : Z :=
  if Side_eqb (o_side o) sell
     && (String.eqb (o_user_id o) user_id && String.eqb (o_course_id o) course_id)
  then o_amount o
  else 0.

(** The open amount of all the sell orders of an owner. *)
Definition sell_open (c : list OrderDoc) (user_id course_id : string) : Z :=
  fold_right (fun o total => sell_weight user_id course_id o + total) 0 c.

(** The books of a store agree: what an owner has reserved is what the
    owner's sell orders still offer. *)
Definition books_ok (db : DB) : Prop :=
  ids_ok (next_oid db) (balance db)
  /\ forall user_id course_id,
       reserved db user_id course_id = sell_open (order db) user_id course_id.

(** The accounts of a store are in order: the balance records are, the
    token records are sound and no order has a negative open amount. *)
Definition accounts_ok (db : DB) : Prop :=
  ledger_ok (next_oid db) (balance db)
  /\ Forall token_sound (coursetoken db)
  /\ Forall (fun o => 0 <= o_amount o) (order db).

(** A session of valid courses, purchases, orders and trades, none of
    them negative. *)
Definition trading_session : list Request :=
  [PostCourse demo_course; PostPurchase demo_course_id demo_request;
   PostOrder demo_sell; PostOrder demo_buy; PostTrade (demo_trade 3);
   PostTrade (demo_trade 4)].

(** The supply fields of a token record. *)
Definition supply_fields (t : TokenDoc) : option Z * option Z * option Z :=
  (t_circulating_supply t, t_treasury_token_balance t, t_total_supply t).

(** What the balance records hold of a course agrees with the supply
    fields of its token record: the records hold what is in circulation,
    and circulation and treasury make up the total supply. Without token
    record, the records hold nothing. *)
Definition accounted (held : Z) (fields : option (option Z * option Z * option Z))
    : Prop :=
  match fields with
  | Some (Some circulating, Some treasury, Some total) =>
      held = circulating /\ circulating + treasury = total
  | Some _ => False
  | None => held = 0
  end.

(** The tokens of a course are accounted for by the token record that the
    handlers use for it. *)
Definition tokens_accounted (db : DB) (course_id : string) : Prop :=
  accounted (held_in (balance db) course_id)
    (option_map supply_fields
       (find_one (token_by_course course_id) (coursetoken db))).

Definition ledger_accounted (db : DB) : Prop :=
  ids_ok (next_oid db) (balance db)
  /\ forall course_id, tokens_accounted db course_id.

(* ================================================================== *)
(** * Facts about the float operations *)

Section NoOverflow.

Lemma digits2_pos_lt_pow (p : positive) : Zpos p < 2 ^ Zpos (digits2_pos p).
Proof.
  induction p as [p IH | p IH | ]; simpl digits2_pos.
  - rewrite Pos2Z.inj_succ, Z.pow_succ_r by lia. lia.
  - rewrite Pos2Z.inj_succ, Z.pow_succ_r by lia. lia.
  - reflexivity.
Qed.

Lemma digits2_pos_le (p : positive) (n : Z) :
  0 <= n -> Zpos p < 2 ^ n -> Zpos (digits2_pos p) <= n.
Proof.
  revert n. induction p as [p IH | p IH | ]; intros n Hn Hlt; simpl digits2_pos.
  - destruct (Z.eq_dec n 0) as [-> | Hne]; [simpl in Hlt; lia |].
    replace n with (Z.succ (n - 1)) in Hlt by lia.
    rewrite Z.pow_succ_r in Hlt by lia.
    specialize (IH (n - 1)). rewrite Pos2Z.inj_succ. lia.
  - destruct (Z.eq_dec n 0) as [-> | Hne]; [simpl in Hlt; lia |].
    replace n with (Z.succ (n - 1)) in Hlt by lia.
    rewrite Z.pow_succ_r in Hlt by lia.
    specialize (IH (n - 1)). rewrite Pos2Z.inj_succ. lia.
  - destruct (Z.eq_dec n 0) as [-> | Hne]; [simpl in Hlt; lia | lia].
Qed.

Lemma digits2_pos_mul (p q : positive) :
  Zpos (digits2_pos (p * q)) <= Zpos (digits2_pos p) + Zpos (digits2_pos q).
Proof.
  apply digits2_pos_le; [lia |].
  rewrite Z.pow_add_r by lia.
  pose proof (digits2_pos_lt_pow p). pose proof (digits2_pos_lt_pow q).
  rewrite Pos2Z.inj_mul. nia.
Qed.

Lemma digits2_pos_succ (p : positive) :
  Zpos (digits2_pos (Pos.succ p)) <= Zpos (digits2_pos p) + 1.
Proof.
  induction p as [p IH | p IH | ]; simpl; rewrite ?Pos2Z.inj_succ in *; lia.
Qed.

Lemma digits2_pos_iter_xO (d m : positive) :
  Zpos (digits2_pos (Pos.iter xO m d)) = Zpos (digits2_pos m) + Zpos d.
Proof.
  induction d as [| d IH] using Pos.peano_ind.
  - simpl. lia.
  - rewrite Pos.iter_succ. simpl digits2_pos. rewrite Pos2Z.inj_succ, IH. lia.
Qed.

Lemma iter_pos_invariant {A : Type} (f : A -> A) (P : A -> Prop) :
  (forall x, P x -> P (f x)) ->
  forall n x, P x -> P (iter_pos f n x).
Proof.
  intros Hf. induction n as [n IH | n IH | ]; intros x Hx; simpl; auto.
Qed.

Lemma shr_1_bound (D : Z) (mrs : shr_record) :
  0 <= shr_m mrs /\ Zdigits2 (shr_m mrs) <= D ->
  0 <= shr_m (shr_1 mrs) /\ Zdigits2 (shr_m (shr_1 mrs)) <= D.
Proof.
  destruct mrs as [m r s]. simpl shr_m at 1 2.
  destruct m as [| [p | p |] | p]; simpl; rewrite ?Pos2Z.inj_succ; lia.
Qed.

Variable prec emax : Z.

Lemma shr_fexp_bound (m e : Z) (l : location) :
  0 <= m ->
  let '(mrs, e') := shr_fexp prec emax m e l in
  0 <= shr_m mrs /\ Zdigits2 (shr_m mrs) <= Zdigits2 m
  /\ (e' = e \/ e' = fexp prec emax (Zdigits2 m + e)).
Proof.
  intros Hm. unfold shr_fexp, shr.
  assert (Hrec : 0 <= shr_m (shr_record_of_loc m l)
                 /\ Zdigits2 (shr_m (shr_record_of_loc m l)) <= Zdigits2 m).
  { destruct l as [| []]; simpl; lia. }
  destruct (fexp prec emax (Zdigits2 m + e) - e) as [| p | p] eqn:Hn.
  - intuition.
  - pose proof (iter_pos_invariant shr_1 _ (shr_1_bound (Zdigits2 m)) p _ Hrec).
    intuition lia.
  - intuition.
Qed.

Lemma round_nearest_even_bound (m : Z) (l : location) :
  0 <= m ->
  0 <= round_nearest_even m l /\ Zdigits2 (round_nearest_even m l) <= Zdigits2 m + 1.
Proof.
  intros Hm.
  assert (Hs : 0 <= m + 1 /\ Zdigits2 (m + 1) <= Zdigits2 m + 1).
  { destruct m as [| p | p]; [simpl; lia | | lia].
    split; [lia |]. replace (Zpos p + 1) with (Zpos (Pos.succ p)) by lia.
    apply digits2_pos_succ. }
  unfold round_nearest_even.
  destruct l as [| []]; try destruct (Z.even m); lia.
Qed.

(** Rounding a mantissa of at most [K] bits at an exponent of at most [E]
    stays finite as long as [K] and [E] are far from the overflow
    threshold. *)
Lemma binary_round_aux_finite (s : bool) (m e K E : Z) :
  0 <= m -> Zdigits2 m <= K -> e <= E ->
  0 <= K -> K + 1 + Z.max (Z.max E (K + E - prec)) (3 - emax - prec) <= emax ->
  E <= emax - prec -> 0 <= prec -> 3 - emax - prec <= emax - prec ->
  match binary_round_aux prec emax s m e loc_Exact with
  | S754_zero _ => True
  | S754_finite _ m' e' =>
      Zpos (digits2_pos m') <= K + 1
      /\ e' <= Z.max (Z.max E (K + E - prec)) (3 - emax - prec) + K + 1
  | _ => False
  end.
Proof.
  intros Hm HK HE HK0 Hroom HE' Hprec Hmin.
  unfold binary_round_aux.
  pose proof (shr_fexp_bound m e loc_Exact Hm) as H1.
  destruct (shr_fexp prec emax m e loc_Exact) as [mrs1 e1].
  destruct H1 as (H1a & H1b & H1c).
  pose proof (round_nearest_even_bound (shr_m mrs1) (loc_of_shr_record mrs1) H1a)
    as [H2a H2b].
  set (r := round_nearest_even (shr_m mrs1) (loc_of_shr_record mrs1)) in *.
  pose proof (shr_fexp_bound r e1 loc_Exact H2a) as H3.
  destruct (shr_fexp prec emax r e1 loc_Exact) as [mrs2 e2].
  destruct H3 as (H3a & H3b & H3c).
  assert (He1 : e1 <= Z.max (Z.max E (K + E - prec)) (3 - emax - prec)).
  { destruct H1c as [-> | ->]; [lia |]. unfold fexp, emin. lia. }
  assert (He2 : e2 <= Z.max (Z.max E (K + E - prec)) (3 - emax - prec) + K + 1
                /\ e2 <= emax - prec).
  { destruct H3c as [-> | ->]; [lia |]. unfold fexp, emin. lia. }
  destruct (shr_m mrs2) as [| p | p] eqn:Hm2; [exact I | | lia].
  destruct He2 as [He2 He2'].
  apply Z.leb_le in He2'. rewrite He2'.
  simpl in H3b. split; lia.
Qed.

End NoOverflow.

Lemma round_int_finite (z : Z) :
  Z.abs z < 2 ^ 64 ->
  match PyFloat.round_int z with
  | S754_zero _ => True
  | S754_finite _ m e => Zpos (digits2_pos m) <= 65 /\ e <= 76
  | _ => False
  end.
Proof.
  intros Hz.
  assert (Hpos : forall (s : bool) (m : positive), Zpos m < 2 ^ 64 ->
            match binary_round PyFloat.prec PyFloat.emax s m 0 with
            | S754_zero _ => True
            | S754_finite _ m' e' => Zpos (digits2_pos m') <= 65 /\ e' <= 76
            | _ => False
            end).
  { intros s m Hm. unfold binary_round, shl_align.
    pose proof (digits2_pos_le m 64 ltac:(lia) Hm) as Hd.
    set (ex' := fexp PyFloat.prec PyFloat.emax (Zpos (digits2_pos m) + 0)).
    assert (Hex' : Zpos (digits2_pos m) - 53 <= ex').
    { subst ex'. unfold fexp, emin, PyFloat.prec, PyFloat.emax. lia. }
    destruct (ex' - 0) as [| d | d] eqn:Hsh.
    - pose proof (binary_round_aux_finite PyFloat.prec PyFloat.emax s (Zpos m) 0 64 0)
        as H.
      unfold PyFloat.prec, PyFloat.emax in *.
      specialize (H ltac:(lia) ltac:(simpl; lia) ltac:(lia) ltac:(lia) ltac:(lia)
                    ltac:(lia) ltac:(lia) ltac:(lia)).
      destruct (binary_round_aux 53 1024 s (Zpos m) 0 loc_Exact); auto; lia.
    - pose proof (binary_round_aux_finite PyFloat.prec PyFloat.emax s (Zpos m) 0 64 0)
        as H.
      unfold PyFloat.prec, PyFloat.emax in *.
      specialize (H ltac:(lia) ltac:(simpl; lia) ltac:(lia) ltac:(lia) ltac:(lia)
                    ltac:(lia) ltac:(lia) ltac:(lia)).
      destruct (binary_round_aux 53 1024 s (Zpos m) 0 loc_Exact); auto; lia.
    - pose proof (binary_round_aux_finite PyFloat.prec PyFloat.emax s
                    (Zpos (Pos.iter xO m d)) ex' 64 0) as H.
      pose proof (digits2_pos_iter_xO d m) as Hit.
      unfold PyFloat.prec, PyFloat.emax in *.
      specialize (H ltac:(lia) ltac:(simpl; lia) ltac:(lia) ltac:(lia) ltac:(lia)
                    ltac:(lia) ltac:(lia) ltac:(lia)).
      destruct (binary_round_aux 53 1024 s (Zpos (Pos.iter xO m d)) ex' loc_Exact);
        auto; lia. }
  unfold PyFloat.round_int, binary_normalize.
  destruct z as [| m | m]; [exact I | apply Hpos; lia | apply Hpos; lia].
Qed.

(** [float(z)] raises nothing on a 64-bit integer. *)
Lemma of_int_int64 (z : Z) :
  int64 z -> PyFloat.of_int z = Some (PyFloat.round_int z).
Proof.
  intros Hz. unfold PyFloat.of_int.
  pose proof (round_int_finite z) as H.
  assert (Z.abs z < 2 ^ 64) as Habs by (unfold int64 in Hz; lia).
  specialize (H Habs).
  destruct (PyFloat.round_int z); try reflexivity; contradiction.
Qed.

(** [int(z * 0.01)] raises nothing on a 64-bit integer. *)
Lemma one_percent_int64 (z : Z) :
  int64 z ->
  exists whole,
    PyFloat.to_int (PyFloat.mul (PyFloat.round_int z) PyFloat.c_0_01) = Some whole.
Proof.
  intros Hz.
  pose proof (round_int_finite z) as H.
  assert (Z.abs z < 2 ^ 64) as Habs by (unfold int64 in Hz; lia).
  specialize (H Habs).
  destruct (PyFloat.round_int z) as [s | s | | s m e]; try contradiction.
  - simpl. eauto.
  - destruct H as [Hd He].
    unfold PyFloat.mul, PyFloat.c_0_01, SFmul.
    pose proof (binary_round_aux_finite PyFloat.prec PyFloat.emax (xorb s false)
                  (Zpos (m * 5764607523034235)) (e + -59) 118 17) as Hb.
    pose proof (digits2_pos_mul m 5764607523034235) as Hmul.
    change (Zpos (digits2_pos 5764607523034235)) with 53 in Hmul.
    unfold PyFloat.prec, PyFloat.emax in *.
    specialize (Hb ltac:(lia) ltac:(simpl Zdigits2; lia) ltac:(lia) ltac:(lia)
                   ltac:(lia) ltac:(lia) ltac:(lia) ltac:(lia)).
    destruct (binary_round_aux 53 1024 (xorb s false) (Zpos (m * 5764607523034235))
                (e + -59) loc_Exact); try contradiction; simpl; eauto.
Qed.

Lemma max_one_to_int_floor (x : float) (whole : Z) :
  PyFloat.to_int x = Some whole ->
  exists fl, PyFloat.floor x = Some fl /\ Z.max 1 whole = Z.max 1 fl.
Proof.
  destruct x as [s | s | | s m e]; simpl; try discriminate.
  - intros [= <-]. eauto.
  - intros [= <-]. eexists; split; [reflexivity |].
    destruct s; [| destruct e; reflexivity].
    destruct e as [| p | p].
    + simpl. lia.
    + pose proof (proj2 (Z.shiftl_nonneg (Zpos m) (Zpos p)) ltac:(lia)).
      assert (Z.shiftl (Zneg m) (Zpos p) < 0).
      { destruct (Z.le_gt_cases 0 (Z.shiftl (Zneg m) (Zpos p))) as [Hc | Hc]; [| lia].
        apply Z.shiftl_nonneg in Hc. lia. }
      lia.
    + pose proof (proj2 (Z.shiftr_nonneg (Zpos m) (Zpos p)) ltac:(lia)).
      assert (Z.shiftr (Zneg m) (Zpos p) < 0).
      { destruct (Z.le_gt_cases 0 (Z.shiftr (Zneg m) (Zpos p))) as [Hc | Hc]; [| lia].
        apply Z.shiftr_nonneg in Hc. lia. }
      lia.
Qed.

(* ================================================================== *)
(** * Facts about collections *)

Lemma ObjectId_eqb_eq (a b : ObjectId) : ObjectId.eqb a b = true <-> a = b.
Proof.
  revert b. induction a as [| x a IH]; destruct b as [| y b]; simpl;
    try (split; [discriminate | discriminate]); [tauto |].
  rewrite andb_true_iff, IH. split.
  - intros [Hxy ->]. apply Byte.byte_dec_bl in Hxy. now subst.
  - intros [= -> ->]. split; [now apply Byte.byte_dec_lb | reflexivity].
Qed.

Lemma ObjectId_eqb_refl (a : ObjectId) : ObjectId.eqb a a = true.
Proof. now apply ObjectId_eqb_eq. Qed.

Section Collections.

Context {D : Type}.

Lemma update_one_map {A : Type} (f : D -> A) (q : D -> bool) (u : D -> D)
    (c : list D) :
  (forall d, f (u d) = f d) -> map f (update_one q u c) = map f c.
Proof.
  intros Hf. induction c as [| d r IH]; simpl; [reflexivity |].
  destruct (q d); simpl; now rewrite ?Hf, ?IH.
Qed.

Lemma update_one_Forall (P : D -> Prop) (q : D -> bool) (u : D -> D)
    (c : list D) :
  (forall d, P d -> P (u d)) -> Forall P c -> Forall P (update_one q u c).
Proof.
  intros Hu Hc. induction Hc as [| d r Hd Hr IH]; simpl; [constructor |].
  destruct (q d); constructor; auto.
Qed.

Lemma update_one_id (q : D -> bool) (u : D -> D) (c : list D) :
  (forall d, u d = d) -> update_one q u c = c.
Proof.
  intros Hu. induction c as [| d r IH]; simpl; [reflexivity |].
  destruct (q d); now rewrite ?Hu, ?IH.
Qed.

Lemma find_one_update_one (q : D -> bool) (u : D -> D) (c : list D) :
  (forall d, q d = true -> q (u d) = true) ->
  find_one q (update_one q u c) = option_map u (find_one q c).
Proof.
  intros Hq. unfold find_one. induction c as [| d r IH]; simpl; [reflexivity |].
  destruct (q d) eqn:Hd; simpl.
  - now rewrite (Hq d Hd).
  - now rewrite Hd.
Qed.

(** Where [find_one] finds its document. *)
Lemma find_one_split (q : D -> bool) (c : list D) (d : D) :
  find_one q c = Some d ->
  exists l1 l2, c = l1 ++ d :: l2 /\ q d = true /\ Forall (fun x => q x = false) l1.
Proof.
  unfold find_one. induction c as [| x r IH]; simpl; [discriminate |].
  destruct (q x) eqn:Hx.
  - intros [= ->]. exists [], r. auto.
  - intros Hr. destruct (IH Hr) as (l1 & l2 & -> & Hd & Hl1).
    exists (x :: l1), l2. auto.
Qed.

Lemma find_one_app_miss (q : D -> bool) (l1 l2 : list D) :
  Forall (fun x => q x = false) l1 -> find_one q (l1 ++ l2) = find_one q l2.
Proof.
  unfold find_one. induction 1 as [| x r Hx Hr IH]; simpl; [reflexivity |].
  now rewrite Hx.
Qed.

Lemma find_one_None_app (q : D -> bool) (c : list D) (d : D) :
  find_one q c = None -> find_one q (c ++ [d]) = if q d then Some d else None.
Proof.
  unfold find_one. induction c as [| x r IH]; simpl; [reflexivity |].
  destruct (q x); [discriminate | exact IH].
Qed.

Lemma find_one_Some_app (q : D -> bool) (c l : list D) (d : D) :
  find_one q c = Some d -> find_one q (c ++ l) = Some d.
Proof.
  unfold find_one. induction c as [| x r IH]; simpl; [discriminate |].
  destruct (q x); [auto | exact IH].
Qed.

Lemma find_one_None_Forall (q : D -> bool) (c : list D) :
  find_one q c = None -> Forall (fun x => q x = false) c.
Proof.
  unfold find_one. induction c as [| x r IH]; simpl; [constructor |].
  destruct (q x) eqn:Hx; [discriminate | auto].
Qed.

Lemma update_one_app_miss (q : D -> bool) (u : D -> D) (l1 l2 : list D) :
  Forall (fun x => q x = false) l1 ->
  update_one q u (l1 ++ l2) = l1 ++ update_one q u l2.
Proof.
  induction 1 as [| x r Hx Hr IH]; simpl; [reflexivity |].
  now rewrite Hx, IH.
Qed.

(** Documents have distinct [_id]s, so an update by [_id] reaches the
    document that was read. *)
Variable key : D -> ObjectId.

Lemma update_one_by_key (u : D -> D) (l1 l2 : list D) (d : D) :
  NoDup (map key (l1 ++ d :: l2)) ->
  update_one (by_key key (key d)) u (l1 ++ d :: l2) = l1 ++ u d :: l2.
Proof.
  intros Hnd. rewrite update_one_app_miss.
  - simpl. unfold by_key at 1. now rewrite ObjectId_eqb_refl.
  - rewrite map_app in Hnd. simpl in Hnd.
    apply NoDup_remove_2 in Hnd.
    apply Forall_forall. intros x Hx.
    unfold by_key. destruct (ObjectId.eqb (key x) (key d)) eqn:E; [| reflexivity].
    apply ObjectId_eqb_eq in E. exfalso. apply Hnd.
    apply in_or_app. left. rewrite <- E. now apply in_map.
Qed.

End Collections.

(* ================================================================== *)
(** * Running the handlers *)

(** The arithmetic and the lookups stay folded while a handler is run
    step by step. *)
Arguments ObjectId.generate : simpl never.
Arguments ObjectId.to_str : simpl never.
Arguments ObjectId.of_str : simpl never.
Arguments ObjectId.eqb : simpl never.
Arguments PyFloat.mul : simpl never.
Arguments PyFloat.add : simpl never.
Arguments PyFloat.of_int : simpl never.
Arguments PyFloat.to_int : simpl never.
Arguments PyFloat.round_int : simpl never.
Arguments find_one : simpl never.
Arguments String.eqb : simpl never.
Arguments Z.max : simpl never.
Arguments Z.min : simpl never.
Arguments Z.ltb : simpl never.
Arguments Z.add : simpl never.
Arguments Z.opp : simpl never.
Arguments N.succ : simpl never.

Ltac unfold_M :=
  unfold to_obj, int_mul_float, int_of_float, create_document,
    balance_insert_one, new_oid, bind, reads, writes, raise_http, raise, ret.

Ltac branch :=
  match goal with
  | |- context [match ObjectId.of_str ?s with _ => _ end] =>
      destruct (ObjectId.of_str s) eqn:?
  | |- context [match find_one ?q ?c with _ => _ end] =>
      destruct (find_one q c) eqn:?
  | |- context [match PyFloat.of_int ?z with _ => _ end] =>
      destruct (PyFloat.of_int z) eqn:?
  | |- context [match PyFloat.to_int ?x with _ => _ end] =>
      destruct (PyFloat.to_int x) eqn:?
  | |- context [match o_side ?o with _ => _ end] => destruct (o_side o) eqn:?
  | |- context [match or_side ?o with _ => _ end] => destruct (or_side o) eqn:?
  | |- context [if ?b then _ else _] => destruct b eqn:?
  end.

Ltac run := unfold_M; simpl; repeat (branch; unfold_M; simpl).

(** What a purchase does to the token records. *)
Lemma purchase_course_coursetoken (course_id : string) (req : PurchaseRequest)
    (db : DB) :
  coursetoken (fst (purchase_course course_id req db)) = coursetoken db
  \/ exists allocate price,
       coursetoken (fst (purchase_course course_id req db))
       = update_one (token_by_course course_id)
           (token_inc allocate (- allocate) price) (coursetoken db).
Proof.
  unfold purchase_course. run; auto; right; eauto.
Qed.

(** What a trade does to the token records. *)
Lemma match_trade_coursetoken (req : TradeRequest) (db : DB) :
  coursetoken (fst (match_trade req db)) = coursetoken db
  \/ exists course_id fee,
       coursetoken (fst (match_trade req db))
       = update_one (token_by_course course_id) (token_inc_revenue fee)
           (coursetoken db).
Proof.
  unfold match_trade. run; auto; right; eauto.
Qed.

(** A purchase that passes its two lookups and whose arithmetic raises
    nothing returns, and this is the store it leaves. *)
Lemma purchase_course_returns (course_id : string) (req : PurchaseRequest)
    (db : DB) (oid : ObjectId) (course_doc : CourseDoc) (token : TokenDoc)
    (f : float) (whole : Z) :
  ObjectId.of_str course_id = Some oid ->
  find_one (course_by_id oid) (course db) = Some course_doc ->
  find_one (token_by_course course_id) (coursetoken db) = Some token ->
  PyFloat.of_int (get (t_total_supply token) 1000) = Some f ->
  PyFloat.to_int (PyFloat.mul f PyFloat.c_0_01) = Some whole ->
  let allocate := allocation token whole in
  let price := get (c_price_usd course_doc) PyFloat.zero in
  exists db',
    purchase_course course_id req db
    = (db', Returned {| purchase_id := ObjectId.to_str (ObjectId.generate (next_oid db));
                        tokens_awarded := allocate;
                        paid_price_usd := price |})
    /\ coursetoken db'
       = update_one (token_by_course course_id)
           (token_inc allocate (- allocate) price) (coursetoken db)
    /\ balance db'
       = match find_one (balance_by_owner (pr_user_id req) course_id) (balance db) with
         | Some bal =>
             update_one (balance_by_id (b_id bal)) (balance_inc_amount allocate)
               (balance db)
         | None =>
             balance db ++
               [ {| b_id := ObjectId.generate (N.succ (next_oid db));
                    b_user_id := pr_user_id req; b_course_id := course_id;
                    b_amount := Some allocate; b_reserved := None |} ]
         end
    /\ order db' = order db /\ course db' = course db.
Proof.
  intros Hoid Hcourse Htoken Hf Hwhole allocate price.
  unfold purchase_course. unfold_M. simpl.
  rewrite Hoid. simpl. rewrite Hcourse, Htoken. simpl.
  rewrite Hf. simpl. rewrite Hwhole. simpl.
  fold (allocation token whole). fold allocate. fold price.
  destruct (find_one (balance_by_owner (pr_user_id req) course_id) (balance db));
    simpl; eexists; repeat split; reflexivity.
Qed.

(** Conversely, a purchase that returns has passed them. *)
Lemma purchase_course_returned (course_id : string) (req : PurchaseRequest)
    (db db' : DB) (res : PurchaseResponse) :
  purchase_course course_id req db = (db', Returned res) ->
  exists oid course_doc token f whole,
    ObjectId.of_str course_id = Some oid
    /\ find_one (course_by_id oid) (course db) = Some course_doc
    /\ find_one (token_by_course course_id) (coursetoken db) = Some token
    /\ PyFloat.of_int (get (t_total_supply token) 1000) = Some f
    /\ PyFloat.to_int (PyFloat.mul f PyFloat.c_0_01) = Some whole.
Proof.
  unfold purchase_course. unfold_M. simpl.
  destruct (ObjectId.of_str course_id) as [oid |] eqn:Hoid; simpl; [| discriminate].
  destruct (find_one (course_by_id oid) (course db)) as [cd |] eqn:Hc; simpl;
    [| discriminate].
  destruct (find_one (token_by_course course_id) (coursetoken db)) as [tk |] eqn:Ht;
    simpl; [| discriminate].
  destruct (PyFloat.of_int (get (t_total_supply tk) 1000)) as [f |] eqn:Hf; simpl;
    [| discriminate].
  destruct (PyFloat.to_int (PyFloat.mul f PyFloat.c_0_01)) as [w |] eqn:Hw; simpl;
    [| discriminate].
  intros _. exists oid, cd, tk, f, w. auto.
Qed.

(* ================================================================== *)
(** * The supply invariant *)

Lemma token_inc_supply_invariant (allocate : Z) (price : float) (t : TokenDoc) :
  supply_invariant t -> supply_invariant (token_inc allocate (- allocate) price t).
Proof.
  unfold supply_invariant, token_inc. simpl.
  destruct (t_circulating_supply t), (t_treasury_token_balance t),
    (t_total_supply t); simpl; try tauto. lia.
Qed.

Lemma token_inc_revenue_supply (fee : float) (t : TokenDoc) :
  supply (token_inc_revenue fee t) = supply t.
Proof. reflexivity. Qed.

(** C1. For every course, [circulating_supply + treasury_token_balance ==
    total_supply] holds after [purchase_course] and after [match_trade]
    whenever it held before, whatever the request and whatever the outcome.
    A purchase that returns has added the awarded amount to
    [circulating_supply] and subtracted the same amount from
    [treasury_token_balance] of the course's token record (its first record,
    the others are untouched), and has left [total_supply] alone; a trade
    changes none of the three fields of any record. *)
Theorem supply_invariant_preserved (db : DB) :
  Forall supply_invariant (coursetoken db) ->
  (forall course_id req,
      let db' := fst (purchase_course course_id req db) in
      Forall supply_invariant (coursetoken db')
      /\ forall res,
           snd (purchase_course course_id req db) = Returned res ->
           coursetoken db'
           = update_one (token_by_course course_id)
               (token_inc (tokens_awarded res) (- tokens_awarded res)
                          (paid_price_usd res))
               (coursetoken db)
           /\ exists token token',
                find_one (token_by_course course_id) (coursetoken db) = Some token
                /\ find_one (token_by_course course_id) (coursetoken db') = Some token'
                /\ t_circulating_supply token'
                   = inc (tokens_awarded res) (t_circulating_supply token)
                /\ t_treasury_token_balance token'
                   = inc (- tokens_awarded res) (t_treasury_token_balance token)
                /\ t_total_supply token' = t_total_supply token)
  /\ (forall req,
        let db' := fst (match_trade req db) in
        Forall supply_invariant (coursetoken db')
        /\ map supply (coursetoken db') = map supply (coursetoken db)).
Proof.
  intros Hinv. split.
  - intros course_id req db'. split.
    + subst db'.
      destruct (purchase_course_coursetoken course_id req db)
        as [-> | (allocate & price & ->)]; [assumption |].
      apply update_one_Forall; [| assumption].
      intros d. apply token_inc_supply_invariant.
    + intros res Hres.
      destruct (purchase_course course_id req db) as [db1 out] eqn:Hrun.
      simpl in Hres. subst out. subst db'. simpl.
      destruct (purchase_course_returned _ _ _ _ _ Hrun)
        as (oid & cd & tk & f & w & Hoid & Hc & Ht & Hf & Hw).
      destruct (purchase_course_returns course_id req db oid cd tk f w
                  Hoid Hc Ht Hf Hw) as (db2 & Hrun2 & Htok & _).
      rewrite Hrun in Hrun2. injection Hrun2 as -> ->. simpl.
      split; [exact Htok |].
      exists tk, (token_inc (allocation tk w) (- allocation tk w)
                    (get (c_price_usd cd) PyFloat.zero) tk).
      split; [exact Ht |]. split; [| now simpl].
      rewrite Htok, find_one_update_one, Ht; [reflexivity |].
      intros d Hd. exact Hd.
  - intros req db'. subst db'.
    destruct (match_trade_coursetoken req db) as [-> | (cid & fee & ->)];
      [split; [assumption | reflexivity] |].
    split.
    + apply update_one_Forall; [| assumption].
      intros d Hd. exact Hd.
    + apply update_one_map. intros d. apply token_inc_revenue_supply.
Qed.

Lemma supply_invariant_preserved_witness :
  Forall supply_invariant (coursetoken demo_db)
  /\ Forall supply_invariant
       (coursetoken (fst (purchase_course demo_course_id
                            {| pr_user_id := "U1" |} demo_db))).
Proof.
  assert (H : Forall supply_invariant (coursetoken demo_db)).
  { repeat constructor. }
  split; [exact H |].
  exact (proj1 (proj1 (supply_invariant_preserved demo_db H) demo_course_id
                  {| pr_user_id := "U1" |})).
Defined.

(* ================================================================== *)
(** * Balances as their owners read them *)

Lemma find_one_app {D : Type} (q : D -> bool) (l1 l2 : list D) :
  find_one q (l1 ++ l2)
  = match find_one q l1 with Some d => Some d | None => find_one q l2 end.
Proof.
  unfold find_one. induction l1 as [| x r IH]; simpl; [reflexivity |].
  destruct (q x); auto.
Qed.

Lemma find_one_cons {D : Type} (q : D -> bool) (d : D) (l : list D) :
  find_one q (d :: l) = if q d then Some d else find_one q l.
Proof. reflexivity. Qed.

Lemma keeps_owner_query (u : BalanceDoc -> BalanceDoc) (user_id course_id : string)
    (b : BalanceDoc) :
  keeps_owner u ->
  balance_by_owner user_id course_id (u b) = balance_by_owner user_id course_id b.
Proof.
  intros Hu. destruct (Hu b) as (_ & Hus & Hco).
  unfold balance_by_owner. now rewrite Hus, Hco.
Qed.

Lemma balance_inc_amount_keeps (delta : Z) : keeps_owner (balance_inc_amount delta).
Proof. intros b. now simpl. Qed.

Lemma balance_inc_reserved_keeps (delta : Z) : keeps_owner (balance_inc_reserved delta).
Proof. intros b. now simpl. Qed.

Lemma balance_inc_both_keeps (d1 d2 : Z) : keeps_owner (balance_inc_both d1 d2).
Proof. intros b. now simpl. Qed.

Lemma keeps_owner_NoDup (u : BalanceDoc -> BalanceDoc) (q : BalanceDoc -> bool)
    (c : list BalanceDoc) :
  keeps_owner u -> NoDup (map b_id c) -> NoDup (map b_id (update_one q u c)).
Proof.
  intros Hu Hnd. rewrite update_one_map; [assumption |].
  intros d. apply Hu.
Qed.

(** After an update through the [_id] of the record a user's lookup found,
    the same lookup finds the updated record. *)
Lemma balance_update_found (c : list BalanceDoc) (user_id course_id : string)
    (b : BalanceDoc) (u : BalanceDoc -> BalanceDoc) :
  NoDup (map b_id c) -> keeps_owner u ->
  find_one (balance_by_owner user_id course_id) c = Some b ->
  find_one (balance_by_owner user_id course_id)
    (update_one (balance_by_id (b_id b)) u c) = Some (u b).
Proof.
  intros Hnd Hu Hfind.
  destruct (find_one_split _ _ _ Hfind) as (l1 & l2 & -> & Hb & Hl1).
  change (balance_by_id (b_id b)) with (by_key b_id (b_id b)).
  rewrite update_one_by_key by assumption.
  rewrite find_one_app_miss by assumption.
  rewrite find_one_cons, keeps_owner_query, Hb by assumption. reflexivity.
Qed.

(** And the lookup of any other owner finds what it found before. *)
Lemma balance_update_other (c : list BalanceDoc) (user_id course_id : string)
    (b : BalanceDoc) (u : BalanceDoc -> BalanceDoc) (user' course' : string) :
  NoDup (map b_id c) -> keeps_owner u ->
  find_one (balance_by_owner user_id course_id) c = Some b ->
  balance_by_owner user' course' b = false ->
  find_one (balance_by_owner user' course')
    (update_one (balance_by_id (b_id b)) u c)
  = find_one (balance_by_owner user' course') c.
Proof.
  intros Hnd Hu Hfind Hother.
  destruct (find_one_split _ _ _ Hfind) as (l1 & l2 & -> & Hb & Hl1).
  change (balance_by_id (b_id b)) with (by_key b_id (b_id b)).
  rewrite update_one_by_key by assumption.
  rewrite !find_one_app, !find_one_cons, keeps_owner_query, Hother by assumption.
  reflexivity.
Qed.

Lemma balance_by_owner_refl (user_id course_id : string) (b : BalanceDoc) :
  b_user_id b = user_id -> b_course_id b = course_id ->
  balance_by_owner user_id course_id b = true.
Proof.
  intros <- <-. unfold balance_by_owner. now rewrite !String.eqb_refl.
Qed.

Lemma get_inc (delta : Z) (field : option Z) :
  get (inc delta field) 0 = get field 0 + delta.
Proof. destruct field; simpl; lia. Qed.

(* ================================================================== *)
(** * The purchase reward *)

(** C2. A purchase of an existing course with an existing token record
    returns (it is a success also when the treasury holds nothing), and the
    [tokens_awarded] it returns, which is also what it adds to the buyer's
    available balance, is
    [min(max(1, floor(total_supply * 0.01)), treasury_token_balance)] with
    the treasury balance read before the purchase; so the award is at most
    that balance, and it is 0 when the treasury is exhausted.  The total
    supply is a 64-bit integer, as every integer MongoDB stores, and the
    balance records have distinct [_id]s. *)
Theorem purchase_reward (db : DB) (course_id : string) (req : PurchaseRequest)
    (oid : ObjectId) (course_doc : CourseDoc) (token : TokenDoc) :
  ObjectId.of_str course_id = Some oid ->
  find_one (course_by_id oid) (course db) = Some course_doc ->
  find_one (token_by_course course_id) (coursetoken db) = Some token ->
  int64 (get (t_total_supply token) 1000) ->
  NoDup (map b_id (balance db)) ->
  exists requested db' res,
    requested_reward (get (t_total_supply token) 1000) = Some requested
    /\ purchase_course course_id req db = (db', Returned res)
    /\ tokens_awarded res
       = Z.min requested (get (t_treasury_token_balance token) 0)
    /\ available db' (pr_user_id req) course_id
       = available db (pr_user_id req) course_id + tokens_awarded res
    /\ tokens_awarded res <= get (t_treasury_token_balance token) 0
    /\ (get (t_treasury_token_balance token) 0 = 0 -> tokens_awarded res = 0).
Proof.
  intros Hoid Hcourse Htoken H64 Hnd.
  set (total := get (t_total_supply token) 1000) in *.
  set (treasury := get (t_treasury_token_balance token) 0).
  pose proof (of_int_int64 total H64) as Hf.
  destruct (one_percent_int64 total H64) as (whole & Hwhole).
  destruct (max_one_to_int_floor _ _ Hwhole) as (fl & Hfl & Hmax).
  destruct (purchase_course_returns course_id req db oid course_doc token _ whole
              Hoid Hcourse Htoken Hf Hwhole) as (db' & Hrun & _ & Hbal & _).
  assert (Halloc : allocation token whole = Z.min (Z.max 1 fl) treasury).
  { unfold allocation. fold treasury. rewrite Hmax.
    destruct (Z.ltb_spec treasury (Z.max 1 fl)); lia. }
  eexists (Z.max 1 fl), db', _. split; [| split; [exact Hrun |]].
  { unfold requested_reward. fold total. rewrite Hf, Hfl. reflexivity. }
  simpl tokens_awarded. rewrite Halloc.
  split; [reflexivity |]. split; [| split; [lia | intros H0; lia]].
  unfold available. rewrite Hbal.
  destruct (find_one (balance_by_owner (pr_user_id req) course_id) (balance db))
    as [bal |] eqn:Hfind.
  - rewrite (balance_update_found _ _ _ _ _ Hnd (balance_inc_amount_keeps _) Hfind).
    simpl b_amount. rewrite get_inc, Halloc. reflexivity.
  - rewrite (find_one_None_app _ _ _ Hfind).
    rewrite balance_by_owner_refl by reflexivity. simpl. rewrite Halloc. lia.
Qed.

Lemma purchase_reward_witness :
  exists requested db' res,
    requested_reward 1000 = Some requested
    /\ purchase_course demo_course_id demo_request demo_db = (db', Returned res)
    /\ tokens_awarded res = Z.min requested 1000
    /\ available db' "U1" demo_course_id
       = available demo_db "U1" demo_course_id + tokens_awarded res
    /\ tokens_awarded res <= 1000
    /\ (1000 = 0 -> tokens_awarded res = 0).
Proof.
  refine (purchase_reward demo_db demo_course_id demo_request
            (ObjectId.generate 0)
            (hd {| c_id := []; c_price_usd := None; c_model := demo_course |}
                (course demo_db))
            (hd {| t_id := []; t_course_id := ""; t_token_symbol := "";
                   t_total_supply := None; t_circulating_supply := None;
                   t_treasury_eth_address := ""; t_treasury_token_balance := None;
                   t_treasury_revenue_usd := None |}
                (coursetoken demo_db))
            _ _ _ _ _).
  - reflexivity.
  - reflexivity.
  - reflexivity.
  - unfold int64. simpl get. lia.
  - constructor.
Defined.

(* ================================================================== *)
(** * Running a trade *)

(** A trade on two orders that pass the three checks, and whose fee
    arithmetic raises nothing, returns, and this is the store it leaves. *)
Lemma match_trade_returns (req : TradeRequest) (db : DB) (buy_oid sell_oid : ObjectId)
    (buy_doc sell_doc : OrderDoc) (g : float) :
  ObjectId.of_str (buy_order_id req) = Some buy_oid ->
  ObjectId.of_str (sell_order_id req) = Some sell_oid ->
  find_one (order_by_id buy_oid) (order db) = Some buy_doc ->
  find_one (order_by_id sell_oid) (order db) = Some sell_doc ->
  o_side buy_doc = buy -> o_side sell_doc = sell ->
  o_course_id buy_doc = o_course_id sell_doc ->
  PyFloat.of_int (fill req buy_doc sell_doc) = Some g ->
  let amount := fill req buy_doc sell_doc in
  let price := o_price_usd sell_doc in
  exists db',
    match_trade req db
    = (db', Returned {| filled_amount := amount; trade_price_usd := price |})
    /\ order db'
       = update_one (order_by_id (o_id buy_doc)) (order_inc_amount (- amount))
           (update_one (order_by_id (o_id sell_doc)) (order_inc_amount (- amount))
              (order db))
    /\ balance db' = settle (next_oid db) buy_doc sell_doc amount (balance db)
    /\ coursetoken db'
       = update_one (token_by_course (o_course_id buy_doc))
           (token_inc_revenue (PyFloat.mul (PyFloat.mul g price) PyFloat.c_0_005))
           (coursetoken db)
    /\ course db' = course db.
Proof.
  intros Hb Hs Hfb Hfs Hsb Hss Hco Hg. cbv zeta.
  unfold match_trade. unfold_M. simpl.
  rewrite Hb. simpl. rewrite Hfb, Hs. simpl. rewrite Hfs. simpl.
  rewrite Hsb, Hss. simpl. rewrite Hco, String.eqb_refl. simpl.
  fold (fill req buy_doc sell_doc).
  unfold settle. rewrite <- Hco.
  set (seller := balance_by_owner (o_user_id sell_doc) (o_course_id buy_doc)).
  set (buyer := balance_by_owner (o_user_id buy_doc) (o_course_id buy_doc)).
  destruct (find_one seller (balance db)) as [bs |] eqn:Hseller; simpl.
  - rewrite Hseller.
    destruct (find_one buyer _) as [bb |] eqn:Hbuyer; simpl;
      rewrite Hg; simpl; eexists; repeat split; reflexivity.
  - rewrite (find_one_None_app _ _ _ Hseller).
    unfold seller. rewrite balance_by_owner_refl by reflexivity. simpl.
    destruct (find_one buyer _) as [bb |] eqn:Hbuyer; simpl;
      rewrite Hg; simpl; eexists; repeat split; reflexivity.
Qed.

(** Conversely, a trade that returns has passed the checks. *)
Lemma match_trade_returned (req : TradeRequest) (db db' : DB) (res : TradeResponse) :
  match_trade req db = (db', Returned res) ->
  exists buy_oid sell_oid buy_doc sell_doc g,
    ObjectId.of_str (buy_order_id req) = Some buy_oid
    /\ ObjectId.of_str (sell_order_id req) = Some sell_oid
    /\ find_one (order_by_id buy_oid) (order db) = Some buy_doc
    /\ find_one (order_by_id sell_oid) (order db) = Some sell_doc
    /\ o_side buy_doc = buy /\ o_side sell_doc = sell
    /\ o_course_id buy_doc = o_course_id sell_doc
    /\ PyFloat.of_int (fill req buy_doc sell_doc) = Some g.
Proof.
  unfold match_trade. unfold_M. simpl.
  destruct (ObjectId.of_str (buy_order_id req)) as [boid |] eqn:Hb; simpl;
    [| discriminate].
  destruct (ObjectId.of_str (sell_order_id req)) as [soid |] eqn:Hs; simpl;
    [| discriminate].
  destruct (find_one (order_by_id boid) (order db)) as [b |] eqn:Hfb; simpl;
    [| discriminate].
  destruct (find_one (order_by_id soid) (order db)) as [s |] eqn:Hfs; simpl;
    [| discriminate].
  destruct (o_side b) eqn:Hsb; simpl; [| discriminate].
  destruct (o_side s) eqn:Hss; simpl; [discriminate |].
  destruct (String.eqb (o_course_id b) (o_course_id s)) eqn:Hco; simpl;
    [| discriminate].
  apply String.eqb_eq in Hco.
  fold (fill req b s).
  destruct (PyFloat.of_int (fill req b s)) as [g |] eqn:Hg.
  - intros _. exists boid, soid, b, s, g. repeat split; assumption.
  - intros H. exfalso. revert H.
    repeat (branch; unfold_M; simpl); try discriminate.
    all: rewrite ?Hg; simpl; discriminate.
Qed.

(* ================================================================== *)
(** * Orders under a trade *)

Lemma find_one_update_other_key {D : Type} (key : D -> ObjectId) (u : D -> D)
    (k k' : ObjectId) (c : list D) :
  (forall x, key (u x) = key x) -> k <> k' ->
  find_one (by_key key k') (update_one (by_key key k) u c)
  = find_one (by_key key k') c.
Proof.
  intros Hu Hk. unfold find_one. induction c as [| d r IH]; simpl; [reflexivity |].
  destruct (by_key key k d) eqn:Hd; simpl.
  - unfold by_key in *. rewrite Hu.
    apply ObjectId_eqb_eq in Hd.
    destruct (ObjectId.eqb (key d) k') eqn:Hd'; [| reflexivity].
    apply ObjectId_eqb_eq in Hd'. congruence.
  - now rewrite IH.
Qed.

Lemma find_one_by_key {D : Type} (key : D -> ObjectId) (k : ObjectId)
    (c : list D) (d : D) :
  find_one (by_key key k) c = Some d -> key d = k.
Proof.
  intros H. destruct (find_one_split _ _ _ H) as (_ & _ & _ & Hd & _).
  now apply ObjectId_eqb_eq in Hd.
Qed.

Lemma update_one_length {D : Type} (q : D -> bool) (u : D -> D) (c : list D) :
  List.length (update_one q u c) = List.length c.
Proof.
  induction c as [| d r IH]; simpl; [reflexivity |].
  destruct (q d); simpl; now rewrite ?IH.
Qed.

(** The two order updates of a trade, seen through the two lookups. *)
Lemma trade_orders_updated (c : list OrderDoc) (buy_oid sell_oid : ObjectId)
    (buy_doc sell_doc : OrderDoc) (amount : Z) :
  find_one (order_by_id buy_oid) c = Some buy_doc ->
  find_one (order_by_id sell_oid) c = Some sell_doc ->
  o_side buy_doc = buy -> o_side sell_doc = sell ->
  let c' := update_one (order_by_id (o_id buy_doc)) (order_inc_amount (- amount))
              (update_one (order_by_id (o_id sell_doc))
                 (order_inc_amount (- amount)) c) in
  find_one (order_by_id buy_oid) c' = Some (order_inc_amount (- amount) buy_doc)
  /\ find_one (order_by_id sell_oid) c' = Some (order_inc_amount (- amount) sell_doc)
  /\ List.length c' = List.length c.
Proof.
  intros Hfb Hfs Hsb Hss c'.
  change order_by_id with (by_key o_id) in *.
  pose proof (find_one_by_key _ _ _ _ Hfb) as Hkb.
  pose proof (find_one_by_key _ _ _ _ Hfs) as Hks.
  assert (Hne : sell_oid <> buy_oid).
  { intros ->. rewrite Hfb in Hfs. injection Hfs as ->. congruence. }
  subst c'. rewrite Hkb, Hks. split; [| split].
  - rewrite find_one_update_one by (intros d Hd; exact Hd).
    rewrite find_one_update_other_key by (auto || reflexivity).
    now rewrite Hfb.
  - rewrite find_one_update_other_key by (auto || reflexivity).
    rewrite find_one_update_one by (intros d Hd; exact Hd).
    now rewrite Hfs.
  - now rewrite !update_one_length.
Qed.

(** The order updates come before the fee arithmetic: they are made
    whatever the outcome. *)
Lemma match_trade_orders (req : TradeRequest) (db : DB) (buy_oid sell_oid : ObjectId)
    (buy_doc sell_doc : OrderDoc) :
  ObjectId.of_str (buy_order_id req) = Some buy_oid ->
  ObjectId.of_str (sell_order_id req) = Some sell_oid ->
  find_one (order_by_id buy_oid) (order db) = Some buy_doc ->
  find_one (order_by_id sell_oid) (order db) = Some sell_doc ->
  o_side buy_doc = buy -> o_side sell_doc = sell ->
  o_course_id buy_doc = o_course_id sell_doc ->
  order (fst (match_trade req db))
  = update_one (order_by_id (o_id buy_doc))
      (order_inc_amount (- fill req buy_doc sell_doc))
      (update_one (order_by_id (o_id sell_doc))
         (order_inc_amount (- fill req buy_doc sell_doc)) (order db)).
Proof.
  intros Hb Hs Hfb Hfs Hsb Hss Hco.
  unfold match_trade. unfold_M. simpl.
  rewrite Hb. simpl. rewrite Hfb, Hs. simpl. rewrite Hfs. simpl.
  rewrite Hsb, Hss. simpl. rewrite Hco, String.eqb_refl. simpl.
  fold (fill req buy_doc sell_doc).
  set (seller := balance_by_owner (o_user_id sell_doc) (o_course_id sell_doc)).
  destruct (find_one seller (balance db)) as [bs |] eqn:Hseller; simpl.
  - repeat (branch; unfold_M; simpl); reflexivity.
  - rewrite (find_one_None_app _ _ _ Hseller).
    unfold seller. rewrite balance_by_owner_refl by reflexivity. simpl.
    repeat (branch; unfold_M; simpl); reflexivity.
Qed.

(** C3. On a buy order and a sell order of the same course, [match_trade]
    fills [min(requested_amount, buy.amount, sell.amount)]: both orders stay
    recorded, each with its open amount reduced by exactly that quantity
    (this much is done whatever the outcome), and, the quantity being a
    64-bit integer, the call returns it as [filled_amount]. *)
Theorem match_trade_fill (db : DB) (req : TradeRequest) (buy_oid sell_oid : ObjectId)
    (buy_doc sell_doc : OrderDoc) :
  ObjectId.of_str (buy_order_id req) = Some buy_oid ->
  ObjectId.of_str (sell_order_id req) = Some sell_oid ->
  find_one (order_by_id buy_oid) (order db) = Some buy_doc ->
  find_one (order_by_id sell_oid) (order db) = Some sell_doc ->
  o_side buy_doc = buy -> o_side sell_doc = sell ->
  o_course_id buy_doc = o_course_id sell_doc ->
  let filled :=
    Z.min (Z.min (tr_amount req) (o_amount buy_doc)) (o_amount sell_doc) in
  let db' := fst (match_trade req db) in
  (exists buy_doc' sell_doc',
      find_one (order_by_id buy_oid) (order db') = Some buy_doc'
      /\ find_one (order_by_id sell_oid) (order db') = Some sell_doc'
      /\ o_amount buy_doc' = o_amount buy_doc - filled
      /\ o_amount sell_doc' = o_amount sell_doc - filled
      /\ List.length (order db') = List.length (order db))
  /\ (int64 filled ->
      exists res, snd (match_trade req db) = Returned res
                  /\ filled_amount res = filled).
Proof.
  intros Hb Hs Hfb Hfs Hsb Hss Hco filled db'. split.
  - subst db'. rewrite (match_trade_orders req db _ _ _ _ Hb Hs Hfb Hfs Hsb Hss Hco).
    destruct (trade_orders_updated (order db) _ _ _ _ (fill req buy_doc sell_doc)
                Hfb Hfs Hsb Hss) as (H1 & H2 & H3).
    exists (order_inc_amount (- fill req buy_doc sell_doc) buy_doc),
           (order_inc_amount (- fill req buy_doc sell_doc) sell_doc).
    repeat split; try assumption; simpl; unfold fill; subst filled; lia.
  - intros H64.
    destruct (match_trade_returns req db _ _ _ _ _ Hb Hs Hfb Hfs Hsb Hss Hco
                (of_int_int64 _ H64)) as (db1 & Hrun & _).
    rewrite Hrun. simpl. eexists. split; reflexivity.
Qed.

Lemma match_trade_fill_witness :
  let db' := fst (match_trade (demo_trade 3) market_db) in
  (exists buy_doc' sell_doc',
      find_one (order_by_id (ObjectId.generate 5)) (order db') = Some buy_doc'
      /\ find_one (order_by_id (ObjectId.generate 4)) (order db') = Some sell_doc'
      /\ o_amount buy_doc' = 5 - Z.min (Z.min 3 5) 5
      /\ o_amount sell_doc' = 5 - Z.min (Z.min 3 5) 5
      /\ List.length (order db') = List.length (order market_db))
  /\ (int64 (Z.min (Z.min 3 5) 5) ->
      exists res, snd (match_trade (demo_trade 3) market_db) = Returned res
                  /\ filled_amount res = Z.min (Z.min 3 5) 5).
Proof.
  refine (match_trade_fill market_db (demo_trade 3) (ObjectId.generate 5)
            (ObjectId.generate 4) market_buy_doc market_sell_doc
            _ _ _ _ _ _ _); reflexivity.
Defined.

(* ================================================================== *)
(** * Price and fee of a trade *)

(** C6. A trade on a buy order and a sell order that pass the side and
    course checks is never rejected and executes at the sell order's
    [price_usd]: nothing is asked of the buy order's price, which may be
    below the sell order's.  (The filled quantity is a 64-bit integer.) *)
Theorem trade_at_sell_price (db : DB) (req : TradeRequest)
    (buy_oid sell_oid : ObjectId) (buy_doc sell_doc : OrderDoc) :
  ObjectId.of_str (buy_order_id req) = Some buy_oid ->
  ObjectId.of_str (sell_order_id req) = Some sell_oid ->
  find_one (order_by_id buy_oid) (order db) = Some buy_doc ->
  find_one (order_by_id sell_oid) (order db) = Some sell_doc ->
  o_side buy_doc = buy -> o_side sell_doc = sell ->
  o_course_id buy_doc = o_course_id sell_doc ->
  int64 (fill req buy_doc sell_doc) ->
  exists res,
    snd (match_trade req db) = Returned res
    /\ trade_price_usd res = o_price_usd sell_doc.
Proof.
  intros Hb Hs Hfb Hfs Hsb Hss Hco H64.
  destruct (match_trade_returns req db _ _ _ _ _ Hb Hs Hfb Hfs Hsb Hss Hco
              (of_int_int64 _ H64)) as (db1 & Hrun & _).
  rewrite Hrun. simpl. eexists. split; reflexivity.
Qed.

(** The buy order of [market_db] bids 1.0 and its sell order asks 2.0: the
    trade goes through at 2.0. *)
Lemma trade_at_sell_price_witness :
  PyFloat.ltb (o_price_usd market_buy_doc) (o_price_usd market_sell_doc) = true
  /\ exists res,
       snd (match_trade (demo_trade 5) market_db) = Returned res
       /\ trade_price_usd res = PyFloat.round_int 2.
Proof.
  split; [reflexivity |].
  refine (trade_at_sell_price market_db (demo_trade 5) (ObjectId.generate 5)
            (ObjectId.generate 4) market_buy_doc market_sell_doc
            _ _ _ _ _ _ _ _); try reflexivity.
  unfold int64. change (fill (demo_trade 5) market_buy_doc market_sell_doc) with 5.
  lia.
Defined.

(** C8. A trade that returns has added [filled * price * 0.005], computed
    as Python computes [amount * price * 0.005] on an [int] and two floats,
    to [treasury_revenue_usd] of the token record of the orders' course
    (binary64 addition, as [$inc] does on a double), and has changed
    [total_supply], [circulating_supply] and [treasury_token_balance] of no
    record. *)
Theorem trade_fee (db db' : DB) (req : TradeRequest) (res : TradeResponse) :
  match_trade req db = (db', Returned res) ->
  exists buy_oid buy_doc filled,
    ObjectId.of_str (buy_order_id req) = Some buy_oid
    /\ find_one (order_by_id buy_oid) (order db) = Some buy_doc
    /\ PyFloat.of_int (filled_amount res) = Some filled
    /\ let fee :=
         PyFloat.mul (PyFloat.mul filled (trade_price_usd res)) PyFloat.c_0_005 in
       coursetoken db'
       = update_one (token_by_course (o_course_id buy_doc)) (token_inc_revenue fee)
           (coursetoken db)
       /\ (forall token,
             find_one (token_by_course (o_course_id buy_doc)) (coursetoken db)
             = Some token ->
             exists token',
               find_one (token_by_course (o_course_id buy_doc)) (coursetoken db')
               = Some token'
               /\ (forall revenue,
                     t_treasury_revenue_usd token = Some revenue ->
                     t_treasury_revenue_usd token'
                     = Some (PyFloat.add revenue fee))
               /\ supply token' = supply token)
       /\ map supply (coursetoken db') = map supply (coursetoken db).
Proof.
  intros Hrun.
  destruct (match_trade_returned _ _ _ _ Hrun)
    as (boid & soid & b & s & g & Hb & Hs & Hfb & Hfs & Hsb & Hss & Hco & Hg).
  destruct (match_trade_returns req db _ _ _ _ _ Hb Hs Hfb Hfs Hsb Hss Hco Hg)
    as (db1 & Hrun1 & _ & _ & Htok & _).
  rewrite Hrun in Hrun1. injection Hrun1 as -> ->. simpl.
  exists boid, b, g. repeat split; try assumption.
  - intros token Htoken. eexists. split; [| split].
    + rewrite Htok, find_one_update_one, Htoken by (intros d Hd; exact Hd).
      reflexivity.
    + intros revenue Hrev. simpl. rewrite Hrev. reflexivity.
    + reflexivity.
  - rewrite Htok. apply update_one_map. intros d. reflexivity.
Qed.

Lemma trade_fee_witness :
  exists db' res,
    match_trade (demo_trade 5) market_db = (db', Returned res)
    /\ map t_treasury_revenue_usd (coursetoken market_db)
       = [Some (PyFloat.round_int 50)]
    /\ map t_treasury_revenue_usd (coursetoken db')
       = [Some (PyFloat.add (PyFloat.round_int 50)
                  (PyFloat.mul (PyFloat.mul (PyFloat.round_int 5)
                                            (PyFloat.round_int 2))
                               PyFloat.c_0_005))]
    /\ map supply (coursetoken db') = map supply (coursetoken market_db).
Proof.
  exists (fst (match_trade (demo_trade 5) market_db)),
         {| filled_amount := 5; trade_price_usd := PyFloat.round_int 2 |}.
  assert (Hrun : match_trade (demo_trade 5) market_db
                 = (fst (match_trade (demo_trade 5) market_db),
                    Returned {| filled_amount := 5;
                                trade_price_usd := PyFloat.round_int 2 |})).
  { vm_compute. reflexivity. }
  split; [exact Hrun |]. split; [reflexivity |].
  destruct (trade_fee _ _ _ _ Hrun)
    as (boid & b & g & _ & _ & _ & _ & _ & Hsupply).
  split; [| exact Hsupply].
  vm_compute. reflexivity.
Defined.

(* ================================================================== *)
(** * Balances under a trade *)

Lemma balance_by_owner_true (user_id course_id : string) (b : BalanceDoc) :
  balance_by_owner user_id course_id b = true ->
  b_user_id b = user_id /\ b_course_id b = course_id.
Proof.
  unfold balance_by_owner. rewrite andb_true_iff, !String.eqb_eq. tauto.
Qed.

(** A lookup by owner after an update through the [_id] of a record that a
    lookup by owner found. *)
Lemma balance_update_lookup (c : list BalanceDoc) (user_id course_id : string)
    (b : BalanceDoc) (u : BalanceDoc -> BalanceDoc) (user' course' : string) :
  NoDup (map b_id c) -> keeps_owner u ->
  find_one (balance_by_owner user_id course_id) c = Some b ->
  find_one (balance_by_owner user' course')
    (update_one (balance_by_id (b_id b)) u c)
  = if balance_by_owner user' course' b then Some (u b)
    else find_one (balance_by_owner user' course') c.
Proof.
  intros Hnd Hu Hfind.
  destruct (balance_by_owner user' course' b) eqn:Hq.
  - destruct (find_one_split _ _ _ Hfind) as (_ & _ & _ & Hb & _).
    apply balance_by_owner_true in Hq, Hb.
    destruct Hq as [<- <-], Hb as [Hb1 Hb2].
    rewrite Hb1, Hb2. rewrite <- Hb1, <- Hb2 in Hfind.
    rewrite <- Hb1, <- Hb2.
    now apply balance_update_found.
  - now apply balance_update_other with (user_id := user_id) (course_id := course_id).
Qed.

(** With a seller who has a balance record, the settlement takes the
    filled quantity out of the seller's reserved amount and puts it into
    the buyer's available amount. *)
Lemma settle_reads (next : N) (buy_doc sell_doc : OrderDoc) (amount : Z)
    (c : list BalanceDoc) (bal_seller : BalanceDoc) :
  NoDup (map b_id c) ->
  find_one (balance_by_owner (o_user_id sell_doc) (o_course_id sell_doc)) c
  = Some bal_seller ->
  let c' := settle next buy_doc sell_doc amount c in
  reserved_in c' (o_user_id sell_doc) (o_course_id sell_doc)
  = reserved_in c (o_user_id sell_doc) (o_course_id sell_doc) - amount
  /\ amount_in c' (o_user_id buy_doc) (o_course_id buy_doc)
     = amount_in c (o_user_id buy_doc) (o_course_id buy_doc) + amount.
Proof.
  intros Hnd Hseller. unfold settle. rewrite Hseller, Hseller.
  set (su := o_user_id sell_doc) in *. set (sc := o_course_id sell_doc) in *.
  set (bu := o_user_id buy_doc). set (bc := o_course_id buy_doc).
  set (c2 := update_one (balance_by_id (b_id bal_seller))
               (balance_inc_reserved (- amount)) c).
  assert (Hnd2 : NoDup (map b_id c2)).
  { apply keeps_owner_NoDup; [apply balance_inc_reserved_keeps | assumption]. }
  assert (Hs2 : find_one (balance_by_owner su sc) c2
                = Some (balance_inc_reserved (- amount) bal_seller)).
  { apply balance_update_found; auto using balance_inc_reserved_keeps. }
  assert (Hb2 : find_one (balance_by_owner bu bc) c2
                = if balance_by_owner bu bc bal_seller
                  then Some (balance_inc_reserved (- amount) bal_seller)
                  else find_one (balance_by_owner bu bc) c).
  { apply balance_update_lookup with (user_id := su) (course_id := sc);
      auto using balance_inc_reserved_keeps. }
  assert (Hamt2 : amount_in c2 bu bc = amount_in c bu bc).
  { unfold amount_in. rewrite Hb2.
    destruct (balance_by_owner bu bc bal_seller) eqn:Hq; [| reflexivity].
    apply balance_by_owner_true in Hq. destruct Hq as [Hq1 Hq2].
    destruct (find_one_split _ _ _ Hseller) as (_ & _ & _ & Hsb & _).
    apply balance_by_owner_true in Hsb. destruct Hsb as [Hso1 Hso2].
    assert (bu = su) as -> by congruence. assert (bc = sc) as -> by congruence.
    rewrite Hseller. reflexivity. }
  assert (Hres2 : reserved_in c2 su sc = reserved_in c su sc - amount).
  { unfold reserved_in. rewrite Hs2, Hseller. simpl b_reserved.
    rewrite get_inc. lia. }
  destruct (find_one (balance_by_owner bu bc) c2) as [bb |] eqn:Hbuyer.
  - split.
    + rewrite <- Hres2. unfold reserved_in.
      rewrite (balance_update_lookup c2 bu bc bb _ su sc Hnd2
                 (balance_inc_amount_keeps _) Hbuyer).
      destruct (balance_by_owner su sc bb) eqn:Hq; [| reflexivity].
      apply balance_by_owner_true in Hq. destruct Hq as [Hq1 Hq2].
      destruct (find_one_split _ _ _ Hbuyer) as (_ & _ & _ & Hbb & _).
      apply balance_by_owner_true in Hbb. destruct Hbb as [Hb1 Hb3].
      assert (bu = su) as E1 by congruence. assert (bc = sc) as E2 by congruence.
      rewrite E1, E2 in Hbuyer. rewrite Hbuyer. reflexivity.
    + rewrite <- Hamt2. unfold amount_in.
      rewrite (balance_update_found c2 bu bc bb _ Hnd2
                 (balance_inc_amount_keeps _) Hbuyer), Hbuyer.
      simpl b_amount. rewrite get_inc. reflexivity.
  - split.
    + rewrite <- Hres2. unfold reserved_in.
      rewrite (find_one_Some_app _ _ _ _ Hs2), Hs2. reflexivity.
    + rewrite <- Hamt2. unfold amount_in.
      rewrite (find_one_None_app _ _ _ Hbuyer), Hbuyer.
      rewrite balance_by_owner_refl by reflexivity. simpl. lia.
Qed.

Lemma available_amount_in (db : DB) (user_id course_id : string) :
  available db user_id course_id = amount_in (balance db) user_id course_id.
Proof. reflexivity. Qed.

Lemma reserved_reserved_in (db : DB) (user_id course_id : string) :
  reserved db user_id course_id = reserved_in (balance db) user_id course_id.
Proof. reflexivity. Qed.

(** C9. [match_trade] checks no sign: with a negative requested amount on
    a buy order and a sell order of the same course, the filled quantity
    [min(requested, buy.amount, sell.amount)] is negative and is returned
    as a success; both orders' open amounts go up by its absolute value,
    and so does the seller's reserved balance, while the buyer's available
    balance goes down by it.  (The quantity is a 64-bit integer, the seller
    has a balance record, as the author of a placed sell order has, and
    the balance records have distinct [_id]s.) *)
Theorem negative_trade (db : DB) (req : TradeRequest) (buy_oid sell_oid : ObjectId)
    (buy_doc sell_doc : OrderDoc) (bal_seller : BalanceDoc) :
  ObjectId.of_str (buy_order_id req) = Some buy_oid ->
  ObjectId.of_str (sell_order_id req) = Some sell_oid ->
  find_one (order_by_id buy_oid) (order db) = Some buy_doc ->
  find_one (order_by_id sell_oid) (order db) = Some sell_doc ->
  o_side buy_doc = buy -> o_side sell_doc = sell ->
  o_course_id buy_doc = o_course_id sell_doc ->
  find_one (balance_by_owner (o_user_id sell_doc) (o_course_id sell_doc))
    (balance db) = Some bal_seller ->
  NoDup (map b_id (balance db)) ->
  tr_amount req < 0 ->
  let filled :=
    Z.min (Z.min (tr_amount req) (o_amount buy_doc)) (o_amount sell_doc) in
  int64 filled ->
  exists db' res buy_doc' sell_doc',
    match_trade req db = (db', Returned res)
    /\ filled_amount res = filled /\ filled < 0
    /\ find_one (order_by_id buy_oid) (order db') = Some buy_doc'
    /\ find_one (order_by_id sell_oid) (order db') = Some sell_doc'
    /\ o_amount buy_doc' = o_amount buy_doc + Z.abs filled
    /\ o_amount sell_doc' = o_amount sell_doc + Z.abs filled
    /\ reserved db' (o_user_id sell_doc) (o_course_id sell_doc)
       = reserved db (o_user_id sell_doc) (o_course_id sell_doc) + Z.abs filled
    /\ available db' (o_user_id buy_doc) (o_course_id buy_doc)
       = available db (o_user_id buy_doc) (o_course_id buy_doc) - Z.abs filled.
Proof.
  intros Hb Hs Hfb Hfs Hsb Hss Hco Hseller Hnd Hneg filled H64.
  destruct (match_trade_returns req db _ _ _ _ _ Hb Hs Hfb Hfs Hsb Hss Hco
              (of_int_int64 _ H64)) as (db' & Hrun & Hord & Hbal & _).
  destruct (trade_orders_updated (order db) _ _ _ _ (fill req buy_doc sell_doc)
              Hfb Hfs Hsb Hss) as (H1 & H2 & _).
  destruct (settle_reads (next_oid db) buy_doc sell_doc (fill req buy_doc sell_doc)
              (balance db) bal_seller Hnd Hseller) as (Hres & Hamt).
  assert (Hfill : fill req buy_doc sell_doc = filled) by reflexivity.
  assert (Hlt : filled < 0) by (subst filled; lia).
  rewrite Hfill in *.
  eexists db', _, _, _. split; [exact Hrun |]. simpl filled_amount.
  split; [reflexivity |]. split; [exact Hlt |].
  rewrite Hord. split; [exact H1 |]. split; [exact H2 |].
  simpl o_amount. split; [lia |]. split; [lia |].
  rewrite !reserved_reserved_in, !available_amount_in, Hbal, Hres, Hamt. lia.
Qed.

(** In [market_db], U2 holds no token: after the trade of -3 tokens, U2's
    available balance is -3. *)
Lemma negative_trade_witness :
  exists db' res buy_doc' sell_doc',
    match_trade (demo_trade (-3)) market_db = (db', Returned res)
    /\ filled_amount res = Z.min (Z.min (-3) 5) 5 /\ Z.min (Z.min (-3) 5) 5 < 0
    /\ find_one (order_by_id (ObjectId.generate 5)) (order db') = Some buy_doc'
    /\ find_one (order_by_id (ObjectId.generate 4)) (order db') = Some sell_doc'
    /\ o_amount buy_doc' = 5 + Z.abs (Z.min (Z.min (-3) 5) 5)
    /\ o_amount sell_doc' = 5 + Z.abs (Z.min (Z.min (-3) 5) 5)
    /\ reserved db' "U1" demo_course_id
       = reserved market_db "U1" demo_course_id + Z.abs (Z.min (Z.min (-3) 5) 5)
    /\ available db' "U2" demo_course_id
       = available market_db "U2" demo_course_id - Z.abs (Z.min (Z.min (-3) 5) 5).
Proof.
  refine (negative_trade market_db (demo_trade (-3)) (ObjectId.generate 5)
            (ObjectId.generate 4) market_buy_doc market_sell_doc
            (hd {| b_id := []; b_user_id := ""; b_course_id := "";
                   b_amount := None; b_reserved := None |} (balance market_db))
            _ _ _ _ _ _ _ _ _ _ _); try reflexivity.
  - simpl. repeat constructor. intros [].
  - unfold int64. simpl. lia.
Defined.

(* ================================================================== *)
(** * Matching again once an order is filled *)

Lemma holdings_in_update_one (q : BalanceDoc -> bool) (u : BalanceDoc -> BalanceDoc)
    (c : list BalanceDoc) (user_id course_id : string) :
  keeps_owner u -> (forall b, holdings (u b) = holdings b) ->
  holdings_in (update_one q u c) user_id course_id = holdings_in c user_id course_id.
Proof.
  intros Hu Hh. unfold holdings_in.
  induction c as [| d r IH]; simpl; [reflexivity |].
  destruct (q d).
  - rewrite !find_one_cons, keeps_owner_query by assumption.
    destruct (balance_by_owner user_id course_id d); [apply Hh | reflexivity].
  - rewrite !find_one_cons.
    destruct (balance_by_owner user_id course_id d); [reflexivity | exact IH].
Qed.

Lemma holdings_in_app_zero (c : list BalanceDoc) (z : BalanceDoc)
    (user_id course_id : string) :
  holdings z = (0, 0) ->
  holdings_in (c ++ [z]) user_id course_id = holdings_in c user_id course_id.
Proof.
  intros Hz. unfold holdings_in. rewrite find_one_app.
  destruct (find_one (balance_by_owner user_id course_id) c); [reflexivity |].
  rewrite find_one_cons.
  destruct (balance_by_owner user_id course_id z); [exact Hz | reflexivity].
Qed.

Lemma holdings_inc_amount_zero (b : BalanceDoc) :
  holdings (balance_inc_amount 0 b) = holdings b.
Proof. unfold holdings. simpl. rewrite get_inc. f_equal. lia. Qed.

Lemma holdings_inc_reserved_zero (b : BalanceDoc) :
  holdings (balance_inc_reserved (- 0) b) = holdings b.
Proof. unfold holdings. simpl. rewrite get_inc. f_equal. lia. Qed.

(** A settlement of nothing: every owner reads what they read before, and
    the collection is the old one, value for value, followed by the
    zero-valued records it may have created. *)
Lemma settle_zero (next : N) (buy_doc sell_doc : OrderDoc) (c : list BalanceDoc) :
  let c' := settle next buy_doc sell_doc 0 c in
  (forall user_id course_id,
      holdings_in c' user_id course_id = holdings_in c user_id course_id)
  /\ exists created,
       map holdings c' = map holdings c ++ created
       /\ Forall (fun h => h = (0, 0)) created.
Proof.
  unfold settle.
  set (seller := balance_by_owner (o_user_id sell_doc) (o_course_id sell_doc)).
  set (buyer := balance_by_owner (o_user_id buy_doc) (o_course_id buy_doc)).
  set (zs := {| b_id := ObjectId.generate next; b_user_id := o_user_id sell_doc;
                b_course_id := o_course_id sell_doc;
                b_amount := Some 0; b_reserved := Some 0 |}).
  assert (Hstep : forall (c1 : list BalanceDoc) (next1 : N) (extra : list (Z * Z)),
             (forall user_id course_id,
                 holdings_in c1 user_id course_id = holdings_in c user_id course_id) ->
             map holdings c1 = map holdings c ++ extra ->
             Forall (fun h => h = (0, 0)) extra ->
             let c' :=
               match find_one seller c1 with
               | None => c1
               | Some bal_seller =>
                   let c2 := update_one (balance_by_id (b_id bal_seller))
                               (balance_inc_reserved (- 0)) c1 in
                   match find_one buyer c2 with
                   | Some bal_buyer =>
                       update_one (balance_by_id (b_id bal_buyer))
                         (balance_inc_amount 0) c2
                   | None =>
                       c2 ++ [ {| b_id := ObjectId.generate next1;
                                  b_user_id := o_user_id buy_doc;
                                  b_course_id := o_course_id buy_doc;
                                  b_amount := Some 0; b_reserved := None |} ]
                   end
               end in
             (forall user_id course_id,
                 holdings_in c' user_id course_id = holdings_in c user_id course_id)
             /\ exists created,
                  map holdings c' = map holdings c ++ created
                  /\ Forall (fun h => h = (0, 0)) created).
  { intros c1 next1 extra Hread Hmap Hextra.
    destruct (find_one seller c1) as [bs |]; [| split; eauto].
    set (c2 := update_one (balance_by_id (b_id bs)) (balance_inc_reserved (- 0)) c1).
    assert (Hread2 : forall user_id course_id,
               holdings_in c2 user_id course_id = holdings_in c user_id course_id).
    { intros. rewrite <- Hread. apply holdings_in_update_one;
        [apply balance_inc_reserved_keeps | apply holdings_inc_reserved_zero]. }
    assert (Hmap2 : map holdings c2 = map holdings c ++ extra).
    { rewrite <- Hmap. apply update_one_map, holdings_inc_reserved_zero. }
    cbv zeta. fold c2.
    destruct (find_one buyer c2) as [bb |].
    - split.
      + intros. rewrite <- Hread2. apply holdings_in_update_one;
          [apply balance_inc_amount_keeps | apply holdings_inc_amount_zero].
      + exists extra. split; [| assumption].
        rewrite <- Hmap2. apply update_one_map, holdings_inc_amount_zero.
    - split.
      + intros. rewrite <- Hread2. now apply holdings_in_app_zero.
      + exists (extra ++ [(0, 0)]). split.
        * rewrite map_app, Hmap2, <- app_assoc. reflexivity.
        * apply Forall_app. split; [assumption | repeat constructor]. }
  destruct (find_one seller c) as [bs |] eqn:Hseller.
  - apply (Hstep c next []); [reflexivity | now rewrite app_nil_r | constructor].
  - apply (Hstep (c ++ [zs]) (N.succ next) [(0, 0)]).
    + intros. now apply holdings_in_app_zero.
    + now rewrite map_app.
    + repeat constructor.
Qed.

(** C7. Once one of the two orders is fully filled (its remaining amount
    is 0, the other's is not negative), matching the pair again with a
    non-negative requested amount returns [filled_amount = 0]; every owner
    reads the available and reserved amounts they read before, and every
    balance record keeps its two values (a record the call creates for an
    owner who had none holds zeros). *)
Theorem rematch_fills_nothing (db : DB) (req : TradeRequest)
    (buy_oid sell_oid : ObjectId) (buy_doc sell_doc : OrderDoc) :
  ObjectId.of_str (buy_order_id req) = Some buy_oid ->
  ObjectId.of_str (sell_order_id req) = Some sell_oid ->
  find_one (order_by_id buy_oid) (order db) = Some buy_doc ->
  find_one (order_by_id sell_oid) (order db) = Some sell_doc ->
  o_side buy_doc = buy -> o_side sell_doc = sell ->
  o_course_id buy_doc = o_course_id sell_doc ->
  0 <= o_amount buy_doc -> 0 <= o_amount sell_doc ->
  o_amount buy_doc = 0 \/ o_amount sell_doc = 0 ->
  0 <= tr_amount req ->
  exists db' res,
    match_trade req db = (db', Returned res)
    /\ filled_amount res = 0
    /\ (forall user_id course_id,
          available db' user_id course_id = available db user_id course_id
          /\ reserved db' user_id course_id = reserved db user_id course_id)
    /\ exists created,
         map holdings (balance db') = map holdings (balance db) ++ created
         /\ Forall (fun h => h = (0, 0)) created.
Proof.
  intros Hb Hs Hfb Hfs Hsb Hss Hco Hbn Hsn Hzero Hreq.
  assert (Hfill : fill req buy_doc sell_doc = 0) by (unfold fill; lia).
  assert (Hg : PyFloat.of_int (fill req buy_doc sell_doc) = Some PyFloat.zero).
  { rewrite Hfill. reflexivity. }
  destruct (match_trade_returns req db _ _ _ _ _ Hb Hs Hfb Hfs Hsb Hss Hco Hg)
    as (db' & Hrun & _ & Hbal & _).
  rewrite Hfill in Hrun, Hbal.
  destruct (settle_zero (next_oid db) buy_doc sell_doc (balance db))
    as (Hread & Hrecords).
  rewrite <- Hbal in Hread, Hrecords.
  eexists db', _. split; [exact Hrun |]. split; [reflexivity |].
  split; [| exact Hrecords].
  intros user_id course_id. specialize (Hread user_id course_id).
  unfold holdings_in, holdings in Hread. unfold available, reserved.
  destruct (find_one (balance_by_owner user_id course_id) (balance db')),
    (find_one (balance_by_owner user_id course_id) (balance db));
    try injection Hread as H1 H2; auto.
Qed.

Lemma rematch_fills_nothing_witness :
  exists db' res,
    match_trade (demo_trade 7) settled_db = (db', Returned res)
    /\ filled_amount res = 0
    /\ (forall user_id course_id,
          available db' user_id course_id = available settled_db user_id course_id
          /\ reserved db' user_id course_id = reserved settled_db user_id course_id)
    /\ exists created,
         map holdings (balance db') = map holdings (balance settled_db) ++ created
         /\ Forall (fun h => h = (0, 0)) created.
Proof.
  refine (rematch_fills_nothing settled_db (demo_trade 7) (ObjectId.generate 5)
            (ObjectId.generate 4) (nth 1 (order settled_db) no_order)
            (nth 0 (order settled_db) no_order) _ _ _ _ _ _ _ _ _ _ _);
    try reflexivity; simpl; lia.
Defined.

(* ================================================================== *)
(** * Placing a sell order *)

(** C5. A sell order on an existing course whose author has no balance
    record, or has less available than the order's amount, fails with 400
    "Insufficient token balance" and leaves the store as it was; when the
    author's available balance is at least the amount, the placement takes
    exactly the amount out of the author's available balance and puts it
    into the reserved one, touches no other owner's balance, and appends
    the order to the order collection.  (The balance records have distinct
    [_id]s.) *)
Theorem sell_order_placement (db : DB) (o : Order) (oid : ObjectId)
    (course_doc : CourseDoc) :
  or_side o = sell ->
  ObjectId.of_str (or_course_id o) = Some oid ->
  find_one (course_by_id oid) (course db) = Some course_doc ->
  NoDup (map b_id (balance db)) ->
  let seller := balance_by_owner (or_user_id o) (or_course_id o) in
  (find_one seller (balance db) = None
   \/ available db (or_user_id o) (or_course_id o) < or_amount o ->
   place_order o db = (db, HTTPException 400 "Insufficient token balance"))
  /\ (forall bal,
        find_one seller (balance db) = Some bal ->
        or_amount o <= available db (or_user_id o) (or_course_id o) ->
        exists db',
          place_order o db
          = (db', Returned (ObjectId.to_str (ObjectId.generate (next_oid db))))
          /\ available db' (or_user_id o) (or_course_id o)
             = available db (or_user_id o) (or_course_id o) - or_amount o
          /\ reserved db' (or_user_id o) (or_course_id o)
             = reserved db (or_user_id o) (or_course_id o) + or_amount o
          /\ (forall user_id course_id,
                user_id <> or_user_id o \/ course_id <> or_course_id o ->
                available db' user_id course_id = available db user_id course_id
                /\ reserved db' user_id course_id = reserved db user_id course_id)
          /\ order db'
             = order db ++ [order_doc (ObjectId.generate (next_oid db)) o]).
Proof.
  intros Hside Hoid Hcourse Hnd seller. split.
  - intros Hfail. unfold place_order. unfold_M. simpl.
    rewrite Hoid. simpl. rewrite Hcourse, Hside. simpl. fold seller.
    unfold available in Hfail. fold seller in Hfail.
    destruct (find_one seller (balance db)) as [bal |]; simpl; [| reflexivity].
    destruct Hfail as [Hfail | Hfail]; [discriminate |].
    apply Z.ltb_lt in Hfail. rewrite Hfail. reflexivity.
  - intros bal Hfind Henough.
    assert (Hcheck : (get (b_amount bal) 0 <? or_amount o) = false).
    { apply Z.ltb_ge. unfold available in Henough. fold seller in Henough.
      now rewrite Hfind in Henough. }
    unfold place_order. unfold_M. simpl.
    rewrite Hoid. simpl. rewrite Hcourse, Hside. simpl. fold seller.
    rewrite Hfind. simpl. rewrite Hcheck. simpl.
    eexists. split; [reflexivity |]. simpl.
    unfold available, reserved. simpl balance. fold seller.
    pose proof (balance_update_found (balance db) _ _ bal
                  (balance_inc_both (- or_amount o) (or_amount o)) Hnd
                  (balance_inc_both_keeps _ _) Hfind) as Hnew.
    fold seller in Hnew. rewrite Hnew, Hfind. simpl b_amount. simpl b_reserved.
    rewrite !get_inc. split; [lia |]. split; [lia |].
    split; [| unfold order_doc; now rewrite Hside].
    intros user_id course_id Hother.
    assert (Hq : balance_by_owner user_id course_id bal = false).
    { destruct (find_one_split _ _ _ Hfind) as (_ & _ & _ & Hb & _).
      apply balance_by_owner_true in Hb. destruct Hb as [Hb1 Hb2].
      unfold balance_by_owner. rewrite Hb1, Hb2. apply andb_false_iff.
      destruct Hother as [Hne | Hne]; [left | right];
        apply String.eqb_neq; congruence. }
    rewrite (balance_update_other (balance db) _ _ bal _ user_id course_id Hnd
               (balance_inc_both_keeps _ _) Hfind Hq).
    split; reflexivity.
Qed.

Lemma sell_order_placement_witness :
  (place_order demo_sell demo_db
   = (demo_db, HTTPException 400 "Insufficient token balance"))
  /\ exists db',
       place_order demo_sell funded_db
       = (db', Returned (ObjectId.to_str (ObjectId.generate (next_oid funded_db))))
       /\ available db' "U1" demo_course_id
          = available funded_db "U1" demo_course_id - 5
       /\ reserved db' "U1" demo_course_id
          = reserved funded_db "U1" demo_course_id + 5
       /\ (forall user_id course_id,
             user_id <> "U1" \/ course_id <> demo_course_id ->
             available db' user_id course_id
             = available funded_db user_id course_id
             /\ reserved db' user_id course_id
                = reserved funded_db user_id course_id)
       /\ order db'
          = order funded_db
            ++ [order_doc (ObjectId.generate (next_oid funded_db)) demo_sell].
Proof.
  split.
  - refine (proj1 (sell_order_placement demo_db demo_sell (ObjectId.generate 0)
                     (hd {| c_id := []; c_price_usd := None;
                            c_model := demo_course |} (course demo_db))
                     eq_refl eq_refl eq_refl _) _).
    + constructor.
    + left. reflexivity.
  - assert (Hnd : NoDup (map b_id (balance funded_db))).
    { simpl. repeat constructor. intros []. }
    refine (proj2 (sell_order_placement funded_db demo_sell (ObjectId.generate 0)
                     (hd {| c_id := []; c_price_usd := None;
                            c_model := demo_course |} (course funded_db))
                     eq_refl eq_refl eq_refl Hnd)
                  (hd {| b_id := []; b_user_id := ""; b_course_id := "";
                         b_amount := None; b_reserved := None |}
                      (balance funded_db)) eq_refl _).
    vm_compute. discriminate.
Defined.

(* ================================================================== *)
(** * What the handlers do to the order collection *)

Lemma create_course_order (c : Course) (db : DB) :
  order (fst (create_course c db)) = order db.
Proof. reflexivity. Qed.

Lemma purchase_course_order (course_id : string) (req : PurchaseRequest) (db : DB) :
  order (fst (purchase_course course_id req db)) = order db.
Proof. unfold purchase_course. run; reflexivity. Qed.

Lemma place_order_order (o : Order) (db : DB) :
  order (fst (place_order o db)) = order db
  \/ order (fst (place_order o db))
     = order db ++ [order_doc (ObjectId.generate (next_oid db)) o].
Proof.
  unfold place_order, order_doc. unfold_M. simpl.
  destruct (ObjectId.of_str (or_course_id o)); simpl; auto.
  destruct (find_one _ (course db)); simpl; auto.
  destruct (or_side o); simpl; auto.
  destruct (find_one _ (balance db)); simpl; auto.
  destruct (_ <? _); simpl; auto.
Qed.

Lemma match_trade_order (req : TradeRequest) (db : DB) :
  order (fst (match_trade req db)) = order db
  \/ exists k1 k2 delta,
       order (fst (match_trade req db))
       = update_one (order_by_id k1) (order_inc_amount delta)
           (update_one (order_by_id k2) (order_inc_amount delta) (order db)).
Proof.
  unfold match_trade. run; auto; right; eauto.
Qed.

(** One request: the orders that were there keep everything but their
    amount, and the only order that can appear is the one the request
    places, as the request gives it. *)
Lemma handle_order_frame (r : Request) (db : DB) :
  exists placed,
    map order_frame (order (fst (handle r db)))
    = map order_frame (order db)
      ++ map (fun p => order_frame (order_doc (fst p) (snd p))) placed
    /\ Forall (fun p => r = PostOrder (snd p)) placed.
Proof.
  assert (Hsame : forall l, l = order db ->
            exists placed,
              map order_frame l
              = map order_frame (order db)
                ++ map (fun p => order_frame (order_doc (fst p) (snd p))) placed
              /\ Forall (fun p => r = PostOrder (snd p)) placed).
  { intros l ->. exists []. simpl. rewrite app_nil_r. auto. }
  destruct r as [c | course_id req | o | req]; simpl.
  - destruct (Course_valid c); apply Hsame; reflexivity.
  - apply Hsame. unfold bind.
    pose proof (purchase_course_order course_id req db) as H.
    destruct (purchase_course course_id req db) as [db1 []]; exact H.
  - destruct (Order_valid o); [| apply Hsame; reflexivity].
    unfold bind. pose proof (place_order_order o db) as H.
    destruct (place_order o db) as [db1 out]. simpl in H.
    assert (Hfst : order (fst (match out with
                               | Returned a => ret (OrderPlaced a) db1
                               | HTTPException code detail =>
                                   (db1, HTTPException code detail)
                               | Raised e => (db1, Raised e)
                               end)) = order db1).
    { destruct out; reflexivity. }
    rewrite Hfst. destruct H as [H | H]; [now apply Hsame |].
    exists [(ObjectId.generate (next_oid db), o)]. rewrite H, map_app. simpl. auto.
  - unfold bind. pose proof (match_trade_order req db) as H.
    destruct (match_trade req db) as [db1 out]. simpl in H.
    assert (Hfst : order (fst (match out with
                               | Returned a => ret (TradeMatched a) db1
                               | HTTPException code detail =>
                                   (db1, HTTPException code detail)
                               | Raised e => (db1, Raised e)
                               end)) = order db1).
    { destruct out; reflexivity. }
    rewrite Hfst. destruct H as [H | (k1 & k2 & delta & H)]; [now apply Hsame |].
    exists []. simpl. rewrite app_nil_r, H. split; [| constructor].
    rewrite !update_one_map; reflexivity.
Qed.

(** The model [Order] carries [status], so the body of [POST /api/orders]
    may set it: this order is accepted and recorded as "filled". *)
Lemma order_created_filled :
  Order_valid late_order = true
  /\ map o_status (order (serve [PostCourse demo_course; PostOrder late_order]
                            empty_db)) = [filled].
Proof. split; reflexivity. Qed.

(** C10, amended. No request ever changes the status of an order: along
    any session, from any store, every order that was recorded keeps its
    [_id], course, author, side, price and status, its amount alone may
    change (also when a trade brings it to 0), and every order that
    appears is the order of a [POST /api/orders] request of the session,
    recorded with the status that request carries ("open" when the body
    names none). *)
Theorem order_status_never_mutated (rs : list Request) (db : DB) :
  exists placed,
    map order_frame (order (serve rs db))
    = map order_frame (order db)
      ++ map (fun p => order_frame (order_doc (fst p) (snd p))) placed
    /\ Forall (fun p => In (PostOrder (snd p)) rs) placed.
Proof.
  revert db. induction rs as [| r rs IH]; intros db; simpl.
  - exists []. simpl. rewrite app_nil_r. auto.
  - destruct (IH (fst (handle r db))) as (placed2 & Heq2 & Hin2).
    destruct (handle_order_frame r db) as (placed1 & Heq1 & Hin1).
    exists (placed1 ++ placed2). split.
    + rewrite Heq2, Heq1, map_app, app_assoc. reflexivity.
    + apply Forall_app. split.
      * eapply Forall_impl; [| exact Hin1]. intros p ->. now left.
      * eapply Forall_impl; [| exact Hin2]. intros p Hp. now right.
Qed.

(* ================================================================== *)
(** * Negative balances *)

Lemma reachable_serve (rs : list Request) (db : DB) :
  reachable db -> reachable (serve rs db).
Proof.
  revert db. induction rs as [| r rs IH]; intros db Hdb; simpl; [assumption |].
  apply IH. now constructor.
Qed.

(** C4, as the code has it. After [negative_session], which every
    handler accepts, U2's available balance for the course is -3: the
    trade request's [amount] is an unconstrained [int], while the order
    model asks [amount > 0]. *)
Theorem negative_balance_reachable :
  reachable (serve negative_session empty_db)
  /\ snd (handle (PostTrade (demo_trade (-3))) market_db)
     = Returned (TradeMatched {| filled_amount := -3;
                                 trade_price_usd := PyFloat.round_int 2 |})
  /\ map (fun b => (b_user_id b, b_amount b, b_reserved b))
         (balance (serve negative_session empty_db))
     = [("U1", Some 5, Some 8); ("U2", Some (-3), None)]
  /\ available (serve negative_session empty_db) "U2" demo_course_id = -3.
Proof.
  split; [apply reachable_serve; constructor |].
  split; [vm_compute; reflexivity |].
  split; vm_compute; reflexivity.
Qed.


(* ================================================================== *)
(** * Rejected requests *)

(** The outcomes of [purchase_course], lookup by lookup. *)
Lemma purchase_course_cases (course_id : string) (req : PurchaseRequest) (db : DB) :
  (ObjectId.of_str course_id = None
   /\ purchase_course course_id req db = (db, HTTPException 400 "Invalid id"))
  \/ (exists oid,
        ObjectId.of_str course_id = Some oid
        /\ find_one (course_by_id oid) (course db) = None
        /\ purchase_course course_id req db
           = (db, HTTPException 404 "Course not found"))
  \/ (exists oid course_doc,
        ObjectId.of_str course_id = Some oid
        /\ find_one (course_by_id oid) (course db) = Some course_doc
        /\ find_one (token_by_course course_id) (coursetoken db) = None
        /\ purchase_course course_id req db
           = (db, HTTPException 500 "Token record missing for course"))
  \/ (exists oid course_doc token,
        ObjectId.of_str course_id = Some oid
        /\ find_one (course_by_id oid) (course db) = Some course_doc
        /\ find_one (token_by_course course_id) (coursetoken db) = Some token
        /\ forall code detail,
             snd (purchase_course course_id req db) <> HTTPException code detail).
Proof.
  unfold purchase_course. unfold_M. simpl.
  destruct (ObjectId.of_str course_id) as [oid |] eqn:Hoid; simpl; [| auto].
  right.
  destruct (find_one (course_by_id oid) (course db)) as [cd |] eqn:Hc; simpl;
    [| left; exists oid; auto].
  right.
  destruct (find_one (token_by_course course_id) (coursetoken db)) as [tk |] eqn:Ht;
    simpl; [| left; exists oid, cd; auto].
  right. exists oid, cd, tk. repeat split; try assumption; try reflexivity.
  intros code detail.
  repeat (branch; unfold_M; simpl); discriminate.
Qed.

(** The outcomes of [place_order] up to the course lookup. *)
Lemma place_order_http (o : Order) (db : DB) (code : Z) (detail : string) :
  snd (place_order o db) = HTTPException code detail ->
  fst (place_order o db) = db.
Proof.
  unfold place_order. unfold_M. simpl.
  repeat (branch; unfold_M; simpl); try discriminate; reflexivity.
Qed.

(** The outcomes of [match_trade], check by check. *)
Lemma match_trade_cases (req : TradeRequest) (db : DB) :
  (ObjectId.of_str (buy_order_id req) = None
   /\ match_trade req db = (db, HTTPException 400 "Invalid id"))
  \/ (exists buy_oid,
        ObjectId.of_str (buy_order_id req) = Some buy_oid
        /\ ObjectId.of_str (sell_order_id req) = None
        /\ match_trade req db = (db, HTTPException 400 "Invalid id"))
  \/ (exists buy_oid sell_oid,
        ObjectId.of_str (buy_order_id req) = Some buy_oid
        /\ ObjectId.of_str (sell_order_id req) = Some sell_oid
        /\ (find_one (order_by_id buy_oid) (order db) = None
            \/ find_one (order_by_id sell_oid) (order db) = None)
        /\ match_trade req db = (db, HTTPException 404 "Order not found"))
  \/ (exists buy_oid sell_oid buy_doc sell_doc,
        ObjectId.of_str (buy_order_id req) = Some buy_oid
        /\ ObjectId.of_str (sell_order_id req) = Some sell_oid
        /\ find_one (order_by_id buy_oid) (order db) = Some buy_doc
        /\ find_one (order_by_id sell_oid) (order db) = Some sell_doc
        /\ (o_side buy_doc <> buy \/ o_side sell_doc <> sell)
        /\ match_trade req db = (db, HTTPException 400 "Invalid order sides"))
  \/ (exists buy_oid sell_oid buy_doc sell_doc,
        ObjectId.of_str (buy_order_id req) = Some buy_oid
        /\ ObjectId.of_str (sell_order_id req) = Some sell_oid
        /\ find_one (order_by_id buy_oid) (order db) = Some buy_doc
        /\ find_one (order_by_id sell_oid) (order db) = Some sell_doc
        /\ o_side buy_doc = buy /\ o_side sell_doc = sell
        /\ o_course_id buy_doc <> o_course_id sell_doc
        /\ match_trade req db = (db, HTTPException 400 "Course mismatch"))
  \/ (exists buy_oid sell_oid buy_doc sell_doc,
        ObjectId.of_str (buy_order_id req) = Some buy_oid
        /\ ObjectId.of_str (sell_order_id req) = Some sell_oid
        /\ find_one (order_by_id buy_oid) (order db) = Some buy_doc
        /\ find_one (order_by_id sell_oid) (order db) = Some sell_doc
        /\ o_side buy_doc = buy /\ o_side sell_doc = sell
        /\ o_course_id buy_doc = o_course_id sell_doc
        /\ forall code detail,
             snd (match_trade req db) <> HTTPException code detail).
Proof.
  unfold match_trade. unfold_M. simpl.
  destruct (ObjectId.of_str (buy_order_id req)) as [boid |] eqn:Hb; simpl; [| auto].
  right.
  destruct (ObjectId.of_str (sell_order_id req)) as [soid |] eqn:Hs; simpl;
    [| left; exists boid; auto].
  right.
  destruct (find_one (order_by_id boid) (order db)) as [b |] eqn:Hfb; simpl;
    [| left; exists boid, soid; auto].
  destruct (find_one (order_by_id soid) (order db)) as [s |] eqn:Hfs; simpl;
    [| left; exists boid, soid; auto].
  right.
  destruct (o_side b) eqn:Hsb; simpl;
    [| left; exists boid, soid, b, s; repeat split; auto; left; congruence].
  destruct (o_side s) eqn:Hss; simpl;
    [left; exists boid, soid, b, s; repeat split; auto; right; congruence |].
  right.
  destruct (String.eqb (o_course_id b) (o_course_id s)) eqn:Hco; simpl.
  - apply String.eqb_eq in Hco. right.
    exists boid, soid, b, s. repeat split; try assumption; try reflexivity.
    intros code detail.
    repeat (branch; unfold_M; simpl); discriminate.
  - apply String.eqb_neq in Hco. left.
    exists boid, soid, b, s. repeat split; auto.
Qed.

(** X1. A request that is answered with an HTTP error (400, 404, 422 or
    the 500 of a missing token record) has changed nothing in the store:
    every handler raises its [HTTPException]s before its first write. *)
Theorem http_error_changes_nothing (r : Request) (db : DB) (code : Z)
    (detail : string) :
  snd (handle r db) = HTTPException code detail ->
  fst (handle r db) = db.
Proof.
  destruct r as [c | course_id req | o | req]; simpl.
  - destruct (Course_valid c); [discriminate | reflexivity].
  - unfold bind.
    destruct (purchase_course_cases course_id req db)
      as [(_ & H) | [(oid & _ & _ & H) | [(oid & cd & _ & _ & _ & H)
         | (oid & cd & tk & _ & _ & _ & H)]]];
      try (rewrite H; reflexivity).
    destruct (purchase_course course_id req db) as [db1 out].
    destruct out as [res | code' detail' | e]; simpl; try discriminate.
    intros _. exfalso. exact (H code' detail' eq_refl).
  - destruct (Order_valid o); [| reflexivity].
    unfold bind. pose proof (place_order_http o db) as H.
    destruct (place_order o db) as [db1 out].
    destruct out as [res | code' detail' | e]; simpl; try discriminate.
    intros _. exact (H code' detail' eq_refl).
  - unfold bind.
    destruct (match_trade_cases req db)
      as [(_ & H) | [(boid & _ & _ & H) | [(boid & soid & _ & _ & _ & H)
         | [(boid & soid & b & s & _ & _ & _ & _ & _ & H)
         | [(boid & soid & b & s & _ & _ & _ & _ & _ & _ & _ & H)
         | (boid & soid & b & s & _ & _ & _ & _ & _ & _ & _ & H)]]]]];
      try (rewrite H; reflexivity).
    destruct (match_trade req db) as [db1 out].
    destruct out as [res | code' detail' | e]; simpl; try discriminate.
    intros _. exfalso. exact (H code' detail' eq_refl).
Qed.

Lemma http_error_changes_nothing_witness :
  snd (handle (PostTrade (demo_trade 5)) demo_db)
  = HTTPException 404 "Order not found"
  /\ fst (handle (PostTrade (demo_trade 5)) demo_db) = demo_db.
Proof.
  assert (H : snd (handle (PostTrade (demo_trade 5)) demo_db)
              = HTTPException 404 "Order not found") by reflexivity.
  split; [exact H |].
  exact (http_error_changes_nothing _ _ _ _ H).
Defined.

(** X2. Which rejection [match_trade] answers, and when: 400 "Invalid id"
    exactly when one of the two identifiers is malformed (also when the
    other order does not exist), 404 exactly when both are well formed and
    one of the orders is not found, 400 "Invalid order sides" exactly when
    both are found and the first is not a buy order or the second not a
    sell order (so also when the two identifiers are swapped), and 400
    "Course mismatch" exactly when the sides are right and the courses
    differ. *)
Theorem match_trade_rejections (req : TradeRequest) (db : DB) :
  (snd (match_trade req db) = HTTPException 400 "Invalid id"
   <-> ObjectId.of_str (buy_order_id req) = None
       \/ ObjectId.of_str (sell_order_id req) = None)
  /\ (snd (match_trade req db) = HTTPException 404 "Order not found"
      <-> exists buy_oid sell_oid,
            ObjectId.of_str (buy_order_id req) = Some buy_oid
            /\ ObjectId.of_str (sell_order_id req) = Some sell_oid
            /\ (find_one (order_by_id buy_oid) (order db) = None
                \/ find_one (order_by_id sell_oid) (order db) = None))
  /\ (snd (match_trade req db) = HTTPException 400 "Invalid order sides"
      <-> exists buy_oid sell_oid buy_doc sell_doc,
            ObjectId.of_str (buy_order_id req) = Some buy_oid
            /\ ObjectId.of_str (sell_order_id req) = Some sell_oid
            /\ find_one (order_by_id buy_oid) (order db) = Some buy_doc
            /\ find_one (order_by_id sell_oid) (order db) = Some sell_doc
            /\ (o_side buy_doc <> buy \/ o_side sell_doc <> sell))
  /\ (snd (match_trade req db) = HTTPException 400 "Course mismatch"
      <-> exists buy_oid sell_oid buy_doc sell_doc,
            ObjectId.of_str (buy_order_id req) = Some buy_oid
            /\ ObjectId.of_str (sell_order_id req) = Some sell_oid
            /\ find_one (order_by_id buy_oid) (order db) = Some buy_doc
            /\ find_one (order_by_id sell_oid) (order db) = Some sell_doc
            /\ o_side buy_doc = buy /\ o_side sell_doc = sell
            /\ o_course_id buy_doc <> o_course_id sell_doc).
Proof.
  destruct (match_trade_cases req db)
    as [(Hb & H) | [(boid & Hb & Hs & H) | [(boid & soid & Hb & Hs & Hf & H)
       | [(boid & soid & b & s & Hb & Hs & Hfb & Hfs & Hside & H)
       | [(boid & soid & b & s & Hb & Hs & Hfb & Hfs & Hsb & Hss & Hco & H)
       | (boid & soid & b & s & Hb & Hs & Hfb & Hfs & Hsb & Hss & Hco & H)]]]]];
    try rewrite H; simpl.
  - repeat split; try discriminate; auto;
      intros; repeat match goal with
                     | X : exists _, _ |- _ => destruct X
                     | X : _ /\ _ |- _ => destruct X
                     end; congruence.
  - repeat split; try discriminate; auto;
      intros; repeat match goal with
                     | X : exists _, _ |- _ => destruct X
                     | X : _ /\ _ |- _ => destruct X
                     end; congruence.
  - repeat split; try discriminate; eauto 10;
      intros; repeat match goal with
                     | X : exists _, _ |- _ => destruct X
                     | X : _ /\ _ |- _ => destruct X
                     | X : _ \/ _ |- _ => destruct X
                     end; congruence.
  - repeat split; try discriminate; eauto 12;
      intros; repeat match goal with
                     | X : exists _, _ |- _ => destruct X
                     | X : _ /\ _ |- _ => destruct X
                     | X : _ \/ _ |- _ => destruct X
                     end; congruence.
  - repeat split; try discriminate; eauto 12;
      intros; repeat match goal with
                     | X : exists _, _ |- _ => destruct X
                     | X : _ /\ _ |- _ => destruct X
                     | X : _ \/ _ |- _ => destruct X
                     end; congruence.
  - repeat split; try (intros X; exfalso; exact (H _ _ X));
      intros; repeat match goal with
                     | X : exists _, _ |- _ => destruct X
                     | X : _ /\ _ |- _ => destruct X
                     | X : _ \/ _ |- _ => destruct X
                     end; congruence.
Qed.

(** X3. Which rejection [purchase_course] answers, and when: 400 exactly
    when the identifier is malformed, 404 exactly when it is well formed
    and no course has it, and 500 "Token record missing for course" exactly
    when the course is found but no token record carries the identifier as
    it was written in the URL.  The course is looked up by the parsed
    identifier and the token record by the string, so the upper-case
    spelling of the identifier of an existing course finds the course and
    misses its token record. *)
Theorem purchase_course_rejections (course_id : string) (req : PurchaseRequest)
    (db : DB) :
  (snd (purchase_course course_id req db) = HTTPException 400 "Invalid id"
   <-> ObjectId.of_str course_id = None)
  /\ (snd (purchase_course course_id req db) = HTTPException 404 "Course not found"
      <-> exists oid,
            ObjectId.of_str course_id = Some oid
            /\ find_one (course_by_id oid) (course db) = None)
  /\ (snd (purchase_course course_id req db)
      = HTTPException 500 "Token record missing for course"
      <-> exists oid course_doc,
            ObjectId.of_str course_id = Some oid
            /\ find_one (course_by_id oid) (course db) = Some course_doc
            /\ find_one (token_by_course course_id) (coursetoken db) = None).
Proof.
  destruct (purchase_course_cases course_id req db)
    as [(Hoid & H) | [(oid & Hoid & Hc & H) | [(oid & cd & Hoid & Hc & Ht & H)
       | (oid & cd & tk & Hoid & Hc & Ht & H)]]];
    try rewrite H; simpl.
  - repeat split; try discriminate; auto;
      intros; repeat match goal with
                     | X : exists _, _ |- _ => destruct X
                     | X : _ /\ _ |- _ => destruct X
                     end; congruence.
  - repeat split; try discriminate; eauto;
      intros; repeat match goal with
                     | X : exists _, _ |- _ => destruct X
                     | X : _ /\ _ |- _ => destruct X
                     end; congruence.
  - repeat split; try discriminate; eauto;
      intros; repeat match goal with
                     | X : exists _, _ |- _ => destruct X
                     | X : _ /\ _ |- _ => destruct X
                     end; congruence.
  - repeat split; try (intros X; exfalso; exact (H _ _ X));
      intros; repeat match goal with
                     | X : exists _, _ |- _ => destruct X
                     | X : _ /\ _ |- _ => destruct X
                     end; congruence.
Qed.


(* ================================================================== *)
(** * What every session keeps *)

Lemma update_one_Forall_found {D : Type} (P : D -> Prop) (q : D -> bool)
    (u : D -> D) (c : list D) (t : D) :
  find_one q c = Some t -> P (u t) -> Forall P c -> Forall P (update_one q u c).
Proof.
  unfold find_one. intros Hfind Hut Hc. induction Hc as [| d r Hd Hr IH]; simpl in *;
    [constructor |].
  destruct (q d).
  - injection Hfind as ->. now constructor.
  - constructor; auto.
Qed.

Lemma serve_invariant (P : DB -> Prop) :
  (forall r db, P db -> P (fst (handle r db))) ->
  forall rs db, P db -> P (serve rs db).
Proof.
  intros Hstep. induction rs as [| r rs IH]; intros db Hdb; simpl; auto.
Qed.

Lemma handle_fst_purchase (course_id : string) (req : PurchaseRequest) (db : DB) :
  fst (handle (PostPurchase course_id req) db)
  = fst (purchase_course course_id req db).
Proof.
  simpl. unfold bind. destruct (purchase_course course_id req db) as [db1 []];
    reflexivity.
Qed.

Lemma handle_fst_trade (req : TradeRequest) (db : DB) :
  fst (handle (PostTrade req) db) = fst (match_trade req db).
Proof.
  simpl. unfold bind. destruct (match_trade req db) as [db1 []]; reflexivity.
Qed.

Lemma handle_fst_order (o : Order) (db : DB) :
  fst (handle (PostOrder o) db)
  = if Order_valid o then fst (place_order o db) else db.
Proof.
  simpl. destruct (Order_valid o); [| reflexivity].
  unfold bind. destruct (place_order o db) as [db1 []]; reflexivity.
Qed.

Lemma handle_fst_course (c : Course) (db : DB) :
  fst (handle (PostCourse c) db)
  = if Course_valid c then fst (create_course c db) else db.
Proof. simpl. destruct (Course_valid c); reflexivity. Qed.

(** What [create_course] leaves. *)
Lemma create_course_returns (c : Course) (db : DB) :
  let oid := ObjectId.generate (next_oid db) in
  let db' := fst (create_course c db) in
  snd (create_course c db) = Returned (ObjectId.to_str oid)
  /\ course db'
     = course db ++ [ {| c_id := oid; c_price_usd := Some (price_usd c);
                         c_model := c |} ]
  /\ coursetoken db'
     = coursetoken db
       ++ [initial_token (ObjectId.generate (N.succ (next_oid db)))
             (ObjectId.to_str oid) c]
  /\ balance db' = balance db /\ order db' = order db
  /\ purchase db' = purchase db
  /\ next_oid db' = N.succ (N.succ (next_oid db)).
Proof. repeat split; reflexivity. Qed.

(** A purchase touches the token records only through the award. *)
Lemma purchase_course_token_effect (course_id : string) (req : PurchaseRequest)
    (db : DB) :
  coursetoken (fst (purchase_course course_id req db)) = coursetoken db
  \/ exists token whole price,
       find_one (token_by_course course_id) (coursetoken db) = Some token
       /\ coursetoken (fst (purchase_course course_id req db))
          = update_one (token_by_course course_id)
              (token_inc (allocation token whole) (- allocation token whole) price)
              (coursetoken db).
Proof.
  unfold purchase_course. unfold_M. simpl.
  destruct (ObjectId.of_str course_id) as [oid |]; simpl; [| auto].
  destruct (find_one (course_by_id oid) (course db)) as [cd |]; simpl; [| auto].
  destruct (find_one (token_by_course course_id) (coursetoken db)) as [tk |] eqn:Ht;
    simpl; [| auto].
  destruct (PyFloat.of_int (get (t_total_supply tk) 1000)) as [f |]; simpl; [| auto].
  destruct (PyFloat.to_int (PyFloat.mul f PyFloat.c_0_01)) as [w |]; simpl; [| auto].
  fold (allocation tk w). right. exists tk, w, (get (c_price_usd cd) PyFloat.zero).
  split; [reflexivity |].
  destruct (find_one (balance_by_owner (pr_user_id req) course_id) (balance db));
    reflexivity.
Qed.

Lemma allocation_bounds (token : TokenDoc) (whole : Z) :
  0 <= get (t_treasury_token_balance token) 0 ->
  0 <= allocation token whole <= get (t_treasury_token_balance token) 0.
Proof.
  intros H. unfold allocation.
  destruct (Z.ltb_spec (get (t_treasury_token_balance token) 0) (Z.max 1 whole));
    lia.
Qed.

Lemma token_inc_sound (token : TokenDoc) (whole : Z) (price : float) :
  token_sound token ->
  token_sound (token_inc (allocation token whole) (- allocation token whole)
                 price token).
Proof.
  intros H. pose proof (allocation_bounds token whole) as Hb.
  unfold token_sound, token_inc in *. simpl.
  destruct (t_circulating_supply token), (t_treasury_token_balance token),
    (t_total_supply token); simpl in *; try contradiction. lia.
Qed.

Lemma handle_keeps_tokens_sound (r : Request) (db : DB) :
  Forall token_sound (coursetoken db) ->
  Forall token_sound (coursetoken (fst (handle r db))).
Proof.
  intros Hinv. destruct r as [c | course_id req | o | req].
  - rewrite handle_fst_course. destruct (Course_valid c) eqn:Hvalid; [| assumption].
    destruct (create_course_returns c db) as (_ & _ & -> & _).
    apply Forall_app. split; [assumption |]. constructor; [| constructor].
    unfold Course_valid in Hvalid. rewrite !andb_true_iff in Hvalid.
    destruct Hvalid as (_ & Hsupply). apply Z.ltb_lt in Hsupply.
    unfold token_sound, initial_token. simpl. lia.
  - rewrite handle_fst_purchase.
    destruct (purchase_course_token_effect course_id req db)
      as [-> | (tk & w & price & Hfind & ->)]; [assumption |].
    apply update_one_Forall_found with (t := tk); auto.
    apply token_inc_sound.
    destruct (find_one_split _ _ _ Hfind) as (l1 & l2 & Heq & _).
    rewrite Heq in Hinv. apply Forall_app in Hinv. destruct Hinv as [_ Hinv].
    now inversion Hinv.
  - rewrite handle_fst_order. destruct (Order_valid o); [| assumption].
    assert (H : coursetoken (fst (place_order o db)) = coursetoken db).
    { unfold place_order. run; reflexivity. }
    now rewrite H.
  - rewrite handle_fst_trade.
    destruct (match_trade_coursetoken req db) as [-> | (cid & fee & ->)];
      [assumption |].
    apply update_one_Forall; [| assumption]. intros d Hd. exact Hd.
Qed.

(** X5. Along any session, from a store whose token records are sound,
    every token record stays sound:
    [circulating_supply + treasury_token_balance = total_supply], the
    treasury never goes below zero and the circulating supply never goes
    above the total, whatever the requests and their outcomes.  A purchase
    against an exhausted treasury awards nothing rather than overdrawing
    it. *)
Theorem token_records_stay_sound (rs : list Request) (db : DB) :
  Forall token_sound (coursetoken db) ->
  Forall token_sound (coursetoken (serve rs db)).
Proof.
  apply (serve_invariant (fun db => Forall token_sound (coursetoken db))).
  intros r db0 Hinv. now apply handle_keeps_tokens_sound.
Qed.

Lemma token_records_stay_sound_witness :
  Forall token_sound (coursetoken empty_db)
  /\ Forall token_sound (coursetoken (serve negative_session empty_db)).
Proof.
  assert (H : Forall token_sound (coursetoken empty_db)) by constructor.
  split; [exact H |].
  exact (token_records_stay_sound negative_session empty_db H).
Defined.

(** A trade never takes more from an order than the order has open. *)
Lemma match_trade_keeps_orders_open (req : TradeRequest) (db : DB) :
  Forall (fun o => 0 <= o_amount o) (order db) ->
  Forall (fun o => 0 <= o_amount o) (order (fst (match_trade req db))).
Proof.
  intros Hinv.
  destruct (match_trade_cases req db)
    as [(_ & H) | [(boid & _ & _ & H) | [(boid & soid & _ & _ & _ & H)
       | [(boid & soid & b & s & _ & _ & _ & _ & _ & H)
       | [(boid & soid & b & s & _ & _ & _ & _ & _ & _ & _ & H)
       | (boid & soid & b & s & Hb & Hs & Hfb & Hfs & Hsb & Hss & Hco & _)]]]]];
    try (rewrite H; exact Hinv).
  rewrite (match_trade_orders req db _ _ _ _ Hb Hs Hfb Hfs Hsb Hss Hco).
  assert (Hkb : o_id b = boid) by exact (find_one_by_key o_id _ _ _ Hfb).
  assert (Hks : o_id s = soid) by exact (find_one_by_key o_id _ _ _ Hfs).
  assert (Hne : soid <> boid).
  { intros ->. rewrite Hfb in Hfs. injection Hfs as ->. congruence. }
  assert (Hbpos : 0 <= o_amount b).
  { destruct (find_one_split _ _ _ Hfb) as (l1 & l2 & Heq & _).
    rewrite Heq in Hinv. apply Forall_app in Hinv. destruct Hinv as [_ Hinv].
    now inversion Hinv. }
  assert (Hspos : 0 <= o_amount s).
  { destruct (find_one_split _ _ _ Hfs) as (l1 & l2 & Heq & _).
    rewrite Heq in Hinv. apply Forall_app in Hinv. destruct Hinv as [_ Hinv].
    now inversion Hinv. }
  rewrite Hkb, Hks.
  apply update_one_Forall_found with (t := b).
  - change order_by_id with (by_key o_id).
    rewrite find_one_update_other_key by (auto || reflexivity). exact Hfb.
  - simpl. unfold fill. lia.
  - apply update_one_Forall_found with (t := s); [exact Hfs | | exact Hinv].
    simpl. unfold fill. lia.
Qed.

Lemma handle_keeps_orders_open (r : Request) (db : DB) :
  Forall (fun o => 0 <= o_amount o) (order db) ->
  Forall (fun o => 0 <= o_amount o) (order (fst (handle r db))).
Proof.
  intros Hinv. destruct r as [c | course_id req | o | req].
  - rewrite handle_fst_course. destruct (Course_valid c); assumption.
  - rewrite handle_fst_purchase, purchase_course_order. assumption.
  - rewrite handle_fst_order. destruct (Order_valid o) eqn:Hvalid; [| assumption].
    destruct (place_order_order o db) as [-> | ->]; [assumption |].
    apply Forall_app. split; [assumption |]. constructor; [| constructor].
    unfold Order_valid in Hvalid. apply andb_true_iff in Hvalid.
    destruct Hvalid as [_ Hpos]. apply Z.ltb_lt in Hpos. simpl. lia.
  - rewrite handle_fst_trade. now apply match_trade_keeps_orders_open.
Qed.

(** X6. Over-fill is impossible: along any session, from a store whose
    orders have non-negative open amounts, the open amount of every order
    stays non-negative, whatever is requested (a fill is at most what each
    of the two orders has open, and an order is placed with a positive
    amount). *)
Theorem order_amounts_stay_nonnegative (rs : list Request) (db : DB) :
  Forall (fun o => 0 <= o_amount o) (order db) ->
  Forall (fun o => 0 <= o_amount o) (order (serve rs db)).
Proof.
  apply (serve_invariant (fun db => Forall (fun o => 0 <= o_amount o) (order db))).
  intros r db0 Hinv. now apply handle_keeps_orders_open.
Qed.

Lemma order_amounts_stay_nonnegative_witness :
  Forall (fun o => 0 <= o_amount o) (order empty_db)
  /\ Forall (fun o => 0 <= o_amount o) (order (serve negative_session empty_db)).
Proof.
  assert (H : Forall (fun o => 0 <= o_amount o) (order empty_db)) by constructor.
  split; [exact H |].
  exact (order_amounts_stay_nonnegative negative_session empty_db H).
Defined.

(* ================================================================== *)
(** * Conservation of tokens *)

Lemma record_total_inc_both (delta : Z) (b : BalanceDoc) :
  record_total (balance_inc_both (- delta) delta b) = record_total b.
Proof. unfold record_total. simpl. rewrite !get_inc. lia. Qed.

Lemma record_total_inc_amount (delta : Z) (b : BalanceDoc) :
  record_total (balance_inc_amount delta b) = record_total b + delta.
Proof. unfold record_total. simpl. rewrite get_inc. lia. Qed.

Lemma record_total_inc_reserved (delta : Z) (b : BalanceDoc) :
  record_total (balance_inc_reserved delta b) = record_total b + delta.
Proof. unfold record_total. simpl. rewrite get_inc. lia. Qed.

(** X7. Placing an order creates and destroys no token: whatever the
    order and whatever the outcome, every balance record is still there,
    with its [_id], its owner and the same total of available plus
    reserved; a sell order only moves tokens of its author from available
    to reserved. *)
Theorem place_order_keeps_totals (o : Order) (db : DB) :
  map owner_total (balance (fst (place_order o db)))
  = map owner_total (balance db).
Proof.
  unfold place_order. unfold_M. simpl.
  destruct (ObjectId.of_str (or_course_id o)); simpl; [| reflexivity].
  destruct (find_one _ (course db)); simpl; [| reflexivity].
  destruct (or_side o); simpl; [reflexivity |].
  destruct (find_one _ (balance db)) as [bal |]; simpl; [| reflexivity].
  destruct (_ <? _); simpl; [reflexivity |].
  apply update_one_map. intros d. unfold owner_total.
  now rewrite record_total_inc_both.
Qed.

Lemma held_in_app (l1 l2 : list BalanceDoc) (course_id : string) :
  held_in (l1 ++ l2) course_id = held_in l1 course_id + held_in l2 course_id.
Proof.
  induction l1 as [| b r IH]; simpl; [lia |]. rewrite IH. lia.
Qed.

(** What an update through the [_id] of a found record does to the tokens
    held for a course. *)
Lemma held_in_update_found (c : list BalanceDoc) (q : BalanceDoc -> bool)
    (d : BalanceDoc) (u : BalanceDoc -> BalanceDoc) (course_id : string) :
  NoDup (map b_id c) -> find_one q c = Some d -> keeps_owner u ->
  held_in (update_one (balance_by_id (b_id d)) u c) course_id
  = held_in c course_id
    + (if String.eqb (b_course_id d) course_id
       then record_total (u d) - record_total d else 0).
Proof.
  intros Hnd Hfind Hu.
  destruct (find_one_split _ _ _ Hfind) as (l1 & l2 & -> & _ & _).
  change (balance_by_id (b_id d)) with (by_key b_id (b_id d)).
  rewrite update_one_by_key by assumption.
  rewrite !held_in_app. simpl.
  destruct (Hu d) as (_ & _ & ->).
  destruct (String.eqb (b_course_id d) course_id); lia.
Qed.

(** The balance writes of a trade come before the fee arithmetic: they are
    made whatever the outcome. *)
Lemma match_trade_balance (req : TradeRequest) (db : DB) (buy_oid sell_oid : ObjectId)
    (buy_doc sell_doc : OrderDoc) :
  ObjectId.of_str (buy_order_id req) = Some buy_oid ->
  ObjectId.of_str (sell_order_id req) = Some sell_oid ->
  find_one (order_by_id buy_oid) (order db) = Some buy_doc ->
  find_one (order_by_id sell_oid) (order db) = Some sell_doc ->
  o_side buy_doc = buy -> o_side sell_doc = sell ->
  o_course_id buy_doc = o_course_id sell_doc ->
  balance (fst (match_trade req db))
  = settle (next_oid db) buy_doc sell_doc (fill req buy_doc sell_doc) (balance db).
Proof.
  intros Hb Hs Hfb Hfs Hsb Hss Hco.
  unfold match_trade. unfold_M. simpl.
  rewrite Hb. simpl. rewrite Hfb, Hs. simpl. rewrite Hfs. simpl.
  rewrite Hsb, Hss. simpl. rewrite Hco, String.eqb_refl. simpl.
  fold (fill req buy_doc sell_doc).
  unfold settle. rewrite <- Hco.
  set (seller := balance_by_owner (o_user_id sell_doc) (o_course_id buy_doc)).
  set (buyer := balance_by_owner (o_user_id buy_doc) (o_course_id buy_doc)).
  destruct (find_one seller (balance db)) as [bs |] eqn:Hseller; simpl.
  - rewrite Hseller.
    destruct (find_one buyer _) as [bb |] eqn:Hbuyer; simpl;
      destruct (PyFloat.of_int _); reflexivity.
  - rewrite (find_one_None_app _ _ _ Hseller).
    unfold seller. rewrite balance_by_owner_refl by reflexivity. simpl.
    destruct (find_one buyer _) as [bb |] eqn:Hbuyer; simpl;
      destruct (PyFloat.of_int _); reflexivity.
Qed.

Lemma NoDup_snoc {A : Type} (l : list A) (k : A) :
  NoDup l -> ~ In k l -> NoDup (l ++ [k]).
Proof.
  intros Hl Hk. apply (NoDup_Add (Add_app k l [])). rewrite app_nil_r. auto.
Qed.

(** The settlement moves tokens between two records of one course. *)
Lemma settle_conserves (next : N) (buy_doc sell_doc : OrderDoc) (amount : Z)
    (c : list BalanceDoc) (course_id : string) :
  o_course_id buy_doc = o_course_id sell_doc ->
  NoDup (map b_id c) ->
  (find_one (balance_by_owner (o_user_id sell_doc) (o_course_id sell_doc)) c = None ->
   ~ In (ObjectId.generate next) (map b_id c)) ->
  held_in (settle next buy_doc sell_doc amount c) course_id = held_in c course_id.
Proof.
  intros Hco Hnd Hfresh. unfold settle.
  set (seller := balance_by_owner (o_user_id sell_doc) (o_course_id sell_doc)) in *.
  set (buyer := balance_by_owner (o_user_id buy_doc) (o_course_id buy_doc)).
  set (zs := {| b_id := ObjectId.generate next; b_user_id := o_user_id sell_doc;
                b_course_id := o_course_id sell_doc;
                b_amount := Some 0; b_reserved := Some 0 |}).
  assert (Hstep : forall (c1 : list BalanceDoc) (next1 : N) (bs : BalanceDoc),
             NoDup (map b_id c1) -> find_one seller c1 = Some bs ->
             held_in c1 course_id = held_in c course_id ->
             held_in
               (let c2 := update_one (balance_by_id (b_id bs))
                            (balance_inc_reserved (- amount)) c1 in
                match find_one buyer c2 with
                | Some bal_buyer =>
                    update_one (balance_by_id (b_id bal_buyer))
                      (balance_inc_amount amount) c2
                | None =>
                    c2 ++ [ {| b_id := ObjectId.generate next1;
                               b_user_id := o_user_id buy_doc;
                               b_course_id := o_course_id buy_doc;
                               b_amount := Some amount; b_reserved := None |} ]
                end) course_id
             = held_in c course_id).
  { intros c1 next1 bs Hnd1 Hs1 Hheld. cbv zeta.
    set (c2 := update_one (balance_by_id (b_id bs))
                 (balance_inc_reserved (- amount)) c1).
    assert (Hnd2 : NoDup (map b_id c2)).
    { apply keeps_owner_NoDup; [apply balance_inc_reserved_keeps | assumption]. }
    assert (Hbs : b_course_id bs = o_course_id sell_doc).
    { destruct (find_one_split _ _ _ Hs1) as (_ & _ & _ & Hq & _).
      now apply balance_by_owner_true in Hq. }
    assert (Hheld2 : held_in c2 course_id
                     = held_in c course_id
                       + (if String.eqb (o_course_id sell_doc) course_id
                          then - amount else 0)).
    { unfold c2.
      rewrite (held_in_update_found c1 seller bs _ course_id Hnd1 Hs1
                 (balance_inc_reserved_keeps _)).
      rewrite record_total_inc_reserved, Hbs, Hheld.
      destruct (String.eqb (o_course_id sell_doc) course_id); lia. }
    destruct (find_one buyer c2) as [bb |] eqn:Hbuyer.
    - assert (Hbb : b_course_id bb = o_course_id sell_doc).
      { destruct (find_one_split _ _ _ Hbuyer) as (_ & _ & _ & Hq & _).
        apply balance_by_owner_true in Hq. destruct Hq as [_ Hq]. congruence. }
      rewrite (held_in_update_found c2 buyer bb _ course_id Hnd2 Hbuyer
                 (balance_inc_amount_keeps _)).
      rewrite record_total_inc_amount, Hbb, Hheld2.
      destruct (String.eqb (o_course_id sell_doc) course_id); lia.
    - rewrite held_in_app, Hheld2. simpl. rewrite Hco. unfold record_total. simpl.
      destruct (String.eqb (o_course_id sell_doc) course_id); lia. }
  destruct (find_one seller c) as [bs |] eqn:Hseller.
  - rewrite Hseller. now apply Hstep.
  - assert (Hfind : find_one seller (c ++ [zs]) = Some zs).
    { rewrite (find_one_None_app _ _ _ Hseller).
      unfold seller. now rewrite balance_by_owner_refl. }
    rewrite Hfind. apply Hstep; [| exact Hfind |].
    + rewrite map_app. simpl. apply NoDup_snoc; auto.
    + rewrite held_in_app. simpl. unfold record_total. simpl.
      destruct (String.eqb (o_course_id sell_doc) course_id); lia.
Qed.

(** X8. A trade creates and destroys no token: for every request and
    every outcome (a rejection, a fill, also a negative one), the tokens of
    each course held by users, summed over the balance records of the
    course, are what they were; the settlement only moves the filled
    quantity from the seller's record to the buyer's.  (The balance records
    have distinct [_id]s, and the driver's next identifier is new.) *)
Theorem trade_conserves_tokens (req : TradeRequest) (db : DB) (course_id : string) :
  NoDup (map b_id (balance db)) ->
  ~ In (ObjectId.generate (next_oid db)) (map b_id (balance db)) ->
  held_in (balance (fst (match_trade req db))) course_id
  = held_in (balance db) course_id.
Proof.
  intros Hnd Hfresh.
  destruct (match_trade_cases req db)
    as [(_ & H) | [(boid & _ & _ & H) | [(boid & soid & _ & _ & _ & H)
       | [(boid & soid & b & s & _ & _ & _ & _ & _ & H)
       | [(boid & soid & b & s & _ & _ & _ & _ & _ & _ & _ & H)
       | (boid & soid & b & s & Hb & Hs & Hfb & Hfs & Hsb & Hss & Hco & _)]]]]];
    try (rewrite H; reflexivity).
  rewrite (match_trade_balance req db _ _ _ _ Hb Hs Hfb Hfs Hsb Hss Hco).
  apply settle_conserves; auto.
Qed.

Lemma trade_conserves_tokens_witness :
  held_in (balance market_db) demo_course_id = 10
  /\ held_in (balance (fst (match_trade (demo_trade (-3)) market_db)))
       demo_course_id = held_in (balance market_db) demo_course_id.
Proof.
  split; [reflexivity |].
  apply (trade_conserves_tokens (demo_trade (-3)) market_db demo_course_id).
  - simpl. repeat constructor. intros [].
  - simpl. intros [H | []]. revert H. vm_compute. discriminate.
Defined.

(** X9. A purchase draws on the treasury and on nothing else: when it
    returns, the tokens of the course held by users have grown by exactly
    [tokens_awarded], the treasury balance of the course's token record has
    shrunk by the same amount, so that held plus treasury is what it was,
    and the tokens held for any other course are untouched.  (The balance
    records have distinct [_id]s.) *)
Theorem purchase_draws_on_treasury (course_id : string) (req : PurchaseRequest)
    (db db' : DB) (res : PurchaseResponse) :
  purchase_course course_id req db = (db', Returned res) ->
  NoDup (map b_id (balance db)) ->
  held_in (balance db') course_id
  = held_in (balance db) course_id + tokens_awarded res
  /\ (forall other, other <> course_id ->
        held_in (balance db') other = held_in (balance db) other)
  /\ exists token token',
       find_one (token_by_course course_id) (coursetoken db) = Some token
       /\ find_one (token_by_course course_id) (coursetoken db') = Some token'
       /\ get (t_treasury_token_balance token') 0
          = get (t_treasury_token_balance token) 0 - tokens_awarded res
       /\ held_in (balance db') course_id
          + get (t_treasury_token_balance token') 0
          = held_in (balance db) course_id
            + get (t_treasury_token_balance token) 0.
Proof.
  intros Hrun Hnd.
  destruct (purchase_course_returned _ _ _ _ _ Hrun)
    as (oid & cd & tk & f & w & Hoid & Hc & Ht & Hf & Hw).
  destruct (purchase_course_returns course_id req db oid cd tk f w
              Hoid Hc Ht Hf Hw) as (db2 & Hrun2 & Htok & Hbal & _).
  rewrite Hrun in Hrun2. injection Hrun2 as Hdb Hres. subst db2 res.
  simpl tokens_awarded.
  set (a := allocation tk w) in *.
  assert (Hheld : forall c,
             held_in (balance db') c
             = held_in (balance db) c
               + (if String.eqb course_id c then a else 0)).
  { intros c. rewrite Hbal.
    destruct (find_one (balance_by_owner (pr_user_id req) course_id) (balance db))
      as [bal |] eqn:Hfind.
    - rewrite (held_in_update_found _ _ bal _ c Hnd Hfind
                 (balance_inc_amount_keeps _)).
      rewrite record_total_inc_amount.
      destruct (find_one_split _ _ _ Hfind) as (_ & _ & _ & Hq & _).
      apply balance_by_owner_true in Hq. destruct Hq as [_ ->].
      destruct (String.eqb course_id c); lia.
    - rewrite held_in_app. simpl. unfold record_total. simpl.
      destruct (String.eqb course_id c); lia. }
  assert (Hself : held_in (balance db') course_id
                  = held_in (balance db) course_id + a).
  { rewrite Hheld, String.eqb_refl. reflexivity. }
  split; [exact Hself |]. split.
  - intros other Hother. rewrite Hheld.
    assert (String.eqb course_id other = false) as -> by
      (apply String.eqb_neq; congruence).
    lia.
  - exists tk, (token_inc a (- a) (get (c_price_usd cd) PyFloat.zero) tk).
    split; [exact Ht |]. split.
    + rewrite Htok, find_one_update_one, Ht by (intros d Hd; exact Hd).
      reflexivity.
    + simpl t_treasury_token_balance. rewrite get_inc. split; lia.
Qed.

Lemma purchase_draws_on_treasury_witness :
  exists db' res,
    purchase_course demo_course_id demo_request demo_db = (db', Returned res)
    /\ held_in (balance db') demo_course_id
       = held_in (balance demo_db) demo_course_id + tokens_awarded res.
Proof.
  exists (fst (purchase_course demo_course_id demo_request demo_db)),
         {| purchase_id := "000000000000000000000002"; tokens_awarded := 10;
            paid_price_usd := PyFloat.round_int 50 |}.
  assert (Hrun : purchase_course demo_course_id demo_request demo_db
                 = (fst (purchase_course demo_course_id demo_request demo_db),
                    Returned {| purchase_id := "000000000000000000000002";
                                tokens_awarded := 10;
                                paid_price_usd := PyFloat.round_int 50 |})).
  { vm_compute. reflexivity. }
  split; [exact Hrun |].
  exact (proj1 (purchase_draws_on_treasury _ _ _ _ _ Hrun (NoDup_nil _))).
Defined.

(* ================================================================== *)
(** * The purchase log *)

Lemma purchase_course_log (course_id : string) (req : PurchaseRequest) (db : DB) :
  purchase (fst (purchase_course course_id req db)) = purchase db
  \/ exists price,
       purchase (fst (purchase_course course_id req db))
       = purchase db
         ++ [purchase_doc (ObjectId.generate (next_oid db)) (pr_user_id req)
               course_id price].
Proof.
  unfold purchase_course, purchase_doc. run; auto; right; eauto.
Qed.

Lemma place_order_purchase (o : Order) (db : DB) :
  purchase (fst (place_order o db)) = purchase db.
Proof. unfold place_order. run; reflexivity. Qed.

Lemma match_trade_purchase (req : TradeRequest) (db : DB) :
  purchase (fst (match_trade req db)) = purchase db.
Proof. unfold match_trade. run; reflexivity. Qed.

(** X10. The purchase collection is an append-only log: along any
    session, the purchase records that were there are still there,
    unchanged and in the same order, and every record that was added has
    the status "paid" (no handler refunds, rewrites or deletes a
    purchase). *)
Theorem purchase_log_append_only (rs : list Request) (db : DB) :
  exists added,
    purchase (serve rs db) = purchase db ++ added
    /\ Forall (fun p => pu_status (p_model p) = paid) added.
Proof.
  revert db. induction rs as [| r rs IH]; intros db; simpl.
  - exists []. rewrite app_nil_r. auto.
  - destruct (IH (fst (handle r db))) as (added2 & Heq2 & Hpaid2).
    assert (Hstep : exists added1,
               purchase (fst (handle r db)) = purchase db ++ added1
               /\ Forall (fun p => pu_status (p_model p) = paid) added1).
    { destruct r as [c | course_id req | o | req].
      - rewrite handle_fst_course. exists [].
        destruct (Course_valid c); rewrite app_nil_r; auto.
      - rewrite handle_fst_purchase.
        destruct (purchase_course_log course_id req db) as [-> | (price & ->)].
        + exists []. rewrite app_nil_r. auto.
        + eexists. split; [reflexivity |]. repeat constructor.
      - rewrite handle_fst_order. exists [].
        destruct (Order_valid o); rewrite ?place_order_purchase, app_nil_r; auto.
      - rewrite handle_fst_trade, match_trade_purchase. exists [].
        rewrite app_nil_r. auto. }
    destruct Hstep as (added1 & Heq1 & Hpaid1).
    exists (added1 ++ added2). split.
    + rewrite Heq2, Heq1, app_assoc. reflexivity.
    + apply Forall_app. auto.
Qed.

(** X11. A purchase that returns has logged exactly one purchase record:
    the buyer, the course identifier as given, the course's price and the
    status "paid", under the identifier it returns as [purchase_id]; and
    the price it returns is the course's [price_usd].  The record is
    written before the award is computed, so it is there also when the
    treasury is exhausted and nothing is awarded. *)
Theorem purchase_is_logged (course_id : string) (req : PurchaseRequest)
    (db db' : DB) (res : PurchaseResponse) :
  purchase_course course_id req db = (db', Returned res) ->
  purchase db'
  = purchase db
    ++ [purchase_doc (ObjectId.generate (next_oid db)) (pr_user_id req) course_id
          (paid_price_usd res)]
  /\ purchase_id res = ObjectId.to_str (ObjectId.generate (next_oid db))
  /\ exists oid course_doc,
       ObjectId.of_str course_id = Some oid
       /\ find_one (course_by_id oid) (course db) = Some course_doc
       /\ paid_price_usd res = get (c_price_usd course_doc) PyFloat.zero.
Proof.
  intros Hrun.
  destruct (purchase_course_returned _ _ _ _ _ Hrun)
    as (oid & cd & tk & f & w & Hoid & Hc & Ht & Hf & Hw).
  revert Hrun. unfold purchase_course. unfold_M. simpl.
  rewrite Hoid. simpl. rewrite Hc, Ht. simpl. rewrite Hf. simpl.
  rewrite Hw. simpl.
  destruct (find_one (balance_by_owner (pr_user_id req) course_id) (balance db));
    simpl; intros [= <- <-]; simpl; repeat split; eauto.
Qed.

Lemma purchase_is_logged_witness :
  exists db' res,
    purchase_course demo_course_id demo_request demo_db = (db', Returned res)
    /\ purchase db'
       = purchase demo_db
         ++ [purchase_doc (ObjectId.generate (next_oid demo_db)) "U1"
               demo_course_id (paid_price_usd res)].
Proof.
  exists (fst (purchase_course demo_course_id demo_request demo_db)),
         {| purchase_id := "000000000000000000000002"; tokens_awarded := 10;
            paid_price_usd := PyFloat.round_int 50 |}.
  assert (Hrun : purchase_course demo_course_id demo_request demo_db
                 = (fst (purchase_course demo_course_id demo_request demo_db),
                    Returned {| purchase_id := "000000000000000000000002";
                                tokens_awarded := 10;
                                paid_price_usd := PyFloat.round_int 50 |})).
  { vm_compute. reflexivity. }
  split; [exact Hrun |].
  exact (proj1 (purchase_is_logged _ _ _ _ _ Hrun)).
Defined.

(* ================================================================== *)
(** * Identifiers *)

Lemma hex_digit_value (n : N) :
  (n < 16)%N ->
  ObjectId.hex_value (ObjectId.hex_digit n) = Some n
  /\ ObjectId.is_space (ObjectId.hex_digit n) = false.
Proof.
  intros Hn. destruct n as [| p]; [split; reflexivity |].
  do 5 (try (destruct p as [p | p |]; try lia; try (split; reflexivity))).
Qed.

Lemma fromhex_hex_byte (b : byte) (rest : string) :
  ObjectId.fromhex
    (String (ObjectId.hex_digit (Byte.to_N b / 16))
       (String (ObjectId.hex_digit (Byte.to_N b mod 16)) rest))
  = match ObjectId.fromhex rest with
    | Some bs => Some (b :: bs)
    | None => None
    end.
Proof.
  pose proof (Byte.to_N_bounded b) as Hb.
  assert (Hhi : (Byte.to_N b / 16 < 16)%N).
  { apply N.Div0.div_lt_upper_bound. lia. }
  assert (Hlo : (Byte.to_N b mod 16 < 16)%N) by (apply N.mod_lt; lia).
  destruct (hex_digit_value _ Hhi) as [Hv1 Hs1].
  destruct (hex_digit_value _ Hlo) as [Hv2 _].
  cbn [ObjectId.fromhex]. rewrite Hs1, Hv1, Hv2.
  assert (Hbyte : ObjectId.byte_of_N (16 * (Byte.to_N b / 16) + Byte.to_N b mod 16)
                  = b).
  { rewrite <- N.div_mod by lia. unfold ObjectId.byte_of_N.
    now rewrite Byte.of_to_N. }
  now rewrite Hbyte.
Qed.

Lemma fromhex_to_str (o : ObjectId) : ObjectId.fromhex (ObjectId.to_str o) = Some o.
Proof.
  induction o as [| b r IH]; [reflexivity |].
  change (ObjectId.to_str (b :: r))
    with (String (ObjectId.hex_digit (Byte.to_N b / 16))
            (String (ObjectId.hex_digit (Byte.to_N b mod 16)) (ObjectId.to_str r))).
  now rewrite fromhex_hex_byte, IH.
Qed.

Lemma length_to_str (o : ObjectId) :
  String.length (ObjectId.to_str o) = (2 * List.length o)%nat.
Proof.
  induction o as [| b r IH]; [reflexivity |].
  change (ObjectId.to_str (b :: r))
    with (String (ObjectId.hex_digit (Byte.to_N b / 16))
            (String (ObjectId.hex_digit (Byte.to_N b mod 16)) (ObjectId.to_str r))).
  simpl String.length. rewrite IH. simpl. lia.
Qed.

Lemma length_be_bytes (len : nat) (n : N) :
  List.length (ObjectId.be_bytes len n) = len.
Proof.
  revert n. induction len as [| k IH]; intros n; simpl; [reflexivity |].
  rewrite length_app, IH. simpl. lia.
Qed.

Lemma of_str_to_str (o : ObjectId) :
  List.length o = 12%nat -> ObjectId.of_str (ObjectId.to_str o) = Some o.
Proof.
  intros Hlen. unfold ObjectId.of_str.
  rewrite length_to_str, Hlen. simpl. apply fromhex_to_str.
Qed.

Lemma of_str_generate (k : N) :
  ObjectId.of_str (ObjectId.to_str (ObjectId.generate k)) = Some (ObjectId.generate k).
Proof. apply of_str_to_str. apply length_be_bytes. Qed.

(** X12. Identifiers survive the round trip through the API: the string
    of any twelve-byte identifier, in particular of every identifier a
    handler returns, is accepted by [to_obj] and parsed back to the same
    identifier; a string that is not 24 characters long is rejected with
    400 "Invalid id"; and [to_obj] never writes to the store. *)
Theorem to_obj_round_trip (db : DB) :
  (forall o, List.length o = 12%nat ->
             to_obj (ObjectId.to_str o) db = (db, Returned o))
  /\ (forall k, to_obj (ObjectId.to_str (ObjectId.generate k)) db
                = (db, Returned (ObjectId.generate k)))
  /\ (forall s, String.length s <> 24%nat ->
                to_obj s db = (db, HTTPException 400 "Invalid id"))
  /\ (forall s, fst (to_obj s db) = db).
Proof.
  repeat split.
  - intros o Hlen. unfold to_obj. now rewrite of_str_to_str.
  - intros k. unfold to_obj. now rewrite of_str_generate.
  - intros s Hlen. unfold to_obj, ObjectId.of_str.
    apply Nat.eqb_neq in Hlen. now rewrite Hlen.
  - intros s. unfold to_obj. destruct (ObjectId.of_str s); reflexivity.
Qed.

(* ================================================================== *)
(** * A course and its first purchase *)

(** X13. [create_course] and [purchase_course] compose: the identifier
    [create_course] returns for a valid course is accepted by
    [purchase_course], which finds the course and its token record,
    returns, awards [min(max(1, floor(token_supply * 0.01)), token_supply)]
    tokens (at least one), charges the course's price, and leaves the token
    record with the award in circulation, the rest of the supply in the
    treasury, the total supply as declared and the price as revenue.  (The
    supply is a 64-bit integer, and the driver's next identifier is not yet
    that of a course nor the course of a token record.) *)
Theorem first_purchase_of_new_course (c : Course) (req : PurchaseRequest) (db : DB) :
  Course_valid c = true ->
  int64 (token_supply c) ->
  find_one (course_by_id (ObjectId.generate (next_oid db))) (course db) = None ->
  find_one (token_by_course (ObjectId.to_str (ObjectId.generate (next_oid db))))
    (coursetoken db) = None ->
  let course_id := ObjectId.to_str (ObjectId.generate (next_oid db)) in
  snd (create_course c db) = Returned course_id
  /\ exists requested db2 res token,
       requested_reward (token_supply c) = Some requested
       /\ purchase_course course_id req (fst (create_course c db))
          = (db2, Returned res)
       /\ tokens_awarded res = Z.min requested (token_supply c)
       /\ 1 <= tokens_awarded res
       /\ paid_price_usd res = price_usd c
       /\ find_one (token_by_course course_id) (coursetoken db2) = Some token
       /\ t_circulating_supply token = Some (tokens_awarded res)
       /\ t_treasury_token_balance token
          = Some (token_supply c - tokens_awarded res)
       /\ t_total_supply token = Some (token_supply c)
       /\ t_treasury_revenue_usd token
          = Some (PyFloat.add PyFloat.zero (price_usd c)).
Proof.
  intros Hvalid H64 Hfresh_course Hfresh_token course_id.
  split; [reflexivity |].
  destruct (create_course_returns c db) as (_ & Hcourse & Htoken & _).
  cbv zeta in Hcourse, Htoken. fold course_id in Htoken.
  set (db1 := fst (create_course c db)) in *.
  set (oid := ObjectId.generate (next_oid db)) in *.
  set (cd := {| c_id := oid; c_price_usd := Some (price_usd c); c_model := c |}) in *.
  set (tk := initial_token (ObjectId.generate (N.succ (next_oid db))) course_id c)
    in *.
  assert (Hsupply : 0 < token_supply c).
  { unfold Course_valid in Hvalid. rewrite !andb_true_iff in Hvalid.
    destruct Hvalid as (_ & H). now apply Z.ltb_lt in H. }
  assert (Hfc : find_one (course_by_id oid) (course db1) = Some cd).
  { rewrite Hcourse, (find_one_None_app _ _ _ Hfresh_course).
    unfold course_by_id. simpl c_id. now rewrite ObjectId_eqb_refl. }
  assert (Hft : find_one (token_by_course course_id) (coursetoken db1) = Some tk).
  { rewrite Htoken, (find_one_None_app _ _ _ Hfresh_token).
    unfold token_by_course. simpl t_course_id. now rewrite String.eqb_refl. }
  assert (Hoid : ObjectId.of_str course_id = Some oid) by apply of_str_generate.
  pose proof (of_int_int64 _ H64) as Hf.
  destruct (one_percent_int64 _ H64) as (whole & Hwhole).
  destruct (max_one_to_int_floor _ _ Hwhole) as (fl & Hfl & Hmax).
  destruct (purchase_course_returns course_id req db1 oid cd tk _ whole
              Hoid Hfc Hft Hf Hwhole) as (db2 & Hrun & Htok2 & _).
  assert (Halloc : allocation tk whole = Z.min (Z.max 1 fl) (token_supply c)).
  { unfold allocation. simpl t_treasury_token_balance. simpl get. rewrite Hmax.
    destruct (Z.ltb_spec (token_supply c) (Z.max 1 fl)); lia. }
  eexists (Z.max 1 fl), db2, _,
    (token_inc (allocation tk whole) (- allocation tk whole)
       (get (c_price_usd cd) PyFloat.zero) tk).
  split.
  { unfold requested_reward. now rewrite Hf, Hfl. }
  split; [exact Hrun |]. simpl tokens_awarded. simpl paid_price_usd.
  rewrite Halloc.
  split; [reflexivity |]. split; [lia |]. split; [reflexivity |].
  split.
  { rewrite Htok2, find_one_update_one, Hft by (intros d Hd; exact Hd).
    simpl. now rewrite Halloc. }
  simpl. repeat split; f_equal; lia.
Qed.

Lemma first_purchase_of_new_course_witness :
  exists requested db2 res,
    requested_reward 1000 = Some requested
    /\ purchase_course demo_course_id demo_request
         (fst (create_course demo_course empty_db)) = (db2, Returned res)
    /\ tokens_awarded res = Z.min requested 1000.
Proof.
  assert (H64 : int64 (token_supply demo_course)).
  { unfold int64. simpl. lia. }
  destruct (first_purchase_of_new_course demo_course demo_request empty_db
              eq_refl H64 eq_refl eq_refl)
    as (_ & requested & db2 & res & token & Hreq & Hrun & Haward & _).
  exists requested, db2, res. auto.
Defined.

(* ================================================================== *)
(** * One percent, exactly *)

Lemma digits2_pos_ge (p : positive) : 2 ^ (Zpos (digits2_pos p) - 1) <= Zpos p.
Proof.
  induction p as [p IH | p IH | ]; simpl digits2_pos; [| | simpl; lia].
  - rewrite Pos2Z.inj_succ.
    replace (Z.succ (Zpos (digits2_pos p)) - 1)
      with (Z.succ (Zpos (digits2_pos p) - 1)) by lia.
    rewrite Z.pow_succ_r by lia. lia.
  - rewrite Pos2Z.inj_succ.
    replace (Z.succ (Zpos (digits2_pos p)) - 1)
      with (Z.succ (Zpos (digits2_pos p) - 1)) by lia.
    rewrite Z.pow_succ_r by lia. lia.
Qed.

Lemma iter_xO_value (d m : positive) :
  Zpos (Pos.iter xO m d) = Zpos m * 2 ^ Zpos d.
Proof.
  induction d as [| d IH] using Pos.peano_ind.
  - simpl. lia.
  - rewrite Pos.iter_succ, Pos2Z.inj_xO, IH, Pos2Z.inj_succ, Z.pow_succ_r by lia.
    lia.
Qed.

Lemma iter_pos_indexed {A : Type} (f : A -> A) (Inv : Z -> A -> Prop) :
  (forall i x, 0 <= i -> Inv i x -> Inv (i + 1) (f x)) ->
  forall p i x, 0 <= i -> Inv i x -> Inv (i + Zpos p) (iter_pos f p x).
Proof.
  intros Hf. induction p as [p IH | p IH | ]; intros i x Hi Hx; simpl.
  - replace (i + Zpos p~1) with (i + 1 + Zpos p + Zpos p) by lia.
    apply IH; [lia |]. apply IH; [lia |]. now apply Hf.
  - replace (i + Zpos p~0) with (i + Zpos p + Zpos p) by lia.
    apply IH; [lia |]. now apply IH.
  - now apply Hf.
Qed.

Lemma shr_1_value (mrs : shr_record) :
  0 <= shr_m mrs ->
  shr_m (shr_1 mrs) = shr_m mrs / 2 /\ shr_r (shr_1 mrs) = Z.odd (shr_m mrs).
Proof.
  destruct mrs as [m r s]. simpl shr_m at 1 3 4.
  destruct m as [| [p | p |] | p]; intros Hm; try lia; simpl shr_1; simpl shr_m;
    simpl shr_r.
  - split; reflexivity.
  - split; [| reflexivity]. apply Z.div_unique with (r := 1); lia.
  - split; [| reflexivity]. apply Z.div_unique with (r := 0); lia.
  - split; reflexivity.
Qed.

Lemma shr_1_shifted (P : Z) (i : Z) (mrs : shr_record) :
  0 <= P -> 0 <= i -> shifted P i mrs -> shifted P (i + 1) (shr_1 mrs).
Proof.
  intros HP Hi [Hm Hr].
  assert (Hpow : 0 < 2 ^ i) by (apply Z.pow_pos_nonneg; lia).
  assert (Hm0 : 0 <= shr_m mrs) by (rewrite Hm; apply Z.div_pos; lia).
  destruct (shr_1_value mrs Hm0) as [Hm' Hr'].
  assert (Hpow' : 2 ^ (i + 1) = 2 * 2 ^ i) by (rewrite Z.pow_add_r by lia; lia).
  pose proof (Z.div_mod P (2 ^ i) ltac:(lia)) as HP1.
  pose proof (Z.mod_pos_bound P (2 ^ i) Hpow) as HP2.
  pose proof (Z.div_mod (P / 2 ^ i) 2 ltac:(lia)) as HM1.
  pose proof (Z.mod_pos_bound (P / 2 ^ i) 2 ltac:(lia)) as HM2.
  assert (Hdiv : P / 2 ^ (i + 1) = P / 2 ^ i / 2).
  { rewrite Hpow', Z.mul_comm, <- Z.div_div by lia. reflexivity. }
  assert (Hmod : P mod 2 ^ (i + 1) = 2 ^ i * ((P / 2 ^ i) mod 2) + P mod 2 ^ i).
  { symmetry. apply Z.mod_unique with (q := P / 2 ^ i / 2); [nia | nia]. }
  split.
  - rewrite Hm', Hm, Hdiv. reflexivity.
  - rewrite Hr', Hm. intros Hodd.
    rewrite Zodd_mod in Hodd. apply Z.eqb_eq in Hodd.
    rewrite Hmod, Hpow', Hodd. lia.
Qed.

(** Shifting [P] right by [p] bits and rounding to nearest. *)
Lemma round_shift_value (P : Z) (p : positive) :
  0 <= P ->
  let mrs := iter_pos shr_1 p (shr_record_of_loc P loc_Exact) in
  let m1 := round_nearest_even (shr_m mrs) (loc_of_shr_record mrs) in
  P / 2 ^ Zpos p <= m1 /\ 2 * m1 * 2 ^ Zpos p <= 2 * P + 2 ^ Zpos p.
Proof.
  intros HP mrs m1.
  assert (Hinv : shifted P (0 + Zpos p) mrs).
  { apply (iter_pos_indexed shr_1 (shifted P)); [| lia |].
    - intros i x Hi Hx. now apply shr_1_shifted.
    - split; simpl; [now rewrite Z.div_1_r | discriminate]. }
  rewrite Z.add_0_l in Hinv. destruct Hinv as [Hm Hr].
  assert (Hpow : 0 < 2 ^ Zpos p) by (apply Z.pow_pos_nonneg; lia).
  pose proof (Z.div_mod P (2 ^ Zpos p) ltac:(lia)) as HP1.
  pose proof (Z.mod_pos_bound P (2 ^ Zpos p) Hpow) as HP2.
  subst m1. rewrite <- Hm.
  destruct mrs as [m r s]. cbn [shr_m shr_r] in *. subst m.
  unfold round_nearest_even, loc_of_shr_record.
  destruct r, s; cbv beta iota; try destruct (Z.even _);
    try specialize (Hr eq_refl); nia.
Qed.

Lemma shr_fexp_quotient (prec emax m e : Z) (mrs : shr_record) (e' : Z) :
  0 <= m ->
  shr_fexp prec emax m e loc_Exact = (mrs, e') ->
  e <= e' /\ shr_m mrs = m / 2 ^ (e' - e)
  /\ (e' = e \/ e' = fexp prec emax (Zdigits2 m + e)).
Proof.
  intros Hm. unfold shr_fexp, shr.
  destruct (fexp prec emax (Zdigits2 m + e) - e) as [| p | p] eqn:Hk;
    intros [= <- <-].
  - rewrite Z.sub_diag. simpl. rewrite Z.div_1_r. auto with zarith.
  - assert (Hinv : shifted m (0 + Zpos p)
                     (iter_pos shr_1 p (shr_record_of_loc m loc_Exact))).
    { apply (iter_pos_indexed shr_1 (shifted m)); [| lia |].
      - intros i x Hi Hx. now apply shr_1_shifted.
      - split; simpl; [now rewrite Z.div_1_r | discriminate]. }
    rewrite Z.add_0_l in Hinv. destruct Hinv as [Hq _].
    replace (e + Zpos p - e) with (Zpos p) by lia.
    split; [lia |]. split; [exact Hq |]. right. lia.
  - rewrite Z.sub_diag. simpl. rewrite Z.div_1_r. auto with zarith.
Qed.

(** A mantissa of exactly 53 bits at an exponent in range is a float as
    it stands. *)
Lemma binary_round_aux_exact (s : bool) (mz : positive) (ez : Z) :
  Zpos (digits2_pos mz) = 53 -> -1074 <= ez <= 971 ->
  binary_round_aux 53 1024 s (Zpos mz) ez loc_Exact = S754_finite s mz ez.
Proof.
  intros Hd He.
  assert (Hk : fexp 53 1024 (Zdigits2 (Zpos mz) + ez) - ez = 0).
  { unfold fexp, emin. simpl Zdigits2. rewrite Hd. lia. }
  unfold binary_round_aux, shr_fexp. rewrite Hk. cbn [shr shr_record_of_loc].
  cbn [shr_m loc_of_shr_record round_nearest_even]. rewrite Hk. cbn [shr shr_m].
  assert (Hle : (ez <=? 1024 - 53) = true) by (apply Z.leb_le; lia).
  now rewrite Hle.
Qed.

(** A positive integer below [2 ^ 53] converts to a float without
    rounding: a 53-bit mantissa [n * 2 ^ t] at the exponent [- t]. *)
Lemma round_int_exact (pn : positive) :
  Zpos pn < 2 ^ 53 ->
  exists m t,
    PyFloat.round_int (Zpos pn) = S754_finite false m (- t)
    /\ 0 <= t <= 52 /\ Zpos m = Zpos pn * 2 ^ t
    /\ Zpos (digits2_pos m) = 53.
Proof.
  intros Hn.
  pose proof (digits2_pos_le pn 53 ltac:(lia) Hn) as Hd.
  unfold PyFloat.round_int, binary_normalize, binary_round, shl_align,
    PyFloat.prec, PyFloat.emax.
  assert (Hf : fexp 53 1024 (Zpos (digits2_pos pn) + 0) - 0
               = Zpos (digits2_pos pn) - 53).
  { unfold fexp, emin. lia. }
  rewrite Hf.
  destruct (Zpos (digits2_pos pn) - 53) as [| d | d] eqn:Hsh; [| lia |].
  - exists pn, 0. rewrite binary_round_aux_exact by lia.
    repeat split; lia.
  - assert (Hval : fexp 53 1024 (Zpos (digits2_pos pn) + 0) = Zneg d).
    { unfold fexp, emin. lia. }
    rewrite Hval.
    pose proof (digits2_pos_iter_xO d pn) as Hdig.
    rewrite binary_round_aux_exact by lia.
    exists (Pos.iter xO pn d), (Zpos d).
    repeat split; try lia. apply iter_xO_value.
Qed.

(** The arithmetic of the rounding: [A], [B] and [C] are the three powers
    of two involved. *)
Lemma one_percent_arith (n m1 A B C : Z) :
  0 <= n -> 0 < A -> 0 < B -> 0 < C ->
  A * B = 2 ^ 59 * C -> n * C < 2 ^ 53 -> B <= 2 ^ 53 ->
  (n * C * 5764607523034235) / B <= m1 ->
  2 * m1 * B <= 2 * (n * C * 5764607523034235) + B ->
  m1 / A = n / 100.
Proof.
  intros Hn HA HB HC HAB Hm HBmax Hlow Hup.
  change (2 ^ 59) with 576460752303423488 in HAB.
  change (2 ^ 53) with 9007199254740992 in Hm, HBmax.
  pose proof (Z.div_mod n 100 ltac:(lia)) as Hq.
  pose proof (Z.mod_pos_bound n 100 ltac:(lia)) as Hr.
  set (q := n / 100) in *. set (r := n mod 100) in *.
  assert (Hq0 : 0 <= q) by (apply Z.div_pos; lia).
  set (P := n * C * 5764607523034235) in *.
  assert (HqC : 0 <= q * C) by nia.
  assert (HnC : 0 <= n * C) by nia.
  assert (H1 : B * (q * A) <= P).
  { replace (B * (q * A)) with (q * (A * B)) by ring. rewrite HAB.
    unfold P. rewrite Hq.
    replace ((100 * q + r) * C * 5764607523034235)
      with (q * C * 576460752303423500 + r * C * 5764607523034235) by ring.
    assert (0 <= r * C) by nia. nia. }
  assert (H2 : q * A <= m1).
  { apply Z.le_trans with (m := P / B); [| exact Hlow].
    apply Z.div_le_lower_bound; lia. }
  assert (H3 : 2 * P + B < 2 * ((q + 1) * (A * B))).
  { rewrite HAB. unfold P.
    assert (Hn1 : n + 1 <= 100 * (q + 1)) by lia.
    assert (H100 : 100 * (n * C * 5764607523034235)
                   = 576460752303423488 * (n * C) + 12 * (n * C)) by ring.
    assert (Hmul : 576460752303423488 * ((n + 1) * C)
                   <= 576460752303423488 * (100 * (q + 1) * C)) by nia.
    nia. }
  assert (H4 : m1 < (q + 1) * A).
  { assert (2 * m1 * B < 2 * ((q + 1) * A) * B) by (ring_simplify; nia).
    nia. }
  symmetry. apply Z.div_unique with (r := m1 - A * q); lia.
Qed.

Lemma one_percent_positive (pn : positive) :
  Zpos pn < 2 ^ 53 ->
  PyFloat.to_int (PyFloat.mul (PyFloat.round_int (Zpos pn)) PyFloat.c_0_01)
  = Some (Zpos pn / 100).
Proof.
  intros Hn.
  destruct (round_int_exact pn Hn) as (m & t & Hr & Ht & Hm & Hdm).
  rewrite Hr. unfold PyFloat.mul, PyFloat.c_0_01, SFmul, PyFloat.prec, PyFloat.emax.
  cbn [xorb].
  set (mc := 5764607523034235%positive).
  set (P := Zpos (m * mc)). set (e0 := - t + -59).
  assert (HP : P = Zpos pn * 2 ^ t * 5764607523034235).
  { unfold P. rewrite Pos2Z.inj_mul, Hm. reflexivity. }
  (* the size of the product *)
  pose proof (digits2_pos_lt_pow m) as Hm_hi. rewrite Hdm in Hm_hi.
  pose proof (digits2_pos_ge m) as Hm_lo. rewrite Hdm in Hm_lo.
  change (2 ^ (53 - 1)) with 4503599627370496 in Hm_lo.
  change (2 ^ 53) with 9007199254740992 in Hm_hi.
  set (dP := Zpos (digits2_pos (m * mc))).
  assert (HdP_hi : dP <= 106).
  { apply digits2_pos_le; [lia |]. fold P.
    change (2 ^ 106) with (9007199254740992 * 9007199254740992).
    unfold P. rewrite Pos2Z.inj_mul. unfold mc. nia. }
  assert (HdP_lo : 105 <= dP).
  { pose proof (digits2_pos_lt_pow (m * mc)) as H. fold dP P in H.
    assert (HPlo : 2 ^ 104 <= P).
    { change (2 ^ 104) with (4503599627370496 * 4503599627370496).
      unfold P. rewrite Pos2Z.inj_mul. unfold mc. nia. }
    destruct (Z.le_gt_cases dP 104) as [Hle | Hgt]; [| lia].
    apply (Z.pow_le_mono_r 2) in Hle; lia. }
  pose proof (digits2_pos_lt_pow (m * mc)) as HP_hi. fold dP P in HP_hi.
  pose proof (digits2_pos_ge (m * mc)) as HP_lo. fold dP P in HP_lo.
  (* the first shift *)
  assert (Hk : fexp 53 1024 (Zdigits2 P + e0) - e0 = dP - 53).
  { unfold fexp, emin, e0, P. simpl Zdigits2. fold dP. lia. }
  destruct (dP - 53) as [| kp | kp] eqn:Hkp; try lia.
  unfold binary_round_aux. unfold shr_fexp at 1. rewrite Hk. cbn [shr].
  set (mrs1 := iter_pos shr_1 kp (shr_record_of_loc P loc_Exact)).
  set (m1 := round_nearest_even (shr_m mrs1) (loc_of_shr_record mrs1)).
  destruct (round_shift_value P kp ltac:(unfold P; lia)) as [Hlow Hup].
  fold mrs1 m1 in Hlow, Hup.
  set (B := 2 ^ Zpos kp) in *.
  assert (HB : 0 < B) by (apply Z.pow_pos_nonneg; lia).
  assert (HdPk : dP = Zpos kp + 53) by lia.
  assert (HP_hi' : P < B * 2 ^ 53).
  { rewrite HdPk, Z.pow_add_r in HP_hi by lia. exact HP_hi. }
  assert (HP_lo' : B * 2 ^ 52 <= P).
  { replace (dP - 1) with (Zpos kp + 52) in HP_lo by lia.
    rewrite Z.pow_add_r in HP_lo by lia. exact HP_lo. }
  change (2 ^ 53) with 9007199254740992 in HP_hi'.
  change (2 ^ 52) with 4503599627370496 in HP_lo'.
  assert (Hm1_lo : 4503599627370496 <= m1).
  { apply Z.le_trans with (m := P / B); [| exact Hlow].
    apply Z.div_le_lower_bound; lia. }
  assert (Hm1_hi : m1 <= 9007199254740992) by nia.
  (* the second shift *)
  set (e1 := e0 + Zpos kp).
  destruct (shr_fexp 53 1024 m1 e1 loc_Exact) as [mrs2 e2] eqn:Hsh2.
  destruct (shr_fexp_quotient 53 1024 m1 e1 mrs2 e2 ltac:(lia) Hsh2)
    as (He12 & Hq2 & He2).
  assert (Hdm1 : Zdigits2 m1 <= 54).
  { destruct m1 as [| p1 | p1] eqn:Hm1; try lia. simpl.
    apply digits2_pos_le; [lia |].
    change (2 ^ 54) with 18014398509481984. lia. }
  assert (He1 : e1 <= -6) by (unfold e1, e0; lia).
  assert (He2' : e2 <= -5 /\ e2 - e1 <= 1).
  { destruct He2 as [-> | ->]; [lia |]. unfold fexp, emin. lia. }
  destruct He2' as [He2neg He2step].
  assert (Hm2 : 0 < shr_m mrs2).
  { rewrite Hq2.
    assert (Hpw : 0 < 2 ^ (e2 - e1) <= 2).
    { assert (e2 - e1 = 0 \/ e2 - e1 = 1) as [-> | ->] by lia; simpl; lia. }
    apply Z.div_str_pos. lia. }
  destruct (shr_m mrs2) as [| m2 | m2] eqn:Hm2eq; try lia.
  assert (Hle : (e2 <=? 1024 - 53) = true) by (apply Z.leb_le; lia).
  rewrite Hle. unfold PyFloat.to_int.
  destruct e2 as [| pe | pe] eqn:He2eq; try lia.
  f_equal. rewrite Z.shiftr_div_pow2 by lia.
  assert (Hpw1 : 0 < 2 ^ (Zneg pe - e1)) by (apply Z.pow_pos_nonneg; lia).
  assert (Hpw2 : 0 < 2 ^ Zpos pe) by (apply Z.pow_pos_nonneg; lia).
  rewrite Hq2, Z.div_div by lia.
  rewrite <- Z.pow_add_r by lia.
  replace (Zneg pe - e1 + Zpos pe) with (- e1) by lia.
  (* the arithmetic *)
  assert (HA : 0 < 2 ^ (- e1)) by (apply Z.pow_pos_nonneg; lia).
  assert (HC : 0 < 2 ^ t) by (apply Z.pow_pos_nonneg; lia).
  assert (HAB : 2 ^ (- e1) * B = 2 ^ 59 * 2 ^ t).
  { unfold B. rewrite <- !Z.pow_add_r by lia. f_equal. unfold e1, e0. lia. }
  assert (HnC : Zpos pn * 2 ^ t < 2 ^ 53).
  { rewrite <- Hm. change (2 ^ 53) with 9007199254740992. lia. }
  assert (HBmax : B <= 2 ^ 53) by (unfold B; apply Z.pow_le_mono_r; lia).
  rewrite HP in Hlow, Hup.
  apply (one_percent_arith (Zpos pn) m1 (2 ^ (- e1)) B (2 ^ t));
    assumption || lia.
Qed.

Lemma one_percent_exact (n : Z) :
  0 <= n < 2 ^ 53 ->
  PyFloat.of_int n = Some (PyFloat.round_int n)
  /\ PyFloat.to_int (PyFloat.mul (PyFloat.round_int n) PyFloat.c_0_01)
     = Some (n / 100).
Proof.
  intros Hn. split.
  - apply of_int_int64. unfold int64.
    change (2 ^ 53) with 9007199254740992 in Hn.
    change (2 ^ 63) with 9223372036854775808. lia.
  - destruct n as [| pn | pn]; [reflexivity | | lia].
    apply one_percent_positive. lia.
Qed.

(** X14. The reward is one percent of the total supply, exactly: for a
    total supply from 0 to below [2 ^ 53], Python's [int(total_supply * 0.01)]
    is the integer quotient [total_supply // 100] (the double nearest to
    0.01 and the rounding of the product never carry the result across an
    integer), so a purchase of an existing course returns
    [tokens_awarded = min(max(1, total_supply // 100), treasury)]. *)
Theorem purchase_awards_one_percent (db : DB) (course_id : string)
    (req : PurchaseRequest) (oid : ObjectId) (course_doc : CourseDoc)
    (token : TokenDoc) :
  ObjectId.of_str course_id = Some oid ->
  find_one (course_by_id oid) (course db) = Some course_doc ->
  find_one (token_by_course course_id) (coursetoken db) = Some token ->
  0 <= get (t_total_supply token) 1000 < 2 ^ 53 ->
  requested_reward (get (t_total_supply token) 1000)
  = Some (Z.max 1 (get (t_total_supply token) 1000 / 100))
  /\ exists db' res,
       purchase_course course_id req db = (db', Returned res)
       /\ tokens_awarded res
          = Z.min (Z.max 1 (get (t_total_supply token) 1000 / 100))
                  (get (t_treasury_token_balance token) 0).
Proof.
  intros Hoid Hcourse Htoken Hrange.
  destruct (one_percent_exact _ Hrange) as [Hf Hwhole].
  destruct (max_one_to_int_floor _ _ Hwhole) as (fl & Hfl & Hmax).
  split.
  - unfold requested_reward. rewrite Hf, Hfl. simpl. now rewrite Hmax.
  - destruct (purchase_course_returns course_id req db oid course_doc token _ _
                Hoid Hcourse Htoken Hf Hwhole) as (db' & Hrun & _).
    eexists db', _. split; [exact Hrun |].
    simpl tokens_awarded. unfold allocation.
    destruct (Z.ltb_spec (get (t_treasury_token_balance token) 0)
                (Z.max 1 (get (t_total_supply token) 1000 / 100))); lia.
Qed.

Lemma purchase_awards_one_percent_witness :
  requested_reward 1000 = Some (Z.max 1 (1000 / 100))
  /\ exists db' res,
       purchase_course demo_course_id demo_request demo_db = (db', Returned res)
       /\ tokens_awarded res = Z.min (Z.max 1 (1000 / 100)) 1000.
Proof.
  refine (purchase_awards_one_percent demo_db demo_course_id demo_request
            (ObjectId.generate 0)
            (hd {| c_id := []; c_price_usd := None; c_model := demo_course |}
                (course demo_db))
            (hd (initial_token [] "" demo_course) (coursetoken demo_db))
            eq_refl eq_refl eq_refl _).
  simpl get. change (2 ^ 53) with 9007199254740992. lia.
Defined.

(* ================================================================== *)
(** * A trade of nothing *)

Lemma order_inc_amount_zero (o : OrderDoc) : order_inc_amount (- 0) o = o.
Proof.
  destruct o. unfold order_inc_amount. simpl. f_equal. lia.
Qed.

(** X15. A request to trade 0 tokens between a buy order and a sell order
    of the same course (their open amounts not negative) is a success with
    [filled_amount = 0] at the sell price; the orders, the courses and the
    purchase log are exactly what they were, every owner reads the same
    available and reserved amounts, and no supply field changes. *)
Theorem trade_of_nothing (db : DB) (req : TradeRequest) (buy_oid sell_oid : ObjectId)
    (buy_doc sell_doc : OrderDoc) :
  ObjectId.of_str (buy_order_id req) = Some buy_oid ->
  ObjectId.of_str (sell_order_id req) = Some sell_oid ->
  find_one (order_by_id buy_oid) (order db) = Some buy_doc ->
  find_one (order_by_id sell_oid) (order db) = Some sell_doc ->
  o_side buy_doc = buy -> o_side sell_doc = sell ->
  o_course_id buy_doc = o_course_id sell_doc ->
  0 <= o_amount buy_doc -> 0 <= o_amount sell_doc ->
  tr_amount req = 0 ->
  exists db',
    match_trade req db
    = (db', Returned {| filled_amount := 0;
                        trade_price_usd := o_price_usd sell_doc |})
    /\ order db' = order db /\ course db' = course db
    /\ purchase db' = purchase db
    /\ (forall user_id course_id,
          available db' user_id course_id = available db user_id course_id
          /\ reserved db' user_id course_id = reserved db user_id course_id)
    /\ map supply (coursetoken db') = map supply (coursetoken db).
Proof.
  intros Hb Hs Hfb Hfs Hsb Hss Hco Hbn Hsn Hreq.
  assert (Hfill : fill req buy_doc sell_doc = 0) by (unfold fill; lia).
  assert (Hg : PyFloat.of_int (fill req buy_doc sell_doc) = Some PyFloat.zero).
  { rewrite Hfill. reflexivity. }
  destruct (match_trade_returns req db _ _ _ _ _ Hb Hs Hfb Hfs Hsb Hss Hco Hg)
    as (db' & Hrun & Hord & Hbal & Htok & Hcourse).
  rewrite Hfill in Hrun, Hord, Hbal.
  destruct (settle_zero (next_oid db) buy_doc sell_doc (balance db))
    as (Hread & _).
  rewrite <- Hbal in Hread.
  exists db'. split; [exact Hrun |]. split.
  { rewrite Hord, !update_one_id by apply order_inc_amount_zero. reflexivity. }
  split; [exact Hcourse |]. split.
  { pose proof (match_trade_purchase req db) as Hp. rewrite Hrun in Hp. exact Hp. }
  split.
  - intros user_id course_id. specialize (Hread user_id course_id).
    unfold holdings_in, holdings in Hread. unfold available, reserved.
    destruct (find_one (balance_by_owner user_id course_id) (balance db')),
      (find_one (balance_by_owner user_id course_id) (balance db));
      try injection Hread as H1 H2; auto.
  - rewrite Htok. apply update_one_map. intros d. reflexivity.
Qed.

Lemma trade_of_nothing_witness :
  exists db',
    match_trade (demo_trade 0) market_db
    = (db', Returned {| filled_amount := 0;
                        trade_price_usd := PyFloat.round_int 2 |})
    /\ order db' = order market_db.
Proof.
  destruct (trade_of_nothing market_db (demo_trade 0) (ObjectId.generate 5)
              (ObjectId.generate 4) market_buy_doc market_sell_doc
              eq_refl eq_refl eq_refl eq_refl eq_refl eq_refl eq_refl
              ltac:(simpl; lia) ltac:(simpl; lia) eq_refl)
    as (db' & Hrun & Hord & _).
  exists db'. split; assumption.
Defined.

(* ================================================================== *)
(** * Available balances never go negative *)

Lemma byte_of_N_to_N (a : N) :
  (a < 256)%N -> Byte.to_N (ObjectId.byte_of_N a) = a.
Proof.
  intros Ha. unfold ObjectId.byte_of_N.
  destruct (Byte.of_N a) as [b |] eqn:Hb.
  - now apply Byte.to_of_N.
  - apply Byte.of_N_None_iff in Hb. lia.
Qed.

Lemma be_bytes_inj (len : nat) (n n' : N) :
  ObjectId.be_bytes len n = ObjectId.be_bytes len n' ->
  (n mod 256 ^ N.of_nat len = n' mod 256 ^ N.of_nat len)%N.
Proof.
  revert n n'. induction len as [| k IH]; intros n n' H.
  - simpl. now rewrite !N.mod_1_r.
  - simpl ObjectId.be_bytes in H. apply app_inj_tail in H. destruct H as [Hhi Hlo].
    apply IH in Hhi.
    assert (Hlo' : (n mod 256 = n' mod 256)%N).
    { rewrite <- (byte_of_N_to_N (n mod 256)), <- (byte_of_N_to_N (n' mod 256))
        by (apply N.mod_lt; lia).
      now rewrite Hlo. }
    rewrite Nat2N.inj_succ, N.pow_succ_r'.
    rewrite !N.Div0.mod_mul_r. now rewrite Hhi, Hlo'.
Qed.

Lemma generate_inj (k k' : N) :
  (k < 2 ^ 96)%N -> (k' < 2 ^ 96)%N ->
  ObjectId.generate k = ObjectId.generate k' -> k = k'.
Proof.
  intros Hk Hk' H. apply be_bytes_inj in H.
  change (256 ^ N.of_nat 12)%N with (2 ^ 96)%N in H.
  now rewrite !N.mod_small in H.
Qed.

Lemma ids_below_mono (n n' : N) (c : list BalanceDoc) :
  (n <= n')%N -> ids_below n c -> ids_below n' c.
Proof.
  intros Hle. apply Forall_impl. intros b (k & Hk & Hid). exists k. split; [lia | auto].
Qed.

Lemma ids_below_fresh (n : N) (c : list BalanceDoc) :
  (n < 2 ^ 96)%N -> ids_below n c -> ~ In (ObjectId.generate n) (map b_id c).
Proof.
  intros Hn Hc Hin. apply in_map_iff in Hin. destruct Hin as (b & Hid & Hb).
  unfold ids_below in Hc. rewrite Forall_forall in Hc.
  destruct (Hc b Hb) as (k & Hk & Hid'). rewrite Hid' in Hid.
  apply generate_inj in Hid; lia.
Qed.

Lemma ids_below_update (n : N) (q : BalanceDoc -> bool) (u : BalanceDoc -> BalanceDoc)
    (c : list BalanceDoc) :
  keeps_owner u -> ids_below n c -> ids_below n (update_one q u c).
Proof.
  intros Hu. apply update_one_Forall. intros b (k & Hk & Hid).
  exists k. destruct (Hu b) as (-> & _). auto.
Qed.

Lemma ids_below_append (n : N) (c : list BalanceDoc) (b : BalanceDoc) :
  ids_below n c -> b_id b = ObjectId.generate n ->
  ids_below (N.succ n) (c ++ [b]).
Proof.
  intros Hc Hb. apply Forall_app. split.
  - apply ids_below_mono with (n := n); [lia | assumption].
  - constructor; [| constructor]. exists n. split; [lia | assumption].
Qed.

(** The counter after a trade on two orders that pass the checks. *)
Lemma match_trade_next (req : TradeRequest) (db : DB) (buy_oid sell_oid : ObjectId)
    (buy_doc sell_doc : OrderDoc) :
  ObjectId.of_str (buy_order_id req) = Some buy_oid ->
  ObjectId.of_str (sell_order_id req) = Some sell_oid ->
  find_one (order_by_id buy_oid) (order db) = Some buy_doc ->
  find_one (order_by_id sell_oid) (order db) = Some sell_doc ->
  o_side buy_doc = buy -> o_side sell_doc = sell ->
  o_course_id buy_doc = o_course_id sell_doc ->
  next_oid (fst (match_trade req db))
  = settle_next (next_oid db) buy_doc sell_doc (fill req buy_doc sell_doc)
      (balance db).
Proof.
  intros Hb Hs Hfb Hfs Hsb Hss Hco.
  unfold match_trade. unfold_M. simpl.
  rewrite Hb. simpl. rewrite Hfb, Hs. simpl. rewrite Hfs. simpl.
  rewrite Hsb, Hss. simpl. rewrite Hco, String.eqb_refl. simpl.
  fold (fill req buy_doc sell_doc).
  unfold settle_next. rewrite <- Hco.
  set (seller := balance_by_owner (o_user_id sell_doc) (o_course_id buy_doc)).
  set (buyer := balance_by_owner (o_user_id buy_doc) (o_course_id buy_doc)).
  destruct (find_one seller (balance db)) as [bs |] eqn:Hseller; simpl.
  - rewrite Hseller.
    destruct (find_one buyer _) as [bb |] eqn:Hbuyer; simpl;
      destruct (PyFloat.of_int _); reflexivity.
  - rewrite (find_one_None_app _ _ _ Hseller).
    unfold seller. rewrite balance_by_owner_refl by reflexivity. simpl.
    destruct (find_one buyer _) as [bb |] eqn:Hbuyer; simpl;
      destruct (PyFloat.of_int _); reflexivity.
Qed.

(** What a purchase does to the balance records and to the counter. *)
Lemma purchase_course_balance_effect (course_id : string) (req : PurchaseRequest)
    (db : DB) :
  let db' := fst (purchase_course course_id req db) in
  (balance db' = balance db /\ (next_oid db <= next_oid db')%N)
  \/ (exists token whole bal,
        find_one (token_by_course course_id) (coursetoken db) = Some token
        /\ find_one (balance_by_owner (pr_user_id req) course_id) (balance db)
           = Some bal
        /\ balance db'
           = update_one (balance_by_id (b_id bal))
               (balance_inc_amount (allocation token whole)) (balance db)
        /\ (next_oid db <= next_oid db')%N)
  \/ (exists token whole,
        find_one (token_by_course course_id) (coursetoken db) = Some token
        /\ find_one (balance_by_owner (pr_user_id req) course_id) (balance db)
           = None
        /\ balance db'
           = balance db
             ++ [ {| b_id := ObjectId.generate (N.succ (next_oid db));
                     b_user_id := pr_user_id req; b_course_id := course_id;
                     b_amount := Some (allocation token whole);
                     b_reserved := None |} ]
        /\ next_oid db' = N.succ (N.succ (next_oid db))).
Proof.
  unfold purchase_course. unfold_M. simpl.
  destruct (ObjectId.of_str course_id) as [oid |]; simpl; [| left; split; [auto | lia]].
  destruct (find_one (course_by_id oid) (course db)) as [cd |]; simpl;
    [| left; split; [auto | lia]].
  destruct (find_one (token_by_course course_id) (coursetoken db)) as [tk |] eqn:Ht;
    simpl; [| left; split; [auto | lia]].
  destruct (PyFloat.of_int (get (t_total_supply tk) 1000)) as [f |]; simpl;
    [| left; split; [auto | lia]].
  destruct (PyFloat.to_int (PyFloat.mul f PyFloat.c_0_01)) as [w |]; simpl;
    [| left; split; [auto | lia]].
  fold (allocation tk w).
  destruct (find_one (balance_by_owner (pr_user_id req) course_id) (balance db))
    as [bal |] eqn:Hbal; simpl.
  - right. left. exists tk, w, bal. repeat split; try reflexivity. lia.
  - right. right. exists tk, w. repeat split; reflexivity.
Qed.


(** What an order placement does to the balance records, to the orders and
    to the counter. *)
Lemma place_order_effect (o : Order) (db : DB) :
  let db' := fst (place_order o db) in
  let placed := order db ++ [order_doc (ObjectId.generate (next_oid db)) o] in
  (next_oid db <= next_oid db')%N
  /\ ((balance db' = balance db /\ order db' = order db)
      \/ (or_side o = buy /\ balance db' = balance db /\ order db' = placed)
      \/ exists bal,
           find_one (balance_by_owner (or_user_id o) (or_course_id o)) (balance db)
           = Some bal
           /\ or_side o = sell
           /\ or_amount o <= get (b_amount bal) 0
           /\ balance db'
              = update_one (balance_by_id (b_id bal))
                  (balance_inc_both (- or_amount o) (or_amount o)) (balance db)
           /\ order db' = placed).
Proof.
  unfold place_order, order_doc. unfold_M. simpl.
  destruct (ObjectId.of_str (or_course_id o)); simpl; [| split; [lia | auto]].
  destruct (find_one _ (course db)); simpl; [| split; [lia | auto]].
  destruct (or_side o) eqn:Hside; simpl; [split; [lia | auto] |].
  destruct (find_one _ (balance db)) as [bal |] eqn:Hbal; simpl;
    [| split; [lia | auto]].
  destruct (Z.ltb_spec (get (b_amount bal) 0) (or_amount o)); simpl;
    [split; [lia | auto] |].
  split; [lia |]. right. right. exists bal. repeat split; auto.
Qed.

Lemma ids_ok_mono (n n' : N) (c : list BalanceDoc) :
  (n <= n')%N -> ids_ok n c -> ids_ok n' c.
Proof.
  intros Hle (Hnd & Hids). split; [assumption |].
  now apply ids_below_mono with (n := n).
Qed.

Lemma ids_ok_update (n : N) (q : BalanceDoc -> bool)
    (u : BalanceDoc -> BalanceDoc) (c : list BalanceDoc) :
  keeps_owner u -> ids_ok n c -> ids_ok n (update_one q u c).
Proof.
  intros Hu (Hnd & Hids). split.
  - now apply keeps_owner_NoDup.
  - now apply ids_below_update.
Qed.

Lemma ids_ok_append (n : N) (c : list BalanceDoc) (b : BalanceDoc) :
  (n < 2 ^ 96)%N -> b_id b = ObjectId.generate n ->
  ids_ok n c -> ids_ok (N.succ n) (c ++ [b]).
Proof.
  intros Hn Hid (Hnd & Hids). split.
  - rewrite map_app. simpl. apply NoDup_snoc; [assumption |].
    rewrite Hid. now apply ids_below_fresh.
  - now apply ids_below_append.
Qed.

(** The counter of the driver never goes back, and it moves when a trade
    has to insert the seller's record. *)
Lemma settle_next_le (next : N) (buy_doc sell_doc : OrderDoc) (amount : Z)
    (c : list BalanceDoc) :
  (next <= settle_next next buy_doc sell_doc amount c)%N
  /\ (find_one (balance_by_owner (o_user_id sell_doc) (o_course_id sell_doc)) c = None ->
      (next < settle_next next buy_doc sell_doc amount c)%N).
Proof.
  unfold settle_next.
  set (seller := balance_by_owner (o_user_id sell_doc) (o_course_id sell_doc)).
  set (buyer := balance_by_owner (o_user_id buy_doc) (o_course_id buy_doc)).
  destruct (find_one seller c) as [bs |] eqn:Hseller.
  - rewrite Hseller. split; [| discriminate]. destruct (find_one buyer _); lia.
  - rewrite (find_one_None_app _ _ _ Hseller).
    match goal with
    | |- context [seller ?zs] =>
        replace (seller zs) with true
          by (symmetry; apply balance_by_owner_refl; reflexivity)
    end.
    destruct (find_one buyer _); split; intros; lia.
Qed.

(** The balance writes of a trade keep the [_id]s in order. *)
Lemma settle_ids_ok (next : N) (buy_doc sell_doc : OrderDoc) (amount : Z)
    (c : list BalanceDoc) :
  (settle_next next buy_doc sell_doc amount c <= 2 ^ 96)%N ->
  ids_ok next c ->
  ids_ok (settle_next next buy_doc sell_doc amount c)
    (settle next buy_doc sell_doc amount c).
Proof.
  unfold settle_next, settle.
  set (seller := balance_by_owner (o_user_id sell_doc) (o_course_id sell_doc)).
  set (buyer := balance_by_owner (o_user_id buy_doc) (o_course_id buy_doc)).
  set (zs := {| b_id := ObjectId.generate next; b_user_id := o_user_id sell_doc;
                b_course_id := o_course_id sell_doc;
                b_amount := Some 0; b_reserved := Some 0 |}).
  assert (Hstep : forall (c1 : list BalanceDoc) (next1 : N) (bs : BalanceDoc),
             (match find_one buyer
                      (update_one (balance_by_id (b_id bs))
                         (balance_inc_reserved (- amount)) c1) with
              | Some _ => next1
              | None => N.succ next1
              end <= 2 ^ 96)%N ->
             ids_ok next1 c1 ->
             ids_ok
               match find_one buyer
                       (update_one (balance_by_id (b_id bs))
                          (balance_inc_reserved (- amount)) c1) with
               | Some _ => next1
               | None => N.succ next1
               end
               match find_one buyer
                       (update_one (balance_by_id (b_id bs))
                          (balance_inc_reserved (- amount)) c1) with
               | Some bal_buyer =>
                   update_one (balance_by_id (b_id bal_buyer))
                     (balance_inc_amount amount)
                     (update_one (balance_by_id (b_id bs))
                        (balance_inc_reserved (- amount)) c1)
               | None =>
                   update_one (balance_by_id (b_id bs))
                     (balance_inc_reserved (- amount)) c1
                   ++ [ {| b_id := ObjectId.generate next1;
                           b_user_id := o_user_id buy_doc;
                           b_course_id := o_course_id buy_doc;
                           b_amount := Some amount; b_reserved := None |} ]
               end).
  { intros c1 next1 bs Hbound Hc1.
    assert (Hc2 : ids_ok next1
                    (update_one (balance_by_id (b_id bs))
                       (balance_inc_reserved (- amount)) c1)).
    { apply ids_ok_update; [apply balance_inc_reserved_keeps | assumption]. }
    destruct (find_one buyer _) as [bb |].
    - apply ids_ok_update; [apply balance_inc_amount_keeps | assumption].
    - apply ids_ok_append; [lia | reflexivity | assumption]. }
  destruct (find_one seller c) as [bs |] eqn:Hseller.
  - rewrite Hseller. intros Hbound Hc. now apply Hstep.
  - rewrite (find_one_None_app _ _ _ Hseller).
    assert (Hzs : seller zs = true) by (apply balance_by_owner_refl; reflexivity).
    rewrite Hzs. intros Hbound Hc. apply Hstep; [assumption |].
    apply ids_ok_append; [| reflexivity | assumption].
    destruct (find_one buyer _); lia.
Qed.

(** The balance writes of a trade of a non-negative amount lower no
    available amount. *)
Lemma settle_nonnegative (next : N) (buy_doc sell_doc : OrderDoc) (amount : Z)
    (c : list BalanceDoc) :
  0 <= amount -> nonnegative c ->
  nonnegative (settle next buy_doc sell_doc amount c).
Proof.
  intros Hamount. unfold settle, nonnegative.
  set (seller := balance_by_owner (o_user_id sell_doc) (o_course_id sell_doc)).
  set (buyer := balance_by_owner (o_user_id buy_doc) (o_course_id buy_doc)).
  set (zs := {| b_id := ObjectId.generate next; b_user_id := o_user_id sell_doc;
                b_course_id := o_course_id sell_doc;
                b_amount := Some 0; b_reserved := Some 0 |}).
  set (P := fun b : BalanceDoc => 0 <= get (b_amount b) 0).
  assert (Hstep : forall (c1 : list BalanceDoc) (next1 : N) (bs : BalanceDoc),
             Forall P c1 ->
             Forall P
               match find_one buyer
                       (update_one (balance_by_id (b_id bs))
                          (balance_inc_reserved (- amount)) c1) with
               | Some bal_buyer =>
                   update_one (balance_by_id (b_id bal_buyer))
                     (balance_inc_amount amount)
                     (update_one (balance_by_id (b_id bs))
                        (balance_inc_reserved (- amount)) c1)
               | None =>
                   update_one (balance_by_id (b_id bs))
                     (balance_inc_reserved (- amount)) c1
                   ++ [ {| b_id := ObjectId.generate next1;
                           b_user_id := o_user_id buy_doc;
                           b_course_id := o_course_id buy_doc;
                           b_amount := Some amount; b_reserved := None |} ]
               end).
  { intros c1 next1 bs Hc1.
    assert (Hc2 : Forall P (update_one (balance_by_id (b_id bs))
                              (balance_inc_reserved (- amount)) c1)).
    { apply update_one_Forall; [| assumption]. intros b Hb. exact Hb. }
    destruct (find_one buyer _) as [bb |].
    - apply update_one_Forall; [| assumption].
      intros b Hb. unfold P in *. simpl. rewrite get_inc. lia.
    - apply Forall_app. split; [assumption |].
      constructor; [| constructor]. unfold P. simpl. lia. }
  destruct (find_one seller c) as [bs |] eqn:Hseller.
  - rewrite Hseller. intros Hc. now apply Hstep.
  - rewrite (find_one_None_app _ _ _ Hseller).
    assert (Hzs : seller zs = true) by (apply balance_by_owner_refl; reflexivity).
    rewrite Hzs. intros Hc. apply Hstep.
    apply Forall_app. split; [assumption |].
    constructor; [| constructor]. unfold P. simpl. lia.
Qed.

Lemma handle_next_oid (r : Request) (db : DB) :
  (next_oid db <= next_oid (fst (handle r db)))%N.
Proof.
  destruct r as [c | course_id req | o | req].
  - rewrite handle_fst_course. destruct (Course_valid c); [| lia].
    destruct (create_course_returns c db) as (_ & _ & _ & _ & _ & _ & ->). lia.
  - rewrite handle_fst_purchase.
    destruct (purchase_course_balance_effect course_id req db)
      as [(_ & H) | [(tk & w & bal & _ & _ & _ & H) | (tk & w & _ & _ & _ & H)]];
      lia.
  - rewrite handle_fst_order. destruct (Order_valid o); [| lia].
    apply place_order_effect.
  - rewrite handle_fst_trade.
    destruct (match_trade_cases req db)
      as [(_ & H) | [(boid & _ & _ & H) | [(boid & soid & _ & _ & _ & H)
         | [(boid & soid & b & s & _ & _ & _ & _ & _ & H)
         | [(boid & soid & b & s & _ & _ & _ & _ & _ & _ & _ & H)
         | (boid & soid & b & s & Hb & Hs & Hfb & Hfs & Hsb & Hss & Hco & _)]]]]];
      try (rewrite H; simpl; lia).
    rewrite (match_trade_next req db _ _ _ _ Hb Hs Hfb Hfs Hsb Hss Hco).
    apply settle_next_le.
Qed.

Lemma serve_next_oid (rs : list Request) (db : DB) :
  (next_oid db <= next_oid (serve rs db))%N.
Proof.
  revert db. induction rs as [| r rs IH]; intros db; simpl; [lia |].
  pose proof (handle_next_oid r db). pose proof (IH (fst (handle r db))). lia.
Qed.

Lemma find_one_In {D : Type} (q : D -> bool) (c : list D) (d : D) :
  find_one q c = Some d -> In d c.
Proof.
  intros H. destruct (find_one_split _ _ _ H) as (l1 & l2 & -> & _).
  apply in_or_app. right. now left.
Qed.

(** Any request keeps the [_id]s of the balance records in order. *)
Lemma handle_keeps_ids_ok (r : Request) (db : DB) :
  ids_ok (next_oid db) (balance db) ->
  (next_oid (fst (handle r db)) <= 2 ^ 96)%N ->
  ids_ok (next_oid (fst (handle r db))) (balance (fst (handle r db))).
Proof.
  intros Hids.
  destruct r as [c | course_id req | o | req].
  - rewrite handle_fst_course. destruct (Course_valid c); [| auto].
    destruct (create_course_returns c db) as (_ & _ & _ & -> & _ & _ & ->).
    intros _. apply ids_ok_mono with (n := next_oid db); [lia | assumption].
  - rewrite handle_fst_purchase.
    destruct (purchase_course_balance_effect course_id req db)
      as [(-> & H) | [(tk & w & bal & Htk & Hbal & -> & H)
         | (tk & w & Htk & Hbal & -> & ->)]]; intros Hbound.
    + now apply ids_ok_mono with (n := next_oid db).
    + apply ids_ok_mono with (n := next_oid db); [assumption |].
      apply ids_ok_update; [apply balance_inc_amount_keeps | assumption].
    + apply ids_ok_append; [lia | reflexivity |].
      apply ids_ok_mono with (n := next_oid db); [lia | assumption].
  - rewrite handle_fst_order. destruct (Order_valid o); [| auto].
    destruct (place_order_effect o db)
      as (Hnext & [(-> & _) | [(_ & -> & _) | (bal & _ & _ & _ & -> & _)]]);
      intros Hbound.
    + now apply ids_ok_mono with (n := next_oid db).
    + now apply ids_ok_mono with (n := next_oid db).
    + apply ids_ok_mono with (n := next_oid db); [assumption |].
      apply ids_ok_update; [apply balance_inc_both_keeps | assumption].
  - rewrite handle_fst_trade.
    destruct (match_trade_cases req db)
      as [(_ & H) | [(boid & _ & _ & H) | [(boid & soid & _ & _ & _ & H)
         | [(boid & soid & b & s & _ & _ & _ & _ & _ & H)
         | [(boid & soid & b & s & _ & _ & _ & _ & _ & _ & _ & H)
         | (boid & soid & b & s & Hb & Hs & Hfb & Hfs & Hsb & Hss & Hco & _)]]]]];
      try (rewrite H; simpl; auto).
    rewrite (match_trade_next req db _ _ _ _ Hb Hs Hfb Hfs Hsb Hss Hco).
    rewrite (match_trade_balance req db _ _ _ _ Hb Hs Hfb Hfs Hsb Hss Hco).
    intros Hbound. now apply settle_ids_ok.
Qed.

Lemma token_sound_treasury (token : TokenDoc) :
  token_sound token -> 0 <= get (t_treasury_token_balance token) 0.
Proof.
  unfold token_sound.
  destruct (t_circulating_supply token), (t_treasury_token_balance token),
    (t_total_supply token); simpl; try contradiction; lia.
Qed.

(** One request lowers no available amount below zero, unless it asks for
    a negative trade. *)
Lemma handle_keeps_nonnegative (r : Request) (db : DB) :
  accounts_ok db -> trade_amount_ok r -> nonnegative (balance (fst (handle r db))).
Proof.
  intros (((Hnd & _) & Hpos) & Htokens & Horders) Hr. unfold nonnegative in *.
  destruct r as [c | course_id req | o | req].
  - rewrite handle_fst_course. destruct (Course_valid c); [| auto].
    now destruct (create_course_returns c db) as (_ & _ & _ & -> & _).
  - rewrite handle_fst_purchase.
    destruct (purchase_course_balance_effect course_id req db)
      as [(-> & H) | [(tk & w & bal & Htk & Hbal & -> & H)
         | (tk & w & Htk & Hbal & -> & _)]]; [assumption | |].
    + apply update_one_Forall; [| assumption].
      intros b Hb. simpl. rewrite get_inc.
      rewrite Forall_forall in Htokens.
      pose proof (token_sound_treasury tk (Htokens _ (find_one_In _ _ _ Htk))).
      pose proof (allocation_bounds tk w). lia.
    + apply Forall_app. split; [assumption |].
      constructor; [| constructor]. simpl.
      rewrite Forall_forall in Htokens.
      pose proof (token_sound_treasury tk (Htokens _ (find_one_In _ _ _ Htk))).
      pose proof (allocation_bounds tk w). lia.
  - rewrite handle_fst_order. destruct (Order_valid o); [| auto].
    destruct (place_order_effect o db)
      as (Hnext & [(-> & _) | [(_ & -> & _) | (bal & Hbal & _ & Hle & -> & _)]]);
      [assumption | assumption |].
    destruct (find_one_split _ _ _ Hbal) as (l1 & l2 & Heq & _).
    rewrite Heq in *.
    change (balance_by_id (b_id bal)) with (by_key b_id (b_id bal)).
    rewrite update_one_by_key by assumption.
    apply Forall_app in Hpos. destruct Hpos as [H1 H2].
    apply Forall_app. split; [assumption |].
    inversion H2; subst. constructor; [| assumption].
    simpl. rewrite get_inc. lia.
  - rewrite handle_fst_trade.
    destruct (match_trade_cases req db)
      as [(_ & H) | [(boid & _ & _ & H) | [(boid & soid & _ & _ & _ & H)
         | [(boid & soid & b & s & _ & _ & _ & _ & _ & H)
         | [(boid & soid & b & s & _ & _ & _ & _ & _ & _ & _ & H)
         | (boid & soid & b & s & Hb & Hs & Hfb & Hfs & Hsb & Hss & Hco & _)]]]]];
      try (rewrite H; simpl; auto).
    rewrite (match_trade_balance req db _ _ _ _ Hb Hs Hfb Hfs Hsb Hss Hco).
    apply settle_nonnegative; [| assumption].
    simpl in Hr. rewrite Forall_forall in Horders.
    pose proof (Horders _ (find_one_In _ _ _ Hfb)).
    pose proof (Horders _ (find_one_In _ _ _ Hfs)).
    unfold fill. lia.
Qed.

Lemma handle_keeps_accounts_ok (r : Request) (db : DB) :
  accounts_ok db -> trade_amount_ok r ->
  (next_oid (fst (handle r db)) <= 2 ^ 96)%N ->
  accounts_ok (fst (handle r db)).
Proof.
  intros Hdb Hr Hbound. split; [split | split].
  - apply handle_keeps_ids_ok; [apply Hdb | assumption].
  - now apply handle_keeps_nonnegative.
  - apply handle_keeps_tokens_sound, Hdb.
  - apply handle_keeps_orders_open, Hdb.
Qed.

Lemma serve_keeps_accounts_ok (rs : list Request) (db : DB) :
  accounts_ok db -> Forall trade_amount_ok rs ->
  (next_oid (serve rs db) <= 2 ^ 96)%N ->
  accounts_ok (serve rs db).
Proof.
  revert db. induction rs as [| r rs IH]; intros db Hdb Hrs Hbound; simpl in *;
    [assumption |].
  inversion Hrs as [| r' rs' Hr Hrs']; subst.
  apply IH; [| assumption | assumption].
  apply handle_keeps_accounts_ok; [assumption | assumption |].
  pose proof (serve_next_oid rs (fst (handle r db))). lia.
Qed.

(** X16. The safety property that a negative trade breaks. From a store
    whose accounts are in order, a session in which no trade is requested
    with a negative amount leaves the accounts in order, and the available
    balance of every user for every course is non-negative, as long as the
    driver has not run out of 12-byte [_id]s. *)
Theorem available_never_negative (rs : list Request) (db : DB) :
  accounts_ok db -> Forall trade_amount_ok rs ->
  (next_oid (serve rs db) <= 2 ^ 96)%N ->
  accounts_ok (serve rs db)
  /\ forall user_id course_id, 0 <= available (serve rs db) user_id course_id.
Proof.
  intros Hdb Hrs Hbound.
  pose proof (serve_keeps_accounts_ok rs db Hdb Hrs Hbound) as Hok.
  split; [assumption |]. intros user_id course_id. unfold available.
  destruct (find_one _ _) as [b |] eqn:Hfind; [| lia].
  destruct Hok as ((_ & Hpos) & _). unfold nonnegative in Hpos.
  rewrite Forall_forall in Hpos.
  exact (Hpos b (find_one_In _ _ _ Hfind)).
Qed.

Lemma available_never_negative_witness :
  accounts_ok empty_db /\ Forall trade_amount_ok trading_session
  /\ (next_oid (serve trading_session empty_db) <= 2 ^ 96)%N
  /\ accounts_ok (serve trading_session empty_db)
  /\ forall user_id course_id,
       0 <= available (serve trading_session empty_db) user_id course_id.
Proof.
  assert (H1 : accounts_ok empty_db).
  { repeat split; constructor. }
  assert (H2 : Forall trade_amount_ok trading_session).
  { repeat constructor; simpl; lia. }
  assert (H3 : (next_oid (serve trading_session empty_db) <= 2 ^ 96)%N).
  { vm_compute. discriminate. }
  split; [exact H1 |]. split; [exact H2 |]. split; [exact H3 |].
  exact (available_never_negative trading_session empty_db H1 H2 H3).
Defined.

(* ================================================================== *)
(** * What is reserved is what the sell orders offer *)

(** The reserved amounts after an update through the [_id] of the record
    an owner's lookup found. *)
Lemma reserved_in_update (c : list BalanceDoc) (user_id course_id : string)
    (b : BalanceDoc) (u : BalanceDoc -> BalanceDoc) (user' course' : string) :
  NoDup (map b_id c) -> keeps_owner u ->
  find_one (balance_by_owner user_id course_id) c = Some b ->
  reserved_in (update_one (balance_by_id (b_id b)) u c) user' course'
  = reserved_in c user' course'
    + (if balance_by_owner user' course' b
       then get (b_reserved (u b)) 0 - get (b_reserved b) 0
       else 0).
Proof.
  intros Hnd Hu Hfind. unfold reserved_in.
  rewrite (balance_update_lookup c user_id course_id b u user' course' Hnd Hu Hfind).
  destruct (balance_by_owner user' course' b) eqn:Hb; [| lia].
  destruct (find_one_split _ _ _ Hfind) as (_ & _ & _ & Hq & _).
  apply balance_by_owner_true in Hb. apply balance_by_owner_true in Hq.
  destruct Hb as [Hb1 Hb2]. destruct Hq as [Hq1 Hq2].
  rewrite <- Hb1, <- Hb2, Hq1, Hq2, Hfind. lia.
Qed.

(** And after the insertion of a record for an owner that had none. *)
Lemma reserved_in_append (c : list BalanceDoc) (b : BalanceDoc)
    (user' course' : string) :
  find_one (balance_by_owner (b_user_id b) (b_course_id b)) c = None ->
  reserved_in (c ++ [b]) user' course'
  = reserved_in c user' course'
    + (if balance_by_owner user' course' b then get (b_reserved b) 0 else 0).
Proof.
  intros Hnone. unfold reserved_in.
  destruct (find_one (balance_by_owner user' course') c) as [d |] eqn:Hd.
  - rewrite (find_one_Some_app _ _ _ _ Hd).
    destruct (balance_by_owner user' course' b) eqn:Hb; [| lia].
    apply balance_by_owner_true in Hb. destruct Hb as [Hb1 Hb2].
    rewrite Hb1, Hb2 in Hnone. congruence.
  - rewrite (find_one_None_app _ _ _ Hd).
    destruct (balance_by_owner user' course' b); lia.
Qed.

(** A trade releases the fill from what the seller has reserved, and
    touches what nobody else has reserved. *)
Lemma settle_reserved (next : N) (buy_doc sell_doc : OrderDoc) (amount : Z)
    (c : list BalanceDoc) (user' course' : string) :
  NoDup (map b_id c) ->
  (find_one (balance_by_owner (o_user_id sell_doc) (o_course_id sell_doc)) c = None ->
   ~ In (ObjectId.generate next) (map b_id c)) ->
  reserved_in (settle next buy_doc sell_doc amount c) user' course'
  = reserved_in c user' course'
    - (if String.eqb (o_user_id sell_doc) user'
          && String.eqb (o_course_id sell_doc) course'
       then amount else 0).
Proof.
  intros Hnd Hfresh. unfold settle.
  set (seller := balance_by_owner (o_user_id sell_doc) (o_course_id sell_doc)) in *.
  set (buyer := balance_by_owner (o_user_id buy_doc) (o_course_id buy_doc)).
  set (zs := {| b_id := ObjectId.generate next; b_user_id := o_user_id sell_doc;
                b_course_id := o_course_id sell_doc;
                b_amount := Some 0; b_reserved := Some 0 |}).
  assert (Hstep : forall (c1 : list BalanceDoc) (next1 : N) (bs : BalanceDoc),
             NoDup (map b_id c1) -> find_one seller c1 = Some bs ->
             reserved_in
               match find_one buyer
                       (update_one (balance_by_id (b_id bs))
                          (balance_inc_reserved (- amount)) c1) with
               | Some bal_buyer =>
                   update_one (balance_by_id (b_id bal_buyer))
                     (balance_inc_amount amount)
                     (update_one (balance_by_id (b_id bs))
                        (balance_inc_reserved (- amount)) c1)
               | None =>
                   update_one (balance_by_id (b_id bs))
                     (balance_inc_reserved (- amount)) c1
                   ++ [ {| b_id := ObjectId.generate next1;
                           b_user_id := o_user_id buy_doc;
                           b_course_id := o_course_id buy_doc;
                           b_amount := Some amount; b_reserved := None |} ]
               end user' course'
             = reserved_in c1 user' course'
               - (if String.eqb (o_user_id sell_doc) user'
                     && String.eqb (o_course_id sell_doc) course'
                  then amount else 0)).
  { intros c1 next1 bs Hnd1 Hs1.
    assert (Hc2 : reserved_in
                    (update_one (balance_by_id (b_id bs))
                       (balance_inc_reserved (- amount)) c1) user' course'
                  = reserved_in c1 user' course'
                    - (if String.eqb (o_user_id sell_doc) user'
                          && String.eqb (o_course_id sell_doc) course'
                       then amount else 0)).
    { rewrite (reserved_in_update c1 _ _ bs _ user' course' Hnd1
                 (balance_inc_reserved_keeps _) Hs1).
      destruct (find_one_split _ _ _ Hs1) as (_ & _ & _ & Hq & _).
      apply balance_by_owner_true in Hq. destruct Hq as [Hq1 Hq2].
      unfold balance_by_owner. rewrite Hq1, Hq2.
      destruct (_ && _); [| lia]. simpl. rewrite get_inc. lia. }
    assert (Hnd2 : NoDup (map b_id (update_one (balance_by_id (b_id bs))
                                      (balance_inc_reserved (- amount)) c1))).
    { apply keeps_owner_NoDup; [apply balance_inc_reserved_keeps | assumption]. }
    destruct (find_one buyer _) as [bb |] eqn:Hbuyer.
    - rewrite (reserved_in_update _ _ _ bb _ user' course' Hnd2
                 (balance_inc_amount_keeps _) Hbuyer).
      rewrite Hc2. simpl. destruct (balance_by_owner user' course' bb); lia.
    - rewrite reserved_in_append by exact Hbuyer.
      rewrite Hc2. simpl. destruct (balance_by_owner user' course' _); lia. }
  destruct (find_one seller c) as [bs |] eqn:Hseller.
  - rewrite Hseller. now apply Hstep.
  - rewrite (find_one_None_app _ _ _ Hseller).
    assert (Hzs : seller zs = true) by (apply balance_by_owner_refl; reflexivity).
    rewrite Hzs.
    rewrite (Hstep (c ++ [zs]) (N.succ next) zs).
    + rewrite reserved_in_append by exact Hseller. simpl.
      destruct (balance_by_owner user' course' zs); lia.
    + rewrite map_app. simpl. apply NoDup_snoc; auto.
    + rewrite (find_one_None_app _ _ _ Hseller). now rewrite Hzs.
Qed.

Lemma sell_open_app (c1 c2 : list OrderDoc) (user_id course_id : string) :
  sell_open (c1 ++ c2) user_id course_id
  = sell_open c1 user_id course_id + sell_open c2 user_id course_id.
Proof.
  unfold sell_open. induction c1 as [| o r IH]; simpl; [reflexivity |].
  rewrite IH. lia.
Qed.

(** An update of the orders changes the offer by what it changes on the
    order it reaches. *)
Lemma sell_open_update (q : OrderDoc -> bool) (f : OrderDoc -> OrderDoc)
    (c : list OrderDoc) (d : OrderDoc) (user_id course_id : string) :
  find_one q c = Some d ->
  sell_open (update_one q f c) user_id course_id
  = sell_open c user_id course_id
    - sell_weight user_id course_id d + sell_weight user_id course_id (f d).
Proof.
  unfold find_one, sell_open. induction c as [| o r IH]; simpl; [discriminate |].
  destruct (q o); intros Hfind.
  - injection Hfind as ->. simpl. lia.
  - simpl. rewrite (IH Hfind). lia.
Qed.

(** The order writes of a trade take the fill from the sell order. *)
Lemma trade_sell_open (c : list OrderDoc) (buy_oid sell_oid : ObjectId)
    (buy_doc sell_doc : OrderDoc) (amount : Z) (user' course' : string) :
  find_one (order_by_id buy_oid) c = Some buy_doc ->
  find_one (order_by_id sell_oid) c = Some sell_doc ->
  o_side buy_doc = buy -> o_side sell_doc = sell ->
  sell_open
    (update_one (order_by_id (o_id buy_doc)) (order_inc_amount (- amount))
       (update_one (order_by_id (o_id sell_doc)) (order_inc_amount (- amount)) c))
    user' course'
  = sell_open c user' course'
    - (if String.eqb (o_user_id sell_doc) user'
          && String.eqb (o_course_id sell_doc) course'
       then amount else 0).
Proof.
  intros Hfb Hfs Hsb Hss.
  assert (Hkb : o_id buy_doc = buy_oid) by exact (find_one_by_key o_id _ _ _ Hfb).
  assert (Hks : o_id sell_doc = sell_oid) by exact (find_one_by_key o_id _ _ _ Hfs).
  assert (Hne : sell_oid <> buy_oid).
  { intros ->. rewrite Hfb in Hfs. injection Hfs as ->. congruence. }
  rewrite Hkb, Hks.
  rewrite (sell_open_update _ _ _ buy_doc).
  - rewrite (sell_open_update _ _ _ sell_doc) by exact Hfs.
    unfold sell_weight. simpl. rewrite Hsb, Hss. simpl.
    destruct (_ && _); lia.
  - change order_by_id with (by_key o_id).
    rewrite find_one_update_other_key by (auto || reflexivity). exact Hfb.
Qed.

(** One request keeps the books in agreement, whatever it asks for. *)
Lemma handle_keeps_books_ok (r : Request) (db : DB) :
  books_ok db -> (next_oid (fst (handle r db)) <= 2 ^ 96)%N ->
  books_ok (fst (handle r db)).
Proof.
  intros (Hids & Hbooks) Hbound.
  split; [now apply handle_keeps_ids_ok |].
  destruct Hids as (Hnd & Hbelow).
  intros user' course'. specialize (Hbooks user' course').
  rewrite reserved_reserved_in in *.
  destruct r as [c | course_id req | o | req].
  - rewrite handle_fst_course. destruct (Course_valid c); [| assumption].
    now destruct (create_course_returns c db) as (_ & _ & _ & -> & -> & _).
  - rewrite handle_fst_purchase, purchase_course_order.
    destruct (purchase_course_balance_effect course_id req db)
      as [(-> & H) | [(tk & w & bal & Htk & Hbal & -> & H)
         | (tk & w & Htk & Hbal & -> & _)]]; [assumption | |].
    + rewrite (reserved_in_update _ _ _ bal _ user' course' Hnd
                 (balance_inc_amount_keeps _) Hbal).
      simpl. destruct (balance_by_owner user' course' bal); lia.
    + rewrite reserved_in_append by exact Hbal. simpl.
      destruct (balance_by_owner user' course' _); lia.
  - rewrite handle_fst_order in *. destruct (Order_valid o); [| assumption].
    destruct (place_order_effect o db)
      as (Hnext & [(-> & ->) | [(Hside & -> & ->)
         | (bal & Hbal & Hside & Hle & -> & ->)]]); [assumption | |].
    + rewrite sell_open_app. unfold sell_open at 2, sell_weight. simpl.
      rewrite Hside. simpl. lia.
    + rewrite sell_open_app. unfold sell_open at 2, sell_weight. simpl.
      rewrite Hside. simpl.
      rewrite (reserved_in_update _ _ _ bal _ user' course' Hnd
                 (balance_inc_both_keeps _ _) Hbal).
      destruct (find_one_split _ _ _ Hbal) as (_ & _ & _ & Hq & _).
      apply balance_by_owner_true in Hq. destruct Hq as [Hq1 Hq2].
      unfold balance_by_owner. rewrite Hq1, Hq2.
      destruct (_ && _); [| lia]. simpl. rewrite get_inc. lia.
  - rewrite handle_fst_trade in *.
    destruct (match_trade_cases req db)
      as [(_ & H) | [(boid & _ & _ & H) | [(boid & soid & _ & _ & _ & H)
         | [(boid & soid & b & s & _ & _ & _ & _ & _ & H)
         | [(boid & soid & b & s & _ & _ & _ & _ & _ & _ & _ & H)
         | (boid & soid & b & s & Hb & Hs & Hfb & Hfs & Hsb & Hss & Hco & _)]]]]];
      try (rewrite H; simpl; assumption).
    rewrite (match_trade_next req db _ _ _ _ Hb Hs Hfb Hfs Hsb Hss Hco) in Hbound.
    rewrite (match_trade_balance req db _ _ _ _ Hb Hs Hfb Hfs Hsb Hss Hco).
    rewrite (match_trade_orders req db _ _ _ _ Hb Hs Hfb Hfs Hsb Hss Hco).
    rewrite (trade_sell_open _ _ _ _ _ _ user' course' Hfb Hfs Hsb Hss).
    rewrite settle_reserved; [lia | assumption |].
    intros Hnone. apply ids_below_fresh; [| assumption].
    pose proof (settle_next_le (next_oid db) b s (fill req b s) (balance db))
      as (_ & Hlt).
    specialize (Hlt Hnone). lia.
Qed.

Lemma serve_keeps_books_ok (rs : list Request) (db : DB) :
  books_ok db -> (next_oid (serve rs db) <= 2 ^ 96)%N ->
  books_ok (serve rs db).
Proof.
  revert db. induction rs as [| r rs IH]; intros db Hdb Hbound; simpl in *;
    [assumption |].
  apply IH; [| assumption].
  apply handle_keeps_books_ok; [assumption |].
  pose proof (serve_next_oid rs (fst (handle r db))). lia.
Qed.

Lemma serve_keeps_orders_open (rs : list Request) (db : DB) :
  Forall (fun o => 0 <= o_amount o) (order db) ->
  Forall (fun o => 0 <= o_amount o) (order (serve rs db)).
Proof.
  revert db. induction rs as [| r rs IH]; intros db Hdb; simpl; [assumption |].
  apply IH. now apply handle_keeps_orders_open.
Qed.

Lemma sell_open_nonnegative (c : list OrderDoc) (user_id course_id : string) :
  Forall (fun o => 0 <= o_amount o) c -> 0 <= sell_open c user_id course_id.
Proof.
  unfold sell_open. induction 1 as [| o r Ho Hr IH]; simpl; [lia |].
  unfold sell_weight at 1. destruct (_ && _); lia.
Qed.

(** X17. Whatever the requests of a session, negative trades included, what
    an owner has reserved stays equal to what the owner's sell orders still
    offer; and it stays non-negative when no order of the initial store has
    a negative open amount. *)
Theorem reserved_is_open_sell_orders (rs : list Request) (db : DB)
    (user_id course_id : string) :
  books_ok db -> (next_oid (serve rs db) <= 2 ^ 96)%N ->
  reserved (serve rs db) user_id course_id
  = sell_open (order (serve rs db)) user_id course_id
  /\ (Forall (fun o => 0 <= o_amount o) (order db) ->
      0 <= reserved (serve rs db) user_id course_id).
Proof.
  intros Hdb Hbound.
  destruct (serve_keeps_books_ok rs db Hdb Hbound) as (_ & Hbooks).
  split; [apply Hbooks |]. intros Horders.
  rewrite Hbooks. apply sell_open_nonnegative.
  now apply serve_keeps_orders_open.
Qed.

Lemma reserved_is_open_sell_orders_witness :
  books_ok empty_db
  /\ (next_oid (serve negative_session empty_db) <= 2 ^ 96)%N
  /\ reserved (serve negative_session empty_db) "U1" demo_course_id
     = sell_open (order (serve negative_session empty_db)) "U1" demo_course_id
  /\ Forall (fun o => 0 <= o_amount o) (order empty_db)
  /\ 0 <= reserved (serve negative_session empty_db) "U1" demo_course_id.
Proof.
  assert (H1 : books_ok empty_db).
  { split; [split; constructor |]. intros user_id course_id. reflexivity. }
  assert (H2 : (next_oid (serve negative_session empty_db) <= 2 ^ 96)%N).
  { vm_compute. discriminate. }
  assert (H3 : Forall (fun o => 0 <= o_amount o) (order empty_db)) by constructor.
  split; [exact H1 |]. split; [exact H2 |].
  destruct (reserved_is_open_sell_orders negative_session empty_db "U1"
              demo_course_id H1 H2) as [Heq Hpos].
  split; [exact Heq |]. split; [exact H3 | exact (Hpos H3)].
Defined.

(* ================================================================== *)
(** * Reading a course *)

(** The outcomes of [get_course]. *)
Lemma get_course_cases (course_id : string) (db : DB) :
  (ObjectId.of_str course_id = None
   /\ get_course course_id db = (db, HTTPException 400 "Invalid id"))
  \/ (exists oid,
        ObjectId.of_str course_id = Some oid
        /\ find_one (course_by_id oid) (course db) = None
        /\ get_course course_id db = (db, HTTPException 404 "Course not found"))
  \/ (exists oid course_doc,
        ObjectId.of_str course_id = Some oid
        /\ find_one (course_by_id oid) (course db) = Some course_doc
        /\ get_course course_id db
           = (db, Returned
                    {| cv_course := course_doc;
                       cv_token := find_one (token_by_course course_id)
                                     (coursetoken db) |})).
Proof.
  unfold get_course. unfold_M. simpl.
  destruct (ObjectId.of_str course_id) as [oid |]; simpl; [| auto].
  right. destruct (find_one (course_by_id oid) (course db)) as [cd |] eqn:Hc; simpl.
  - right. exists oid, cd. auto.
  - left. exists oid. auto.
Qed.



(** X19. [get_course] only reads, and it agrees with [purchase_course] on
    what a course is: both answer 400 for the same identifiers and 404 for
    the same stores; and a course that [get_course] shows without a token
    record is one that cannot be bought (500). *)
Theorem get_course_agrees_with_purchase (course_id : string) (req : PurchaseRequest)
    (db : DB) :
  fst (get_course course_id db) = db
  /\ (snd (get_course course_id db) = HTTPException 400 "Invalid id"
      <-> snd (purchase_course course_id req db) = HTTPException 400 "Invalid id")
  /\ (snd (get_course course_id db) = HTTPException 404 "Course not found"
      <-> snd (purchase_course course_id req db)
          = HTTPException 404 "Course not found")
  /\ ((exists view, snd (get_course course_id db) = Returned view
                    /\ cv_token view = None)
      <-> snd (purchase_course course_id req db)
          = HTTPException 500 "Token record missing for course").
Proof.
  destruct (get_course_cases course_id db)
    as [(Hoid & Hget) | [(oid & Hoid & Hc & Hget) | (oid & cd & Hoid & Hc & Hget)]];
    rewrite Hget; simpl; (split; [reflexivity |]);
    destruct (purchase_course_cases course_id req db)
      as [(Hoid' & Hp) | [(oid' & Hoid' & Hc' & Hp)
         | [(oid' & cd' & Hoid' & Hc' & Ht & Hp)
         | (oid' & cd' & tk & Hoid' & Hc' & Ht & Hp)]]];
    try congruence;
    try (rewrite Hoid in Hoid'; injection Hoid' as <-; congruence).
  - rewrite Hp. simpl. repeat split; try discriminate; try tauto.
    intros (view & H & _). discriminate.
  - rewrite Hp. simpl. repeat split; try discriminate; try tauto.
    intros (view & H & _). discriminate.
  - rewrite Hp, Ht. simpl. repeat split; try discriminate; try tauto.
    intros _. eexists. split; reflexivity.
  - rewrite Ht. repeat split; try discriminate; try (intros H; now apply Hp in H).
    intros (view & H & Hnone). injection H as <-. discriminate.
Qed.

(* ================================================================== *)
(** * One balance record per owner *)

Lemma find_one_owner_None (c : list BalanceDoc) (user_id course_id : string) :
  find_one (balance_by_owner user_id course_id) c = None ->
  ~ In (user_id, course_id) (map owner c).
Proof.
  intros Hnone Hin. apply find_one_None_Forall in Hnone.
  rewrite Forall_forall in Hnone.
  apply in_map_iff in Hin. destruct Hin as (b & Hb & Hin).
  specialize (Hnone b Hin). unfold owner in Hb. injection Hb as Hu Hc.
  rewrite balance_by_owner_refl in Hnone by assumption. discriminate.
Qed.

Lemma owner_update (q : BalanceDoc -> bool) (u : BalanceDoc -> BalanceDoc)
    (c : list BalanceDoc) :
  keeps_owner u -> map owner (update_one q u c) = map owner c.
Proof.
  intros Hu. apply update_one_map. intros d. unfold owner.
  destruct (Hu d) as (_ & -> & ->). reflexivity.
Qed.

(** A trade inserts a record only for an owner whose lookup found none. *)
Lemma settle_owners (next : N) (buy_doc sell_doc : OrderDoc) (amount : Z)
    (c : list BalanceDoc) :
  NoDup (map owner c) ->
  NoDup (map owner (settle next buy_doc sell_doc amount c)).
Proof.
  unfold settle.
  set (seller := balance_by_owner (o_user_id sell_doc) (o_course_id sell_doc)).
  set (buyer := balance_by_owner (o_user_id buy_doc) (o_course_id buy_doc)).
  set (zs := {| b_id := ObjectId.generate next; b_user_id := o_user_id sell_doc;
                b_course_id := o_course_id sell_doc;
                b_amount := Some 0; b_reserved := Some 0 |}).
  assert (Hstep : forall (c1 : list BalanceDoc) (next1 : N) (bs : BalanceDoc),
             NoDup (map owner c1) ->
             NoDup (map owner
               match find_one buyer
                       (update_one (balance_by_id (b_id bs))
                          (balance_inc_reserved (- amount)) c1) with
               | Some bal_buyer =>
                   update_one (balance_by_id (b_id bal_buyer))
                     (balance_inc_amount amount)
                     (update_one (balance_by_id (b_id bs))
                        (balance_inc_reserved (- amount)) c1)
               | None =>
                   update_one (balance_by_id (b_id bs))
                     (balance_inc_reserved (- amount)) c1
                   ++ [ {| b_id := ObjectId.generate next1;
                           b_user_id := o_user_id buy_doc;
                           b_course_id := o_course_id buy_doc;
                           b_amount := Some amount; b_reserved := None |} ]
               end)).
  { intros c1 next1 bs Hc1.
    destruct (find_one buyer _) as [bb |] eqn:Hbuyer.
    - rewrite !owner_update;
        [assumption | apply balance_inc_reserved_keeps
        | apply balance_inc_amount_keeps].
    - rewrite map_app. simpl. apply NoDup_snoc.
      + rewrite owner_update; [assumption | apply balance_inc_reserved_keeps].
      + exact (find_one_owner_None _ _ _ Hbuyer). }
  destruct (find_one seller c) as [bs |] eqn:Hseller.
  - rewrite Hseller. intros Hc. now apply Hstep.
  - rewrite (find_one_None_app _ _ _ Hseller).
    assert (Hzs : seller zs = true) by (apply balance_by_owner_refl; reflexivity).
    rewrite Hzs. intros Hc. apply Hstep.
    rewrite map_app. simpl. apply NoDup_snoc; [assumption |].
    exact (find_one_owner_None _ _ _ Hseller).
Qed.

Lemma handle_keeps_owners (r : Request) (db : DB) :
  NoDup (map owner (balance db)) ->
  NoDup (map owner (balance (fst (handle r db)))).
Proof.
  intros Hnd. destruct r as [c | course_id req | o | req].
  - rewrite handle_fst_course. destruct (Course_valid c); [| assumption].
    now destruct (create_course_returns c db) as (_ & _ & _ & -> & _).
  - rewrite handle_fst_purchase.
    destruct (purchase_course_balance_effect course_id req db)
      as [(-> & H) | [(tk & w & bal & Htk & Hbal & -> & H)
         | (tk & w & Htk & Hbal & -> & _)]]; [assumption | |].
    + rewrite owner_update; [assumption | apply balance_inc_amount_keeps].
    + rewrite map_app. simpl. apply NoDup_snoc; [assumption |].
      exact (find_one_owner_None _ _ _ Hbal).
  - rewrite handle_fst_order. destruct (Order_valid o); [| assumption].
    destruct (place_order_effect o db)
      as (_ & [(-> & _) | [(_ & -> & _) | (bal & _ & _ & _ & -> & _)]]);
      [assumption | assumption |].
    rewrite owner_update; [assumption | apply balance_inc_both_keeps].
  - rewrite handle_fst_trade.
    destruct (match_trade_cases req db)
      as [(_ & H) | [(boid & _ & _ & H) | [(boid & soid & _ & _ & _ & H)
         | [(boid & soid & b & s & _ & _ & _ & _ & _ & H)
         | [(boid & soid & b & s & _ & _ & _ & _ & _ & _ & _ & H)
         | (boid & soid & b & s & Hb & Hs & Hfb & Hfs & Hsb & Hss & Hco & _)]]]]];
      try (rewrite H; simpl; assumption).
    rewrite (match_trade_balance req db _ _ _ _ Hb Hs Hfb Hfs Hsb Hss Hco).
    now apply settle_owners.
Qed.

(** X20. The uniqueness of the balance records: a store with at most one
    balance record per (user, course) pair has at most one after any
    session. Every handler looks the owner up before it inserts, and
    inserts only when the lookup found nothing. *)
Theorem one_record_per_owner (rs : list Request) (db : DB) :
  NoDup (map owner (balance db)) ->
  NoDup (map owner (balance (serve rs db))).
Proof.
  revert db. induction rs as [| r rs IH]; intros db Hdb; simpl; [assumption |].
  apply IH. now apply handle_keeps_owners.
Qed.

Lemma one_record_per_owner_witness :
  NoDup (map owner (balance empty_db))
  /\ NoDup (map owner (balance (serve trading_session empty_db))).
Proof.
  assert (H : NoDup (map owner (balance empty_db))) by constructor.
  split; [exact H |]. exact (one_record_per_owner trading_session empty_db H).
Defined.

(* ================================================================== *)
(** * Every token is accounted for *)

(** An update that changes neither what a query sees nor what is read of
    the record does not change what the query reads. *)
Lemma find_one_update_map {D A : Type} (f : D -> A) (q' q : D -> bool)
    (u : D -> D) (c : list D) :
  (forall d, q' (u d) = q' d) -> (forall d, f (u d) = f d) ->
  option_map f (find_one q' (update_one q u c)) = option_map f (find_one q' c).
Proof.
  intros Hq Hf. unfold find_one. induction c as [| d r IH]; simpl; [reflexivity |].
  destruct (q d); simpl.
  - rewrite Hq. destruct (q' d); simpl; [now rewrite Hf | reflexivity].
  - destruct (q' d); simpl; [reflexivity | exact IH].
Qed.

(** An update through one query is not seen by a query that selects none
    of the same records. *)
Lemma find_one_update_disjoint {D : Type} (q' q : D -> bool) (u : D -> D)
    (c : list D) :
  (forall d, q' (u d) = q' d) -> (forall d, q d = true -> q' d = false) ->
  find_one q' (update_one q u c) = find_one q' c.
Proof.
  intros Hq Hdis. unfold find_one. induction c as [| d r IH]; simpl; [reflexivity |].
  destruct (q d) eqn:Hd; simpl.
  - now rewrite Hq, (Hdis d Hd).
  - destruct (q' d); [reflexivity | exact IH].
Qed.

(** What a purchase does to the token records and to the balance records
    together. *)
Lemma purchase_course_ledger_effect (course_id : string) (req : PurchaseRequest)
    (db : DB) :
  let db' := fst (purchase_course course_id req db) in
  (balance db' = balance db /\ coursetoken db' = coursetoken db)
  \/ exists token whole price,
       find_one (token_by_course course_id) (coursetoken db) = Some token
       /\ coursetoken db'
          = update_one (token_by_course course_id)
              (token_inc (allocation token whole) (- allocation token whole) price)
              (coursetoken db)
       /\ balance db'
          = match find_one (balance_by_owner (pr_user_id req) course_id)
                    (balance db) with
            | Some bal =>
                update_one (balance_by_id (b_id bal))
                  (balance_inc_amount (allocation token whole)) (balance db)
            | None =>
                balance db
                ++ [ {| b_id := ObjectId.generate (N.succ (next_oid db));
                        b_user_id := pr_user_id req; b_course_id := course_id;
                        b_amount := Some (allocation token whole);
                        b_reserved := None |} ]
            end.
Proof.
  unfold purchase_course. unfold_M. simpl.
  destruct (ObjectId.of_str course_id) as [oid |]; simpl; [| auto].
  destruct (find_one (course_by_id oid) (course db)) as [cd |]; simpl; [| auto].
  destruct (find_one (token_by_course course_id) (coursetoken db)) as [tk |] eqn:Ht;
    simpl; [| auto].
  destruct (PyFloat.of_int (get (t_total_supply tk) 1000)) as [f |]; simpl; [| auto].
  destruct (PyFloat.to_int (PyFloat.mul f PyFloat.c_0_01)) as [w |]; simpl; [| auto].
  fold (allocation tk w). right. exists tk, w, (get (c_price_usd cd) PyFloat.zero).
  split; [reflexivity |].
  destruct (find_one (balance_by_owner (pr_user_id req) course_id) (balance db));
    split; reflexivity.
Qed.

Lemma place_order_coursetoken (o : Order) (db : DB) :
  coursetoken (fst (place_order o db)) = coursetoken db.
Proof.
  unfold place_order. unfold_M. simpl.
  destruct (ObjectId.of_str (or_course_id o)); simpl; [| reflexivity].
  destruct (find_one _ (course db)); simpl; [| reflexivity].
  destruct (or_side o); simpl; [reflexivity |].
  destruct (find_one _ (balance db)) as [bal |]; simpl; [| reflexivity].
  destruct (_ <? _); reflexivity.
Qed.

(** One request keeps every token accounted for, whatever it asks for. *)
Lemma handle_keeps_ledger_accounted (r : Request) (db : DB) :
  ledger_accounted db -> (next_oid (fst (handle r db)) <= 2 ^ 96)%N ->
  ledger_accounted (fst (handle r db)).
Proof.
  intros (Hids & Hacc) Hbound.
  split; [now apply handle_keeps_ids_ok |].
  destruct Hids as (Hnd & Hbelow).
  intros cid. specialize (Hacc cid). unfold tokens_accounted in *.
  destruct r as [c | course_id req | o | req].
  - rewrite handle_fst_course. destruct (Course_valid c) eqn:Hvalid; [| assumption].
    destruct (create_course_returns c db) as (_ & _ & -> & -> & _).
    rewrite find_one_app.
    destruct (find_one (token_by_course cid) (coursetoken db)) as [tk |];
      [assumption |].
    rewrite find_one_cons. unfold token_by_course at 1. simpl t_course_id.
    destruct (String.eqb _ cid); [| assumption].
    simpl in *. rewrite Hacc. split; [reflexivity | lia].
  - rewrite handle_fst_purchase.
    destruct (purchase_course_ledger_effect course_id req db)
      as [(-> & ->) | (tk & w & price & Htk & -> & ->)]; [assumption |].
    assert (Hheld :
              held_in
                match find_one (balance_by_owner (pr_user_id req) course_id)
                        (balance db) with
                | Some bal =>
                    update_one (balance_by_id (b_id bal))
                      (balance_inc_amount (allocation tk w)) (balance db)
                | None =>
                    balance db
                    ++ [ {| b_id := ObjectId.generate (N.succ (next_oid db));
                            b_user_id := pr_user_id req; b_course_id := course_id;
                            b_amount := Some (allocation tk w);
                            b_reserved := None |} ]
                end cid
              = held_in (balance db) cid
                + (if String.eqb course_id cid then allocation tk w else 0)).
    { destruct (find_one (balance_by_owner _ _) (balance db)) as [bal |] eqn:Hbal.
      - rewrite (held_in_update_found _ _ bal _ cid Hnd Hbal
                   (balance_inc_amount_keeps _)).
        destruct (find_one_split _ _ _ Hbal) as (_ & _ & _ & Hq & _).
        apply balance_by_owner_true in Hq. destruct Hq as [_ ->].
        rewrite record_total_inc_amount. destruct (String.eqb _ _); lia.
      - rewrite held_in_app. simpl. unfold record_total. simpl.
        destruct (String.eqb _ _); lia. }
    rewrite Hheld. clear Hheld.
    destruct (String.eqb_spec course_id cid) as [<- | Hne].
    + rewrite find_one_update_one by (intros d Hd; exact Hd).
      rewrite Htk in *. simpl in *.
      destruct (t_circulating_supply tk), (t_treasury_token_balance tk),
        (t_total_supply tk); simpl in *; try contradiction. lia.
    + rewrite find_one_update_disjoint; [now rewrite Z.add_0_r | reflexivity |].
      intros d Hd. unfold token_by_course in *. apply String.eqb_eq in Hd.
      rewrite Hd. now apply String.eqb_neq.
  - rewrite handle_fst_order. destruct (Order_valid o); [| assumption].
    rewrite place_order_coursetoken.
    destruct (place_order_effect o db)
      as (_ & [(-> & _) | [(_ & -> & _) | (bal & Hbal & _ & _ & -> & _)]]);
      [assumption | assumption |].
    rewrite (held_in_update_found _ _ bal _ cid Hnd Hbal
               (balance_inc_both_keeps _ _)).
    rewrite record_total_inc_both.
    replace (if String.eqb (b_course_id bal) cid
             then record_total bal - record_total bal else 0) with 0
      by (destruct (String.eqb _ _); lia).
    now rewrite Z.add_0_r.
  - rewrite handle_fst_trade in *.
    assert (Htokens :
              option_map supply_fields
                (find_one (token_by_course cid)
                   (coursetoken (fst (match_trade req db))))
              = option_map supply_fields
                  (find_one (token_by_course cid) (coursetoken db))).
    { destruct (match_trade_coursetoken req db) as [-> | (course_id & fee & ->)];
        [reflexivity |].
      apply find_one_update_map; reflexivity. }
    rewrite Htokens.
    destruct (match_trade_cases req db)
      as [(_ & H) | [(boid & _ & _ & H) | [(boid & soid & _ & _ & _ & H)
         | [(boid & soid & b & s & _ & _ & _ & _ & _ & H)
         | [(boid & soid & b & s & _ & _ & _ & _ & _ & _ & _ & H)
         | (boid & soid & b & s & Hb & Hs & Hfb & Hfs & Hsb & Hss & Hco & _)]]]]];
      try (rewrite H; simpl; assumption).
    rewrite (match_trade_next req db _ _ _ _ Hb Hs Hfb Hfs Hsb Hss Hco) in Hbound.
    rewrite (match_trade_balance req db _ _ _ _ Hb Hs Hfb Hfs Hsb Hss Hco).
    rewrite settle_conserves; [assumption | assumption | assumption |].
    intros Hnone. apply ids_below_fresh; [| assumption].
    pose proof (settle_next_le (next_oid db) b s (fill req b s) (balance db))
      as (_ & Hlt).
    specialize (Hlt Hnone). lia.
Qed.

Lemma serve_keeps_ledger_accounted (rs : list Request) (db : DB) :
  ledger_accounted db -> (next_oid (serve rs db) <= 2 ^ 96)%N ->
  ledger_accounted (serve rs db).
Proof.
  revert db. induction rs as [| r rs IH]; intros db Hdb Hbound; simpl in *;
    [assumption |].
  apply IH; [| assumption].
  apply handle_keeps_ledger_accounted; [assumption |].
  pose proof (serve_next_oid rs (fst (handle r db))). lia.
Qed.

(** X21. The ledger invariant of the whole store. If, for every course,
    the balance records hold (available plus reserved, over all users)
    exactly what the course's token record counts as circulating, and
    circulating plus treasury is the total supply, then this is so after any
    session, negative trades included: no handler creates or destroys a
    token. *)
Theorem tokens_stay_accounted (rs : list Request) (db : DB) (course_id : string) :
  ledger_accounted db -> (next_oid (serve rs db) <= 2 ^ 96)%N ->
  tokens_accounted (serve rs db) course_id
  /\ forall token,
       find_one (token_by_course course_id) (coursetoken (serve rs db)) = Some token ->
       held_in (balance (serve rs db)) course_id
       = get (t_circulating_supply token) 0
       /\ held_in (balance (serve rs db)) course_id
          + get (t_treasury_token_balance token) 0
          = get (t_total_supply token) 0.
Proof.
  intros Hdb Hbound.
  destruct (serve_keeps_ledger_accounted rs db Hdb Hbound) as (_ & Hacc).
  specialize (Hacc course_id). split; [exact Hacc |].
  intros token Htoken. unfold tokens_accounted in Hacc. rewrite Htoken in Hacc.
  unfold supply_fields in Hacc. simpl in Hacc.
  destruct (t_circulating_supply token), (t_treasury_token_balance token),
    (t_total_supply token); simpl in *; try contradiction. lia.
Qed.

Lemma tokens_stay_accounted_witness :
  ledger_accounted empty_db
  /\ (next_oid (serve negative_session empty_db) <= 2 ^ 96)%N
  /\ tokens_accounted (serve negative_session empty_db) demo_course_id
  /\ forall token,
       find_one (token_by_course demo_course_id)
         (coursetoken (serve negative_session empty_db)) = Some token ->
       held_in (balance (serve negative_session empty_db)) demo_course_id
       = get (t_circulating_supply token) 0
       /\ held_in (balance (serve negative_session empty_db)) demo_course_id
          + get (t_treasury_token_balance token) 0
          = get (t_total_supply token) 0.
Proof.
  assert (H1 : ledger_accounted empty_db).
  { split; [split; constructor |]. intros course_id. exact eq_refl. }
  assert (H2 : (next_oid (serve negative_session empty_db) <= 2 ^ 96)%N).
  { vm_compute. discriminate. }
  split; [exact H1 |]. split; [exact H2 |].
  exact (tokens_stay_accounted negative_session empty_db demo_course_id H1 H2).
Defined.
